(** * Transaction analyzer: the ledger pipeline of [transaction_analyzer.py]

    A shallow embedding of [TransactionAnalyzer]: the loader [load_data],
    the normalisation pass [_preprocess_data], the summary
    [analyze_structure], the charts, the two calls of the generation
    service and the report writers, followed by the properties that can be
    stated over them.

    Conventions of the embedding.
    - A pandas column is a typed list of cells ([column]); a missing cell
      (NaN, NaT) is [None].
    - Text is a byte string holding the UTF-8 encoding of the Python text,
      so the pound sign is two bytes and a no-break space is two bytes.
    - What pandas and Python compute from one cell (a timestamp read from a
      text with a format, a number read from a text, the text of a number)
      is not defined here: the pass is parametrised by these functions
      ([Pandas]), as the analyzer is by the reductions of pandas.
    - Python exceptions are values of [exn]; a call that may raise returns a
      [result]. *)

From Stdlib Require Import List String Ascii ZArith Lia Bool Arith.
From Stdlib Require Import Decimal DecimalString DecimalZ DecimalNat.
Import ListNotations.
Open Scope string_scope.

Set Implicit Arguments.

(** ** Exceptions and results *)

Inductive exn : Type :=
| KeyError (msg : string)
| ValueError (msg : string)
| TypeError (msg : string)
| NameError (name : string)
| ServiceError (msg : string)
| Exception (msg : string).

Inductive result (A : Type) : Type :=
| Ok (a : A)
| Raise (e : exn).

Arguments Ok {A} a.
Arguments Raise {A} e.

Definition bind {A B : Type} (r : result A) (k : A -> result B) : result B :=
  match r with
  | Ok a => k a
  | Raise e => Raise e
  end.

Notation "x <- r ;; k" := (bind r (fun x => k))
  (at level 61, r at next level, right associativity).

(** [str(e)] for the exceptions of the model.  [str] of a [KeyError] is the
    [repr] of its argument, hence the quotes. *)
Definition str_exn (e : exn) : string :=
  match e with
  | KeyError k => "'" ++ k ++ "'"
  | ValueError m => m
  | TypeError m => m
  | NameError n => "name '" ++ n ++ "' is not defined"
  | ServiceError m => m
  | Exception m => m
  end.

(** ** Text helpers *)

Definition LF : string := String "010"%char EmptyString.

Definition code (c : ascii) : nat := nat_of_ascii c.

(** The characters for which [str.isspace] holds.  In one byte: U+0009 to
    U+000D and U+001C to U+0020. *)
Definition space1 (a : ascii) : bool :=
  ((9 <=? code a) && (code a <=? 13) || (28 <=? code a) && (code a <=? 32))%nat.

(** In two bytes: U+0085 and U+00A0. *)
Definition space2 (a b : ascii) : bool :=
  ((code a =? 194) && ((code b =? 133) || (code b =? 160)))%nat.

(** In three bytes: U+1680; U+2000 to U+200A, U+2028, U+2029 and U+202F;
    U+205F; U+3000. *)
Definition space3 (a b c : ascii) : bool :=
  ((code a =? 225) && (code b =? 154) && (code c =? 128)
   || (code a =? 226) && (code b =? 128)
      && ((128 <=? code c) && (code c <=? 138)
          || (code c =? 168) || (code c =? 169) || (code c =? 175))
   || (code a =? 226) && (code b =? 129) && (code c =? 159)
   || (code a =? 227) && (code b =? 128) && (code c =? 128))%nat.

(** [s.lstrip()] *)
Fixpoint lstrip (s : string) : string :=
  match s with
  | EmptyString => EmptyString
  | String a r =>
      if space1 a then lstrip r
      else
        match r with
        | EmptyString => s
        | String b r2 =>
            if space2 a b then lstrip r2
            else
              match r2 with
              | EmptyString => s
              | String c r3 => if space3 a b c then lstrip r3 else s
              end
        end
  end.

(** A text of whitespace only. *)
Definition blank (s : string) : bool :=
  match lstrip s with EmptyString => true | _ => false end.

(** [s.rstrip()]: the text up to the point from which only whitespace
    follows. *)
Fixpoint rstrip (s : string) : string :=
  match s with
  | EmptyString => EmptyString
  | String a r => if blank s then EmptyString else String a (rstrip r)
  end.

(** [s.strip()] *)
Definition strip (s : string) : string := rstrip (lstrip s).

(** [s.replace(c, '')] for a one-byte [c]. *)
Fixpoint remove_char (c : ascii) (s : string) : string :=
  match s with
  | EmptyString => EmptyString
  | String a s' => if Ascii.eqb a c then remove_char c s' else String a (remove_char c s')
  end.

(** [s.replace('£', '')]: the pound sign is the byte pair 194, 163. *)
Fixpoint remove_pound (s : string) : string :=
  match s with
  | EmptyString => EmptyString
  | String a s' =>
      match s' with
      | String b s'' =>
          if ((code a =? 194) && (code b =? 163))%nat then remove_pound s''
          else String a (remove_pound s')
      | EmptyString => s
      end
  end.

Definition string_of_nat (n : nat) : string := NilZero.string_of_uint (Nat.to_uint n).

(** ** Amounts *)

(** The number of a numeric cell, named by a decimal [m * 10^e], or an
    infinity.  Nothing in the model computes with these numbers: what is
    read from a text and what a sum is are left to pandas. *)
Inductive float : Type :=
| Fin (m : Z) (e : Z)
| Inf (neg : bool).

Definition fzero : float := Fin 0 0.

(** [x >= 0] *)
Definition float_nonneg (x : float) : bool :=
  match x with
  | Fin m _ => (0 <=? m)%Z
  | Inf neg => negb neg
  end.

(** ** Timestamps *)

(** A timestamp: the nanoseconds since the first of January 1970, which is
    what a [datetime64] cell holds. *)
Definition timestamp : Type := Z.

(** ** Columns and frames *)

(** A pandas column with its dtype: [object] (text), numeric, or
    [datetime64]. *)
Inductive column : Type :=
| ObjCol (cells : list (option string))
| NumCol (cells : list (option float))
| DateCol (cells : list (option timestamp)).

(** A [DataFrame]: the row labels and the labelled columns, in order.
    Labels may repeat. *)
Record DataFrame : Type := mkdf {
  index : list nat;
  columns : list (string * column)
}.

Definition is_none {A : Type} (o : option A) : bool :=
  match o with None => true | Some _ => false end.

Definition not_none {A : Type} (o : option A) : bool := negb (is_none o).

Definition col_len (c : column) : nat :=
  match c with
  | ObjCol l => List.length l
  | NumCol l => List.length l
  | DateCol l => List.length l
  end.

(** [c.isna()] *)
Definition isna (c : column) : list bool :=
  match c with
  | ObjCol l => map is_none l
  | NumCol l => map is_none l
  | DateCol l => map is_none l
  end.

(** The elements of [xs] at the positions where [keep] holds. *)
Fixpoint select {A : Type} (keep : list bool) (xs : list A) : list A :=
  match keep, xs with
  | k :: keep', x :: xs' => if k then x :: select keep' xs' else select keep' xs'
  | _, _ => []
  end.

Definition col_select (keep : list bool) (c : column) : column :=
  match c with
  | ObjCol l => ObjCol (select keep l)
  | NumCol l => NumCol (select keep l)
  | DateCol l => DateCol (select keep l)
  end.

Definition labels (df : DataFrame) : list string := map fst (columns df).

Definition nrows (df : DataFrame) : nat := List.length (index df).

(** [l in df.columns] *)
Definition has_column (df : DataFrame) (l : string) : bool :=
  existsb (String.eqb l) (labels df).

(** What [df[l]] selects: nothing (a [KeyError]), one column (a Series),
    or several columns under a repeated label (a DataFrame). *)
Inductive selection : Type :=
| Absent
| Single (c : column)
| Several (cs : list column).

Definition selection_of (hits : list (string * column)) : selection :=
  match hits with
  | [] => Absent
  | [(_, c)] => Single c
  | _ => Several (map snd hits)
  end.

Definition getitem (df : DataFrame) (l : string) : selection :=
  selection_of (filter (fun lc => fst lc =? l) (columns df)).

(** [df[l] = c]: in place when the label exists, appended otherwise. *)
Definition setitem (df : DataFrame) (l : string) (c : column) : DataFrame :=
  if has_column df l then
    mkdf (index df) (map (fun lc => if fst lc =? l then (l, c) else lc) (columns df))
  else
    mkdf (index df) (columns df ++ [(l, c)])%list.

(** Keep the rows where [keep] holds, as [dropna] does with the mask of
    non-missing values. *)
Definition drop_rows (keep : list bool) (df : DataFrame) : DataFrame :=
  mkdf (select keep (index df))
       (map (fun lc => (fst lc, col_select keep (snd lc))) (columns df)).

(** [df.empty]: no rows or no columns. *)
Definition df_empty (df : DataFrame) : bool :=
  match index df, columns df with
  | [], _ => true
  | _, [] => true
  | _, _ => false
  end.

(** ** Configuration *)

Definition DATE : string := "Transaction Date".
Definition DEBIT : string := "Debit Amount".
Definition CREDIT : string := "Credit Amount".
Definition TYPE : string := "Transaction Type".
Definition DESCRIPTION : string := "Transaction Description".
Definition CATEGORY : string := "Category".

(** ** Normalisation: [_preprocess_data] *)

(** What pandas and Python do with one cell.
    - [strptime fmt text]: the timestamp that
      [pd.to_datetime(., format=fmt, errors='coerce')] reads from a text,
      [None] where it gives NaT.
    - [to_numeric text]: the number that
      [pd.to_numeric(., errors='coerce')] followed by [astype(float)] reads
      from a text, [None] where it gives NaN.
    - [str_float x]: [str] of a number.
    - [str_timestamp cells t]: the text [astype(str)] gives the timestamp
      [t] in a column holding [cells]. *)
Class Pandas : Type := mkPandas {
  strptime : string -> string -> option timestamp;
  to_numeric : string -> option float;
  str_float : float -> string;
  str_timestamp : list (option timestamp) -> timestamp -> string
}.

(** The three replacements of lines 132 to 134. *)
Definition clean_amount (s : string) : string :=
  remove_char " " (remove_char "," (remove_pound s)).

(** [fillna(0)] on one cell. *)
Definition fillna0 (o : option float) : option float :=
  match o with Some x => Some x | None => Some fzero end.

(** The column of [n] zeros that [df[col] = 0.0] broadcasts. *)
Definition zeros (n : nat) : column := NumCol (repeat (Some fzero) n).

Definition is_numeric_dtype (c : column) : bool :=
  match c with NumCol _ => true | _ => false end.

Definition is_string_dtype (c : column) : bool :=
  match c with ObjCol l => forallb not_none l | _ => false end.

(** The failure of [pd.to_datetime] on a frame and of [if] on a Series,
    which is what a repeated label leads to. *)
Definition assemble_error : exn :=
  ValueError "cannot assemble with duplicate keys".
Definition ambiguous_error : exn :=
  ValueError "The truth value of a Series is ambiguous. Use a.empty, a.bool(), a.item(), a.any() or a.all().".

(** [df.columns = df.columns.str.strip()] *)
Definition strip_columns (df : DataFrame) : DataFrame :=
  mkdf (index df) (map (fun lc => (strip (fst lc), snd lc)) (columns df)).

Section Normalisation.

Context {pd : Pandas}.

(** [pd.to_datetime(c, format='%d/%m/%Y', errors='coerce')]: a text is
    read with the format and a missing value stays missing; a number is
    turned into the text of an integer, which the format, having slashes,
    never matches; a column that already holds timestamps is returned as
    it is. *)
Definition to_datetime (c : column) : list (option timestamp) :=
  match c with
  | ObjCol l =>
      map (fun o => match o with
                    | Some s => strptime "%d/%m/%Y" s
                    | None => None
                    end) l
  | NumCol l => map (fun _ => None) l
  | DateCol l => l
  end.

Definition preprocess_date (df : DataFrame) : result DataFrame :=
  if has_column df DATE then
    match getitem df DATE with
    | Single c =>
        let parsed := to_datetime c in
        let df1 := setitem df DATE (DateCol parsed) in
        if existsb is_none parsed
        then Ok (drop_rows (map not_none parsed) df1)
        else Ok df1
    | _ => Raise assemble_error
    end
  else Ok df.

(** [c.astype(str)], cell by cell; a missing value is written [nan] or
    [NaT]. *)
Definition astype_str (c : column) : list string :=
  match c with
  | ObjCol l => map (fun o => match o with Some s => s | None => "nan" end) l
  | NumCol l => map (fun o => match o with Some x => str_float x | None => "nan" end) l
  | DateCol l =>
      map (fun o => match o with Some t => str_timestamp l t | None => "NaT" end) l
  end.

(** The body of the inner [try]: text, replacements, [to_numeric],
    [fillna(0)] when something is missing, [astype(float)]. *)
Definition convert_amount (c : column) : result column :=
  let c1 := if negb (is_numeric_dtype c) && negb (is_string_dtype c)
            then ObjCol (map Some (astype_str c)) else c in
  let texts := map clean_amount (astype_str c1) in
  let nums := map to_numeric texts in
  let filled := if existsb is_none nums then map fillna0 nums else nums in
  Ok (NumCol filled).

(** One turn of the loop over the amount columns. *)
Definition process_amount (col : string) (df : DataFrame) : result DataFrame :=
  if negb (has_column df col) then
    Ok (setitem df col (zeros (nrows df)))
  else
    match getitem df col with
    | Single c =>
        if forallb (fun b => b) (isna c) then
          Ok (setitem df col (zeros (nrows df)))
        else
          match convert_amount c with
          | Ok c' => Ok (setitem df col c')
          | Raise _ => Ok (setitem df col (zeros (nrows df)))
          end
    | _ => Raise ambiguous_error
    end.

(** The statements of the outer [try], in order. *)
Definition preprocess_body (df : DataFrame) : result DataFrame :=
  df1 <- preprocess_date df ;;
  df2 <- fold_left (fun acc col => d <- acc ;; process_amount col d)
           [DEBIT; CREDIT] (Ok df1) ;;
  Ok (strip_columns df2).

Definition _preprocess_data (df : DataFrame) : result DataFrame :=
  match preprocess_body df with
  | Ok df' => Ok df'
  | Raise (KeyError k) => Raise (KeyError ("Required column not found: " ++ str_exn (KeyError k)))
  | Raise e => Raise (Exception ("Error preprocessing data: " ++ str_exn e))
  end.

End Normalisation.

(** ** Values and dictionaries *)

(** What the summary holds: [None], a missing value (NaN or NaT), a number,
    a text, a timestamp, or a Series (its labels and its values). *)
#[warnings="-register-all"] Inductive value : Type :=
| VNone
| VNull
| VNum (x : float)
| VStr (s : string)
| VDate (t : timestamp)
| VSeries (keys : list string) (vals : list value).

(** A Python [dict] with text keys: insertion order, one entry per key. *)
Definition dict (V : Type) : Type := list (string * V).

Fixpoint dict_set {V : Type} (d : dict V) (k : string) (v : V) : dict V :=
  match d with
  | [] => [(k, v)]
  | (k', v') :: d' =>
      if k' =? k then (k, v) :: d' else (k', v') :: dict_set d' k v
  end.

Fixpoint dict_get {V : Type} (d : dict V) (k : string) : option V :=
  match d with
  | [] => None
  | (k', v') :: d' => if k' =? k then Some v' else dict_get d' k
  end.

(** [k in d] *)
Definition dict_has {V : Type} (d : dict V) (k : string) : bool :=
  not_none (dict_get d k).

(** [Series.to_dict()]: the items are inserted in order, so the last value
    of a repeated label stays. *)
Definition to_dict {V : Type} (items : list (string * V)) : dict V :=
  fold_left (fun d kv => dict_set d (fst kv) (snd kv)) items [].

(** The present values of a column, in order. *)
Fixpoint somes {A : Type} (l : list (option A)) : list A :=
  match l with
  | [] => []
  | Some a :: l' => a :: somes l'
  | None :: l' => somes l'
  end.

(** ** Reductions *)

(** [min()] and [max()] of a column of timestamps skip NaT; NaT when
    nothing is left. *)
Definition date_min (cells : list (option timestamp)) : value :=
  match somes cells with
  | [] => VNull
  | t :: ts => VDate (fold_left Z.min ts t)
  end.

Definition date_max (cells : list (option timestamp)) : value :=
  match somes cells with
  | [] => VNull
  | t :: ts => VDate (fold_left Z.max ts t)
  end.

(** [c.isnull().sum()] *)
Definition null_count (c : column) : nat :=
  List.length (filter (fun b => b) (isna c)).

Inductive agg : Type := AggMin | AggMax | AggSum.

(** Per-column statistics as [describe().to_dict()] lays them out. *)
Definition stats : Type := dict (dict value).

(** The summary of [analyze_structure]; the nested dictionaries of the
    source are flattened into one record, and the key [warning] is present
    exactly when the field is [Some]. *)
Record Analysis : Type := mkAnalysis {
  num_transactions : nat;
  time_period_start : value;
  time_period_end : value;
  total_debit : value;
  total_credit : value;
  missing_values : dict nat;
  summary_stats : stats;
  warning : option string
}.

Definition no_data_analysis : Analysis :=
  mkAnalysis 0 VNone VNone (VNum fzero) (VNum fzero) [] []
             (Some "No data available for analysis").

(** ** The analyzer: [analyze_structure] *)

Section Analyzer.

(** What pandas computes from a whole column or frame:
    [describe().to_dict()]; the reductions of one column ([series_agg]),
    the sum of a numeric column among them; the reductions of a selection
    of several columns ([frame_agg]).  The earliest and the latest of a
    column of timestamps are computed here. *)
Variable describe : DataFrame -> stats.
Variable series_agg : agg -> column -> result value.
Variable frame_agg : agg -> list column -> result value.

(** [df[l].min()], [df[l].max()], [df[l].sum()]: the lookup raises
    [KeyError] when the label is absent. *)
Definition reduce (a : agg) (df : DataFrame) (l : string) : result value :=
  match getitem df l with
  | Absent => Raise (KeyError l)
  | Single c =>
      match a, c with
      | AggMin, DateCol ds => Ok (date_min ds)
      | AggMax, DateCol ds => Ok (date_max ds)
      | _, _ => series_agg a c
      end
  | Several cs => frame_agg a cs
  end.

Definition analyze_structure (df : DataFrame) : result Analysis :=
  if df_empty df then Ok no_data_analysis
  else
    let n := nrows df in
    start <- reduce AggMin df DATE ;;
    stop <- reduce AggMax df DATE ;;
    debit <- reduce AggSum df DEBIT ;;
    credit <- reduce AggSum df CREDIT ;;
    let missing := to_dict (map (fun lc => (fst lc, null_count (snd lc))) (columns df)) in
    Ok (mkAnalysis n start stop debit credit missing (describe df) None).

End Analyzer.

(** ** The generation service *)

(** What the service does on one attempt: the probe of
    [_check_ollama_connection] fails; or the probe answers and the
    [generate] call raises; or it returns a text. *)
Inductive attempt_outcome : Type :=
| ProbeFails
| ClientRaises (e : exn)
| Responds (text : string).

Inductive effect : Type :=
| Probe
| Generate
| Sleep (seconds : nat).

Definition unavailable_message : string :=
  "LLM service is currently unavailable. Please ensure Ollama is running and accessible.".

Definition retry_advice : string :=
  LF ++ "Please check the Ollama service and try again.".

(** The names bound at module level: the imports of lines 1 to 8 and the
    definitions of the module. *)
Definition module_globals : list string :=
  ["pd"; "plt"; "sns"; "os"; "datetime"; "ollama"; "load_dotenv";
   "Optional"; "Dict"; "Any"; "TextIO"; "CONFIG"; "COLUMN_CONFIG";
   "TransactionAnalyzer"; "_write_llm_insights"; "_write_judge_evaluation";
   "main"].

Definition name_defined (globals : list string) (n : string) : bool :=
  existsb (String.eqb n) globals.

Definition max_retries : nat := 3.
Definition retry_delay : nat := 5.

(** The [for] loop of [get_judge_evaluation] over the remaining attempt
    numbers.  The handler of an attempt that is not the last evaluates
    [time.sleep], which raises [NameError] out of the function when [time]
    is not bound.  A loop that runs out returns [None]. *)
Fixpoint judge_loop (globals : list string) (svc : nat -> attempt_outcome)
    (attempts : list nat) (log : list effect)
    : list effect * result (option string) :=
  match attempts with
  | [] => (log, Ok None)
  | attempt :: rest =>
      match svc attempt with
      | ProbeFails => ((log ++ [Probe])%list, Ok (Some unavailable_message))
      | Responds text => ((log ++ [Probe; Generate])%list, Ok (Some text))
      | ClientRaises e =>
          if (attempt <? max_retries - 1)%nat then
            if name_defined globals "time" then
              judge_loop globals svc rest (log ++ [Probe; Generate; Sleep retry_delay])%list
            else ((log ++ [Probe; Generate])%list, Raise (NameError "time"))
          else
            ((log ++ [Probe; Generate])%list,
             Ok (Some ("Error generating judge evaluation: " ++ str_exn e ++ retry_advice)))
      end
  end.

(** [get_judge_evaluation]: the effects performed and the outcome. *)
Definition get_judge_evaluation (svc : nat -> attempt_outcome)
    : list effect * result (option string) :=
  judge_loop module_globals svc (seq 0 max_retries) [].

Definition attempts_made (log : list effect) : nat :=
  List.length (filter (fun ev => match ev with Probe => true | _ => false end) log).

(** ** The report *)

(** Writing to the open report file: the text so far, and whether the
    writer returned or raised. *)
Definition writer : Type := string -> string * result unit.

Definition write (s : string) : writer := fun f => (f ++ s, Ok tt).

Definition fail (e : exn) : writer := fun f => (f, Raise e).

Definition then_ (w1 w2 : writer) : writer :=
  fun f => match w1 f with
           | (f', Ok _) => w2 f'
           | (f', Raise e) => (f', Raise e)
           end.

Notation "w1 >> w2" := (then_ w1 w2) (at level 62, right associativity).

(** The line both guarded sections write for a marker. *)
Definition warning_line (w : string) : string := "**Warning:** " ++ w ++ LF ++ LF.

Definition is_upper (c : ascii) : bool := ((65 <=? code c) && (code c <=? 90))%nat.
Definition is_lower (c : ascii) : bool := ((97 <=? code c) && (code c <=? 122))%nat.
Definition upper_char (c : ascii) : ascii :=
  if is_lower c then ascii_of_nat (code c - 32) else c.
Definition lower_char (c : ascii) : ascii :=
  if is_upper c then ascii_of_nat (code c + 32) else c.

(** [s.title()] on ASCII text: a letter is capitalised after a non-letter
    and lowered after a letter. *)
Fixpoint title_from (after_letter : bool) (s : string) : string :=
  match s with
  | EmptyString => EmptyString
  | String c s' =>
      String (if after_letter then lower_char c else upper_char c)
             (title_from (is_upper c || is_lower c) s')
  end.

Definition title (s : string) : string := title_from false s.

(** [s.replace('_', ' ')] *)
Fixpoint underscores_to_spaces (s : string) : string :=
  match s with
  | EmptyString => EmptyString
  | String c s' =>
      String (if Ascii.eqb c "_" then " "%char else c) (underscores_to_spaces s')
  end.

(** [os.path.join(dir, name)] of [posixpath]: an absolute [name] stands
    alone; otherwise a slash is put between the two unless [dir] is empty
    or ends with one. *)
Definition path_join (dir name : string) : string :=
  match name with
  | String "/" _ => name
  | _ =>
      match dir with
      | EmptyString => name
      | _ => if String.eqb (substring (String.length dir - 1) 1 dir) "/"
             then dir ++ name else dir ++ "/" ++ name
      end
  end.

Section Report.

Variable describe : DataFrame -> stats.
Variable series_agg : agg -> column -> result value.
Variable frame_agg : agg -> list column -> result value.

(** Formatting left to Python and pandas: [str] of a value, the format
    [:,.2f] (which raises on what is not a number), [to_string()] of the
    two tables and of [describe()]. *)
Variable str_value : value -> string.
Variable format_amount : value -> result string.
Variable missing_to_string : dict nat -> string.
Variable stats_to_string : stats -> string.

(** The clock, the configured directory, and the plotting library on a
    ledger that is not empty. *)
Variable now : string.
Variable report_dir : string.
Variable draw_plots : DataFrame -> result (dict string).

Definition _write_report_header : writer :=
  write ("# Bank Transaction Analysis Report" ++ LF ++ LF) >>
  write ("Generated on: " ++ now ++ LF ++ LF).

Definition _write_structure_analysis (analysis : Analysis) : writer :=
  write ("## Data Structure Analysis" ++ LF ++ LF) >>
  match warning analysis with
  | Some w => write (warning_line w)
  | None =>
      write ("Number of transactions: " ++ string_of_nat (num_transactions analysis) ++ LF ++ LF) >>
      write ("Time period: " ++ str_value (time_period_start analysis) ++ " to "
               ++ str_value (time_period_end analysis) ++ LF ++ LF) >>
      match format_amount (total_debit analysis) with
      | Raise e => fail e
      | Ok amount =>
          write ("Total amount: £" ++ amount ++ LF ++ LF) >>
          write ("### Missing Values" ++ LF ++ LF) >>
          write (missing_to_string (missing_values analysis) ++ LF ++ LF) >>
          write ("### Summary Statistics" ++ LF ++ LF) >>
          write (stats_to_string (summary_stats analysis) ++ LF ++ LF)
      end
  end.

Definition write_plot (item : string * string) : writer :=
  write ("### " ++ title (underscores_to_spaces (fst item)) ++ LF ++ LF) >>
  write ("![" ++ fst item ++ "](" ++ snd item ++ ")" ++ LF ++ LF).

Definition _write_visualizations (plots : dict string) : writer :=
  write ("## Visualizations" ++ LF ++ LF) >>
  match dict_get plots "warning" with
  | Some w => write (warning_line w)
  | None => fold_left (fun w item => w >> write_plot item) plots (write "")
  end.

Definition _write_llm_insights (insights : string) : writer :=
  write ("## LLM Insights" ++ LF ++ LF) >>
  write (insights ++ LF ++ LF).

(** [evaluation + "\n\n"] raises on [None]. *)
Definition _write_judge_evaluation (evaluation : option string) : writer :=
  write ("## Expert Review" ++ LF ++ LF) >>
  match evaluation with
  | Some text => write (text ++ LF ++ LF)
  | None => fail (TypeError "unsupported operand type(s) for +: 'NoneType' and 'str'")
  end.

Definition visualize_transactions (df : DataFrame) : result (dict string) :=
  if df_empty df then Ok [("warning", "No data available for visualization")]
  else
    match draw_plots df with
    | Ok plots => Ok plots
    | Raise e => Raise (Exception ("Error generating visualizations: " ++ str_exn e))
    end.

(** The values interpolated into the prompt of [get_llm_insights]; the
    text of the prompt itself is not modelled. *)
Definition insights_prompt (df : DataFrame) : result unit :=
  _ <- reduce series_agg frame_agg AggMin df DATE ;;
  _ <- reduce series_agg frame_agg AggMax df DATE ;;
  total <- reduce series_agg frame_agg AggSum df DEBIT ;;
  _ <- format_amount total ;;
  Ok tt.

Definition insights_error (e : exn) : string :=
  "Error generating LLM insights: " ++ str_exn e ++ retry_advice.

Definition get_llm_insights (df : DataFrame) (svc : attempt_outcome) : string :=
  if df_empty df then "No data available for analysis"
  else
    match svc with
    | ProbeFails => unavailable_message
    | ClientRaises e =>
        match insights_prompt df with
        | Raise e' => insights_error e'
        | Ok _ => insights_error e
        end
    | Responds text =>
        match insights_prompt df with
        | Raise e' => insights_error e'
        | Ok _ => text
        end
    end.

Definition lift {A : Type} (r : result A) (k : A -> writer) : writer :=
  match r with
  | Ok a => k a
  | Raise e => fail e
  end.

(** The body of the [with] block of [generate_report]. *)
Definition report_body (df : DataFrame) (llm : attempt_outcome)
    (judge : nat -> attempt_outcome) : writer :=
  _write_report_header >>
  lift (analyze_structure describe series_agg frame_agg df) (fun analysis =>
    _write_structure_analysis analysis >>
    lift (visualize_transactions df) (fun plots =>
      _write_visualizations plots >>
      let insights := get_llm_insights df llm in
      _write_llm_insights insights >>
      lift (snd (get_judge_evaluation judge)) (fun evaluation =>
        _write_judge_evaluation evaluation))).

(** [generate_report]: the text left in the report file, and the path
    returned or the exception raised.  The directory and the file are
    taken to be writable. *)
Definition generate_report (df : DataFrame) (llm : attempt_outcome)
    (judge : nat -> attempt_outcome) : string * result string :=
  match report_body df llm judge EmptyString with
  | (f, Ok _) => (f, Ok (path_join report_dir "analysis_report.md"))
  | (f, Raise e) => (f, Raise (Exception ("Error generating report: " ++ str_exn e)))
  end.

End Report.


(** ** The loader: [load_data] *)

(** What [pd.read_csv] does with the path: a table, no such file, a file
    without data, or another exception. *)
Inductive read_outcome : Type :=
| ReadOk (df : DataFrame)
| ReadNotFound
| ReadEmpty
| ReadFails (e : exn).

(** The three exceptions [load_data] raises, each with its message. *)
Inductive load_exn : Type :=
| FileNotFoundError (msg : string)
| EmptyDataError (msg : string)
| LoadException (msg : string).

Inductive loaded : Type :=
| Loaded (df : DataFrame)
| LoadFails (e : load_exn).

(** [load_data]: the table is read and normalised at once; whatever the
    pass raises reaches the last [except] clause. *)
Definition load_data {pd : Pandas} (csv_path : string) (read : read_outcome) : loaded :=
  match read with
  | ReadNotFound =>
      LoadFails (FileNotFoundError ("Error: CSV file not found at " ++ csv_path))
  | ReadEmpty => LoadFails (EmptyDataError "Error: CSV file is empty")
  | ReadFails e => LoadFails (LoadException ("Error loading data: " ++ str_exn e))
  | ReadOk df =>
      match _preprocess_data df with
      | Ok df' => Loaded df'
      | Raise e => LoadFails (LoadException ("Error loading data: " ++ str_exn e))
      end
  end.

(** ** The charts: [_create_and_save_plot] and the body of
    [visualize_transactions] *)

Section Plots.

(** The configured directory; what the file system and matplotlib do before
    the chart is drawn ([os.makedirs], [plt.figure]), when it is drawn
    ([data.plot] of the given kind) and when it is saved (title, layout,
    labels, [plt.savefig]), per file name; and the groupings pandas computes
    on a selection whose dtype the normalised ledger never has there. *)
Variable plots_dir : string.
Variable prepare : string -> result unit.
Variable draw : string -> string -> result unit.
Variable save : string -> result unit.
Variable group_other : string -> selection -> result unit.

Definition supported_plot (plot_type : string) : bool :=
  (plot_type =? "bar") || (plot_type =? "pie") || (plot_type =? "line").

Definition _create_and_save_plot (plot_type filename : string) : result string :=
  let body :=
    _ <- prepare filename ;;
    _ <- (if supported_plot plot_type then draw plot_type filename
          else Raise (ValueError ("Unsupported plot type: " ++ plot_type))) ;;
    _ <- save filename ;;
    Ok (path_join plots_dir filename) in
  match body with
  | Ok path => Ok path
  | Raise e =>
      Raise (Exception ("Error creating plot " ++ filename ++ ": " ++ str_exn e))
  end.

(** [df.groupby(df[DATE].dt.to_period('M')).size()]: the lookup raises
    [KeyError] without the column. *)
Definition monthly_data (df : DataFrame) : result unit :=
  match getitem df DATE with
  | Absent => Raise (KeyError DATE)
  | Single (DateCol _) => Ok tt
  | sel => group_other DATE sel
  end.

(** [df[TYPE].value_counts()] *)
Definition type_data (df : DataFrame) : result unit :=
  match getitem df TYPE with
  | Absent => Raise (KeyError TYPE)
  | Single _ => Ok tt
  | sel => group_other TYPE sel
  end.

(** [df.groupby(DESCRIPTION)[DEBIT].sum().nlargest(10)] *)
Definition category_data (df : DataFrame) : result unit :=
  match getitem df DESCRIPTION with
  | Absent => Raise (KeyError DESCRIPTION)
  | Single _ =>
      match getitem df DEBIT with
      | Absent => Raise (KeyError ("Column not found: " ++ DEBIT))
      | Single (NumCol _) => Ok tt
      | sel => group_other DEBIT sel
      end
  | sel => group_other DESCRIPTION sel
  end.

(** The body of the [try] of [visualize_transactions]. *)
Definition plot_all (df : DataFrame) : result (dict string) :=
  _ <- monthly_data df ;;
  p1 <- _create_and_save_plot "bar" "monthly_volume.png" ;;
  let plots1 := dict_set [] "monthly_volume" p1 in
  plots2 <- (if has_column df TYPE then
               _ <- type_data df ;;
               p2 <- _create_and_save_plot "bar" "type_distribution.png" ;;
               Ok (dict_set plots1 "type_distribution" p2)
             else Ok plots1) ;;
  plots3 <- (if has_column df DESCRIPTION then
               _ <- category_data df ;;
               p3 <- _create_and_save_plot "bar" "top_categories.png" ;;
               Ok (dict_set plots2 "top_categories" p3)
             else Ok plots2) ;;
  Ok plots3.

End Plots.

(** * Statements and lemmas *)

(** ** Vocabulary of the statements *)

(** Every column has one cell per row. *)
Definition aligned (df : DataFrame) : Prop :=
  Forall (fun lc => col_len (snd lc) = nrows df) (columns df).

(** The number of columns labelled [l]. *)
Definition hits (df : DataFrame) (l : string) : nat :=
  List.length (filter (fun lc => fst lc =? l) (columns df)).

(** A ledger as the loader hands it over: aligned columns, and at most one
    column under each of the date, debit and credit labels ([read_csv]
    renames a repeated header). *)
Definition raw_ledger (df : DataFrame) : Prop :=
  aligned df /\ hits df DATE <= 1 /\ hits df DEBIT <= 1 /\ hits df CREDIT <= 1.

(** No label has whitespace at either end. *)
Definition trimmed (df : DataFrame) : Prop :=
  Forall (fun l => strip l = l) (labels df).

(** No label but [col] itself becomes [col] when trimmed. *)
Definition exact_label (df : DataFrame) (col : string) : Prop :=
  forall l, In l (labels df) -> strip l = col -> l = col.

(** The same for the three labels the pass looks up. *)
Definition configured_exact (df : DataFrame) : Prop :=
  exact_label df DATE /\ exact_label df DEBIT /\ exact_label df CREDIT.

(** A selection of several columns under one label. *)
Definition several (sel : selection) : Prop := exists cs, sel = Several cs.

(** A number as it is, zero for a missing value. *)
Definition or_zero (o : option float) : float :=
  match o with Some x => x | None => fzero end.

Section PassVocabulary.

Context {pd : Pandas}.

(** The rows that survive the date step.  With a date column of texts,
    those whose text is read as a timestamp with the format of day, month
    and year; with one of numbers, none; with one of timestamps, those
    that hold one; without a date column, all of them. *)
Definition date_mask (df : DataFrame) : list bool :=
  match getitem df DATE with
  | Single (ObjCol cells) =>
      map (fun cell => match cell with
                       | Some text => not_none (strptime "%d/%m/%Y" text)
                       | None => false
                       end) cells
  | Single (NumCol cells) => map (fun _ => false) cells
  | Single (DateCol cells) => map not_none cells
  | _ => map (fun _ => true) (index df)
  end.

(** The amount a cell text stands for: what is read from it once the pound
    signs, commas and spaces are removed, zero when nothing is read. *)
Definition parse_or_zero (s : string) : float :=
  or_zero (to_numeric (clean_amount s)).

(** A number that is read back from its own text. *)
Definition reads_back (x : float) : Prop :=
  to_numeric (clean_amount (str_float x)) = Some x.

(** The numbers of the two amount columns are read back from their texts. *)
Definition amounts_read_back (df : DataFrame) : Prop :=
  forall col xs x,
    col = DEBIT \/ col = CREDIT ->
    In (col, NumCol xs) (columns df) -> In (Some x) xs -> reads_back x.

(** The ledger with its date column parsed, before any row is dropped. *)
Definition with_dates (df : DataFrame) : DataFrame :=
  match getitem df DATE with
  | Single c => setitem df DATE (DateCol (to_datetime c))
  | _ => df
  end.

(** The amounts read from the cells of a column. *)
Definition amount_cells (c : column) : list float :=
  map parse_or_zero (astype_str c).

(** The column one turn of the amount loop makes of a column [c] of [n]
    cells: zeros when every cell is missing, the amounts read from the
    cells otherwise. *)
Definition amount_column (n : nat) (c : column) : column :=
  if forallb (fun b => b) (isna c) then NumCol (repeat (Some fzero) n)
  else NumCol (map Some (amount_cells c)).

(** What one turn of the amount loop assigns to [col]. *)
Definition normalized_amount (df : DataFrame) (col : string) : column :=
  match getitem df col with
  | Single c => amount_column (nrows df) c
  | _ => zeros (nrows df)
  end.

(** The normalised ledger, step by step. *)
Definition normal_form (df : DataFrame) : DataFrame :=
  let df1 := drop_rows (date_mask df) (with_dates df) in
  let df2 := setitem df1 DEBIT (normalized_amount df1 DEBIT) in
  let df3 := setitem df2 CREDIT (normalized_amount df2 CREDIT) in
  strip_columns df3.

End PassVocabulary.

(** What the pass establishes when the three labels are exact: aligned
    columns, at most one column under each of the three labels, trimmed
    labels, a date column (when there is one) of timestamps, and amount
    columns of numbers. *)
Definition normalized (df : DataFrame) : Prop :=
  raw_ledger df
  /\ trimmed df
  /\ (forall c, In (DATE, c) (columns df) -> exists ts, c = DateCol (map Some ts))
  /\ (exists xs, In (DEBIT, NumCol (map Some xs)) (columns df))
  /\ (exists xs, In (CREDIT, NumCol (map Some xs)) (columns df)).

(** The text after a leading whitespace character, when there is one. *)
Definition drop_space (s : string) : option string :=
  match s with
  | EmptyString => None
  | String a r =>
      if space1 a then Some r
      else
        match r with
        | EmptyString => None
        | String b r2 =>
            if space2 a b then Some r2
            else
              match r2 with
              | EmptyString => None
              | String c r3 => if space3 a b c then Some r3 else None
              end
        end
  end.

(** Every byte of [s] satisfies [p]. *)
Fixpoint every (p : ascii -> bool) (s : string) : bool :=
  match s with
  | EmptyString => true
  | String c s' => p c && every p s'
  end.

(** A byte of an ASCII character. *)
Definition is_ascii (c : ascii) : bool := (code c <? 128)%nat.

(** The number of delays in a log of effects. *)
Definition sleeps (log : list effect) : nat :=
  List.length (filter (fun ev => match ev with Sleep _ => true | _ => false end) log).

(** ** Writers *)

(** What a writer adds to an empty file. *)
Definition text_of (w : writer) : string := fst (w EmptyString).

(** A writer that returns, having appended its text to the file. *)
Definition sound (w : writer) : Prop :=
  forall f, w f = (f ++ text_of w, Ok tt).

(** A writer that only appends, whether it returns or raises. *)
Definition appending (w : writer) : Prop :=
  forall f, w f = (f ++ text_of w, snd (w EmptyString)).

(** What [_write_visualizations] writes for one chart. *)
Definition plot_block (item : string * string) : string :=
  ("### " ++ title (underscores_to_spaces (fst item)) ++ LF ++ LF)
    ++ ("![" ++ fst item ++ "](" ++ snd item ++ ")" ++ LF ++ LF).

Fixpoint plot_blocks (plots : dict string) : string :=
  match plots with
  | [] => EmptyString
  | item :: rest => plot_block item ++ plot_blocks rest
  end.

(** The header of the report. *)
Definition header_text (now : string) : string :=
  ("# Bank Transaction Analysis Report" ++ LF ++ LF)
    ++ ("Generated on: " ++ now ++ LF ++ LF).

(** ** Stand-ins for pandas and Python

    Concrete functions for the examples: they read and write plain decimal
    texts and dates in ASCII digits as pandas and Python do; nothing is
    claimed about them beyond the examples they are used in. *)

Definition is_digit (c : ascii) : bool :=
  (48 <=? code c)%nat && (code c <=? 57)%nat.

(** The blanks the tokenizer of pandas skips: space, and tab to carriage
    return. *)
Definition isspace_ascii (c : ascii) : bool :=
  (code c =? 32)%nat || ((9 <=? code c)%nat && (code c <=? 13)%nat).

Fixpoint skip_left (sp : ascii -> bool) (s : string) : string :=
  match s with
  | EmptyString => EmptyString
  | String c s' => if sp c then skip_left sp s' else s
  end.

Fixpoint skip_right (sp : ascii -> bool) (s : string) : string :=
  match s with
  | EmptyString => EmptyString
  | String c s' =>
      match skip_right sp s' with
      | EmptyString => if sp c then EmptyString else String c EmptyString
      | r => String c r
      end
  end.

(** Cut at the first character satisfying [p]; the second component is the
    text after that character, when there is one. *)
Fixpoint split_at (p : ascii -> bool) (s : string) : string * option string :=
  match s with
  | EmptyString => (EmptyString, None)
  | String c s' =>
      if p c then (EmptyString, Some s')
      else let (a, b) := split_at p s' in (String c a, b)
  end.

Fixpoint lower (s : string) : string :=
  match s with
  | EmptyString => EmptyString
  | String c s' => String (lower_char c) (lower s')
  end.

Definition string_of_Z (z : Z) : string := NilZero.string_of_int (Z.to_int z).

Definition parse_sign (s : string) : bool * string :=
  match s with
  | String "-"%char s' => (true, s')
  | String "+"%char s' => (false, s')
  | _ => (false, s)
  end.

(** Digits with an optional decimal point, at least one digit in all:
    the integer read without the point, and the number of decimals. *)
Definition parse_mantissa (s : string) : option (Z * Z) :=
  let (ip, rest) := split_at (Ascii.eqb ".") s in
  let fp := match rest with Some f => f | None => EmptyString end in
  match NilEmpty.uint_of_string (ip ++ fp) with
  | Some d =>
      if (String.length (ip ++ fp) =? 0)%nat then None
      else Some (Z.of_uint d, Z.of_nat (String.length fp))
  | None => None
  end.

(** The part after [e]: an optional sign and at least one digit. *)
Definition parse_exponent (s : option string) : option Z :=
  match s with
  | None => Some 0%Z
  | Some t =>
      let (neg, ds) := parse_sign t in
      match NilZero.uint_of_string ds with
      | Some d => Some (if neg then - Z.of_uint d else Z.of_uint d)%Z
      | None => None
      end
  end.

Definition is_e (c : ascii) : bool := Ascii.eqb c "e" || Ascii.eqb c "E".

(** A decimal literal, the whole text: blanks, sign, digits, point,
    digits, exponent, blanks. *)
Definition xstrtod (s : string) : option float :=
  let t := skip_right isspace_ascii (skip_left isspace_ascii s) in
  let (ms, es) := split_at is_e t in
  let (neg, ds) := parse_sign ms in
  match parse_mantissa ds, parse_exponent es with
  | Some (m, k), Some x => Some (Fin (if neg then - m else m) (x - k))
  | _, _ => None
  end.

Fixpoint drop_zeros (fuel : nat) (m e : Z) : float :=
  match fuel with
  | O => Fin m e
  | S fuel' =>
      if ((e <? 0) && (m mod 10 =? 0))%Z then drop_zeros fuel' (m / 10) (e + 1)
      else Fin m e
  end.

(** One way of writing each number: no exponent above zero, and below zero
    a mantissa that does not end in 0. *)
Definition canonical (x : float) : float :=
  match x with
  | Fin m e =>
      if (m =? 0)%Z then fzero
      else if (0 <=? e)%Z then Fin (m * 10 ^ e) 0
      else drop_zeros (Z.to_nat (- e)) m e
  | Inf neg => Inf neg
  end.

(** The number read from a text: a decimal literal or an infinity;
    nothing for [nan] and for any other text. *)
Definition to_numeric_decimal (s : string) : option float :=
  match xstrtod s with
  | Some x => Some (canonical x)
  | None =>
      let l := lower s in
      if (l =? "inf") || (l =? "+inf") || (l =? "infinity") || (l =? "+infinity")
      then Some (Inf false)
      else if (l =? "-inf") || (l =? "-infinity") then Some (Inf true)
      else None
  end.

Definition zeros_text (n : nat) : string :=
  string_of_list_ascii (repeat "0"%char n).

(** The text of a number as Python writes one that needs no exponent:
    [1234.5], [0.05], [3.0]. *)
Definition str_decimal (x : float) : string :=
  match canonical x with
  | Inf false => "inf"
  | Inf true => "-inf"
  | Fin m e =>
      let sign := if (m <? 0)%Z then "-" else "" in
      let ds := string_of_Z (Z.abs m) in
      let k := Z.to_nat (- e) in
      let n := String.length ds in
      if (k =? 0)%nat then sign ++ ds ++ ".0"
      else if (k <? n)%nat
           then sign ++ substring 0 (n - k) ds ++ "." ++ substring (n - k) k ds
           else sign ++ "0." ++ zeros_text (k - n) ++ ds
  end.

(** Addition of decimals; [None] is NaN, the sum of opposite infinities. *)
Definition fadd (a b : float) : option float :=
  match a, b with
  | Fin m1 e1, Fin m2 e2 =>
      let e := Z.min e1 e2 in
      Some (canonical (Fin (m1 * 10 ^ (e1 - e) + m2 * 10 ^ (e2 - e)) e))
  | Inf s, Fin _ _ => Some (Inf s)
  | Fin _ _, Inf s => Some (Inf s)
  | Inf s1, Inf s2 => if Bool.eqb s1 s2 then Some (Inf s1) else None
  end.

Definition float_sum (xs : list float) : option float :=
  fold_left (fun acc x => match acc with Some a => fadd a x | None => None end)
            xs (Some fzero).

(** The sum of a numeric column, skipping what is missing. *)
Definition sum_decimal (a : agg) (c : column) : result value :=
  match a, c with
  | AggSum, NumCol xs =>
      Ok (match float_sum (somes xs) with Some x => VNum x | None => VNull end)
  | _, _ => Ok VNull
  end.

(** The sum of several columns under one label is a Series of the sums of
    each; the sum of a column of texts is their concatenation. *)
Definition sum_columns (a : agg) (cs : list column) : result value :=
  Ok (VSeries (map (fun _ => DEBIT) cs)
        (map (fun c => match c with
                       | NumCol xs =>
                           match float_sum (somes xs) with
                           | Some x => VNum x
                           | None => VNull
                           end
                       | ObjCol ts => VStr (String.concat "" (somes ts))
                       | DateCol _ => VNull
                       end) cs)).

(** A calendar date. *)
Record date : Type := mkdate { year : nat; month : nat; day : nat }.

Definition digit_val (c : ascii) : nat := code c - 48.

Definition is_leap (y : nat) : bool :=
  ((y mod 4 =? 0) && negb (y mod 100 =? 0) || (y mod 400 =? 0))%nat.

Definition days_in_month (y m : nat) : nat :=
  match m with
  | 2 => if is_leap y then 29 else 28
  | 4 | 6 | 9 | 11 => 30
  | _ => 31
  end.

(** The directive [%d]: one or two digits, from 1 to 31. *)
Definition parse_day (s : string) : option nat :=
  match s with
  | String a EmptyString =>
      if is_digit a && (1 <=? digit_val a)%nat then Some (digit_val a) else None
  | String a (String b EmptyString) =>
      if is_digit a && is_digit b then
        let n := (10 * digit_val a + digit_val b)%nat in
        if ((1 <=? n) && (n <=? 31))%nat then Some n else None
      else None
  | _ => None
  end.

(** The directive [%m]: one or two digits, from 1 to 12. *)
Definition parse_month (s : string) : option nat :=
  match s with
  | String a EmptyString =>
      if is_digit a && (1 <=? digit_val a)%nat then Some (digit_val a) else None
  | String a (String b EmptyString) =>
      if is_digit a && is_digit b then
        let n := (10 * digit_val a + digit_val b)%nat in
        if ((1 <=? n) && (n <=? 12))%nat then Some n else None
      else None
  | _ => None
  end.

(** The directive [%Y]: four digits. *)
Definition parse_year (s : string) : option nat :=
  match s with
  | String a (String b (String c (String d EmptyString))) =>
      if is_digit a && is_digit b && is_digit c && is_digit d then
        Some (1000 * digit_val a + 100 * digit_val b + 10 * digit_val c + digit_val d)%nat
      else None
  | _ => None
  end.

Definition is_slash (c : ascii) : bool := Ascii.eqb c "/".

(** Day, month and year between slashes, the whole text, a date of the
    calendar, of a year that the timestamps of every pandas version hold. *)
Definition parse_dmy (s : string) : option date :=
  match split_at is_slash s with
  | (ds, Some r1) =>
      match split_at is_slash r1 with
      | (ms, Some ys) =>
          match parse_day ds, parse_month ms, parse_year ys with
          | Some d, Some m, Some y =>
              if ((1678 <=? y) && (y <=? 2261) && (d <=? days_in_month y m))%nat
              then Some (mkdate y m d) else None
          | _, _, _ => None
          end
      | _ => None
      end
  | _ => None
  end.

(** The days from the first of January 1970 to a date. *)
Definition days_from_civil (y m d : Z) : Z :=
  let y' := if (m <=? 2)%Z then (y - 1)%Z else y in
  let era := (y' / 400)%Z in
  let yoe := (y' - era * 400)%Z in
  let mp := if (m <=? 2)%Z then (m + 9)%Z else (m - 3)%Z in
  let doy := ((153 * mp + 2) / 5 + d - 1)%Z in
  let doe := (yoe * 365 + yoe / 4 - yoe / 100 + doy)%Z in
  (era * 146097 + doe - 719468)%Z.

Definition ns_per_day : Z := 86400000000000.

(** The timestamp of a date at midnight. *)
Definition midnight (y m d : Z) : timestamp :=
  (days_from_civil y m d * ns_per_day)%Z.

(** The date of a number of days from the first of January 1970. *)
Definition civil_from_days (days : Z) : date :=
  let z := (days + 719468)%Z in
  let era := (z / 146097)%Z in
  let doe := (z - era * 146097)%Z in
  let yoe := ((doe - doe / 1460 + doe / 36524 - doe / 146096) / 365)%Z in
  let doy := (doe - (365 * yoe + yoe / 4 - yoe / 100))%Z in
  let mp := ((5 * doy + 2) / 153)%Z in
  let d := (doy - (153 * mp + 2) / 5 + 1)%Z in
  let m := if (mp <? 10)%Z then (mp + 3)%Z else (mp - 9)%Z in
  let y := (yoe + era * 400 + (if (m <=? 2)%Z then 1 else 0))%Z in
  mkdate (Z.to_nat y) (Z.to_nat m) (Z.to_nat d).

(** The timestamp read from a text with the format of day, month and
    year; the stand-in knows no other format. *)
Definition strptime_calendar (fmt text : string) : option timestamp :=
  if fmt =? "%d/%m/%Y" then
    match parse_dmy text with
    | Some d => Some (midnight (Z.of_nat (year d)) (Z.of_nat (month d)) (Z.of_nat (day d)))
    | None => None
    end
  else None.

Definition pad (width : nat) (s : string) : string :=
  zeros_text (width - String.length s) ++ s.

(** The text of a timestamp in a column of midnights: the date alone. *)
Definition str_timestamp_date (cells : list (option timestamp)) (t : timestamp)
    : string :=
  let d := civil_from_days (t / ns_per_day) in
  pad 4 (string_of_nat (year d)) ++ "-" ++ pad 2 (string_of_nat (month d))
    ++ "-" ++ pad 2 (string_of_nat (day d)).

(** The four together. *)
Definition sample_pandas : Pandas :=
  mkPandas strptime_calendar to_numeric_decimal str_decimal str_timestamp_date.

(** Stand-ins for the other pandas functions the analyzer is parametrised
    by, for the formatting functions, the files and the plotting library. *)
Definition no_stats : DataFrame -> stats := fun _ => [].
Definition no_series_agg : agg -> column -> result value := fun _ _ => Ok VNull.
Definition no_frame_agg : agg -> list column -> result value := fun _ _ => Ok VNull.
Definition plain_value : value -> string := fun _ => "-".
Definition plain_amount : value -> result string := fun _ => Ok "0.00".
Definition plain_missing : dict nat -> string := fun _ => "(missing values)".
Definition plain_stats : stats -> string := fun _ => "(statistics)".
Definition one_plot : DataFrame -> result (dict string) :=
  fun _ => Ok [("monthly_volume", "plots/monthly_volume.png")].
Definition step_fine : string -> result unit := fun _ => Ok tt.
Definition draw_fine : string -> string -> result unit := fun _ _ => Ok tt.
Definition draw_fails : string -> string -> result unit :=
  fun _ _ => Raise (ValueError "no display").
Definition no_group : string -> selection -> result unit :=
  fun _ _ => Raise (TypeError "not supported").

(** The format [:,.2f], which a Series does not support. *)
Definition amount_of_number : value -> result string :=
  fun v => match v with
           | VNum _ => Ok "0.00"
           | _ => Raise (TypeError "unsupported format string passed to Series.__format__")
           end.

(** A service whose [generate] call fails on the first attempt and answers
    from the second on; the probe answers every time. *)
Definition svc_fails_once (attempt : nat) : attempt_outcome :=
  match attempt with
  | 0 => ClientRaises (ServiceError "connection refused")
  | _ => Responds "The insights are sound."
  end.

(** A service whose [generate] call fails every time. *)
Definition svc_always_fails (attempt : nat) : attempt_outcome :=
  ClientRaises (ServiceError "connection refused").

(** A service that does not answer the probe. *)
Definition svc_unreachable (attempt : nat) : attempt_outcome := ProbeFails.

(** ** Sample ledgers *)

(** Three rows; the second and third dates do not parse, the debit column
    mixes a formatted amount, a text and a missing value, and there is no
    credit column. *)
Definition ledger_sample : DataFrame :=
  mkdf [0; 1; 2]
    [(DATE, ObjCol [Some "25/12/2023"; Some "2023-12-26"; Some "31/02/2024"]);
     (DESCRIPTION, ObjCol [Some "RENT"; Some "COFFEE"; None]);
     (DEBIT, ObjCol [Some "£1,234.50"; Some "abc"; None])].

(** [ledger_sample] after the pass. *)
Definition ledger_sample_after : DataFrame :=
  mkdf [0]
    [(DATE, DateCol [Some (midnight 2023 12 25)]);
     (DESCRIPTION, ObjCol [Some "RENT"]);
     (DEBIT, NumCol [Some (Fin 12345 (-1))]);
     (CREDIT, NumCol [Some (Fin 0 0)])].

(** The three amount texts of the specification. *)
Definition ledger_amounts : DataFrame :=
  mkdf [0; 1; 2]
    [(DATE, ObjCol [Some "01/02/2024"; Some "02/02/2024"; Some "03/02/2024"]);
     (DEBIT, ObjCol [Some "£1,234.50"; Some "  2,000  "; Some "abc"])].

(** A refund entered as a negative debit, next to a formatted amount; the
    credit column is numeric with a missing value. *)
Definition ledger_refund : DataFrame :=
  mkdf [0; 1]
    [(DATE, ObjCol [Some "01/02/2024"; Some "02/02/2024"]);
     (DEBIT, ObjCol [Some "-5.00"; Some "£10"]);
     (CREDIT, NumCol [None; Some (Fin 3 0)])].

(** [ledger_refund] after the pass. *)
Definition ledger_refund_normalised : DataFrame :=
  mkdf [0; 1]
    [(DATE, DateCol [Some (midnight 2024 2 1); Some (midnight 2024 2 2)]);
     (DEBIT, NumCol [Some (Fin (-5) 0); Some (Fin 10 0)]);
     (CREDIT, NumCol [Some (Fin 0 0); Some (Fin 3 0)])].

(** The summary of [ledger_refund_normalised]. *)
Definition ledger_refund_analysis : Analysis :=
  mkAnalysis 2 (VDate (midnight 2024 2 1)) (VDate (midnight 2024 2 2))
    (VNum (Fin 5 0)) (VNum (Fin 3 0))
    [(DATE, 0); (DEBIT, 0); (CREDIT, 0)] [] None.

(** The debit header has blanks around it. *)
Definition ledger_padded : DataFrame :=
  mkdf [0; 1]
    [(DATE, ObjCol [Some "01/02/2024"; Some "02/02/2024"]);
     (" Debit Amount ", ObjCol [Some "£5.00"; Some "£7.50"]);
     (CREDIT, NumCol [None; Some (Fin 3 0)])].

(** [ledger_padded] after the pass. *)
Definition ledger_padded_after : DataFrame :=
  mkdf [0; 1]
    [(DATE, DateCol [Some (midnight 2024 2 1); Some (midnight 2024 2 2)]);
     (DEBIT, ObjCol [Some "£5.00"; Some "£7.50"]);
     (CREDIT, NumCol [Some (Fin 0 0); Some (Fin 3 0)]);
     (DEBIT, NumCol [Some (Fin 0 0); Some (Fin 0 0)])].

(** The debit header ends with a no-break space (U+00A0), the column is
    numeric and one of its cells is missing. *)
Definition DEBIT_NBSP : string :=
  DEBIT ++ String (ascii_of_nat 194) (String (ascii_of_nat 160) EmptyString).

Definition ledger_padded_missing : DataFrame :=
  mkdf [0; 1]
    [(DATE, ObjCol [Some "01/02/2024"; Some "02/02/2024"]);
     (DEBIT_NBSP, NumCol [Some (Fin 5 0); None]);
     (CREDIT, NumCol [None; Some (Fin 3 0)])].

(** [ledger_padded_missing] after the pass. *)
Definition ledger_padded_missing_after : DataFrame :=
  mkdf [0; 1]
    [(DATE, DateCol [Some (midnight 2024 2 1); Some (midnight 2024 2 2)]);
     (DEBIT, NumCol [Some (Fin 5 0); None]);
     (CREDIT, NumCol [Some (Fin 0 0); Some (Fin 3 0)]);
     (DEBIT, NumCol [Some (Fin 0 0); Some (Fin 0 0)])].

(** The date header starts with a blank, and the second date does not
    parse. *)
Definition ledger_padded_date : DataFrame :=
  mkdf [0; 1]
    [(" Transaction Date", ObjCol [Some "01/02/2024"; Some "31/02/2024"]);
     (DEBIT, ObjCol [Some "£5.00"; Some "£7.50"])].

(** A column that is none of the configured ones has a blank after its
    label. *)
Definition ledger_padded_other : DataFrame :=
  mkdf [0; 1]
    [(DATE, ObjCol [Some "01/02/2024"; Some "02/02/2024"]);
     ("Balance ", NumCol [Some (Fin 100 0); Some (Fin 955 (-1))]);
     (DEBIT, ObjCol [Some "£5.00"; Some "£7.50"])].

(** [ledger_padded_other] after the pass. *)
Definition ledger_padded_other_after : DataFrame :=
  mkdf [0; 1]
    [(DATE, DateCol [Some (midnight 2024 2 1); Some (midnight 2024 2 2)]);
     ("Balance", NumCol [Some (Fin 100 0); Some (Fin 955 (-1))]);
     (DEBIT, NumCol [Some (Fin 5 0); Some (Fin 75 (-1))]);
     (CREDIT, NumCol [Some (Fin 0 0); Some (Fin 0 0)])].

(** No date column at all. *)
Definition ledger_undated : DataFrame :=
  mkdf [0; 1]
    [(DESCRIPTION, ObjCol [Some "RENT"; Some "COFFEE"]);
     (DEBIT, ObjCol [Some "£5.00"; Some "£7.50"])].

(** A ledger whose rows were all dropped. *)
Definition ledger_empty : DataFrame :=
  mkdf [] [(DATE, DateCol []); (DEBIT, NumCol []); (CREDIT, NumCol [])].

(** ** Lists, masks and lookups *)

Lemma select_length_eq (A B : Type) (keep : list bool) (xs : list A) (ys : list B) :
  List.length xs = List.length ys ->
  List.length (select keep xs) = List.length (select keep ys).
Proof.
  revert xs ys.
  induction keep as [|k keep IH]; intros [|x xs] [|y ys] H; simpl in *;
    try reflexivity; try discriminate.
  injection H as H. destruct k; simpl; auto.
Qed.

Lemma select_length_le (A : Type) (keep : list bool) (xs : list A) :
  List.length (select keep xs) <= List.length xs.
Proof.
  revert xs.
  induction keep as [|k keep IH]; intros [|x xs]; simpl; try lia.
  specialize (IH xs). destruct k; simpl; lia.
Qed.

Lemma select_all (A B : Type) (ys : list B) (xs : list A) :
  List.length ys = List.length xs ->
  select (map (fun _ => true) ys) xs = xs.
Proof.
  revert xs.
  induction ys as [|y ys IH]; intros [|x xs] H; simpl in *;
    try reflexivity; try discriminate.
  injection H as H. now rewrite IH.
Qed.

Lemma select_not_none (A : Type) (l : list (option A)) :
  select (map not_none l) l = map Some (somes l).
Proof.
  induction l as [|[a|] l IH]; simpl; auto. now rewrite IH.
Qed.

Lemma no_none_mask (A : Type) (l : list (option A)) :
  existsb is_none l = false ->
  map not_none l = map (fun _ => true) l.
Proof.
  induction l as [|[a|] l IH]; simpl; intros H; try discriminate; auto.
  now rewrite IH.
Qed.

Lemma no_none_somes (A : Type) (l : list (option A)) :
  existsb is_none l = false -> l = map Some (somes l).
Proof.
  induction l as [|[a|] l IH]; simpl; intros H; try discriminate; auto.
  now rewrite <- IH.
Qed.

Lemma existsb_none_map_Some (A : Type) (xs : list A) :
  existsb is_none (map Some xs) = false.
Proof. induction xs; simpl; auto. Qed.

Lemma somes_map_Some (A : Type) (xs : list A) : somes (map Some xs) = xs.
Proof. induction xs; simpl; congruence. Qed.

Lemma has_column_In (df : DataFrame) (l : string) :
  has_column df l = true <-> In l (labels df).
Proof.
  unfold has_column. rewrite existsb_exists. split.
  - intros [x [Hin Heq]]. apply String.eqb_eq in Heq. now subst.
  - intros H. exists l. split; auto. apply String.eqb_refl.
Qed.

Lemma has_column_false (df : DataFrame) (l : string) :
  has_column df l = false <-> ~ In l (labels df).
Proof.
  rewrite <- has_column_In. destruct (has_column df l); split; congruence.
Qed.

Lemma filter_label_absent (cs : list (string * column)) (l : string) :
  ~ In l (map fst cs) -> filter (fun lc => fst lc =? l) cs = [].
Proof.
  induction cs as [|[k c] cs IH]; simpl; intros H; auto.
  destruct (String.eqb_spec k l) as [->|Hne].
  - exfalso. apply H. now left.
  - apply IH. intros Hin. apply H. now right.
Qed.


Lemma select_map (A B : Type) (g : A -> B) (keep : list bool) (xs : list A) :
  select keep (map g xs) = map g (select keep xs).
Proof.
  revert xs. induction keep as [|k keep IH]; intros [|x xs]; simpl; auto.
  destruct k; simpl; now rewrite IH.
Qed.

Lemma hits_absent (df : DataFrame) (l : string) :
  has_column df l = false -> hits df l = 0.
Proof.
  intros H. apply has_column_false in H. unfold hits.
  now rewrite filter_label_absent.
Qed.

(** A label that names at most one column selects that column. *)
Lemma getitem_unique (df : DataFrame) (l : string) (c : column) :
  hits df l <= 1 -> In (l, c) (columns df) -> getitem df l = Single c.
Proof.
  unfold hits, getitem. intros Hle Hin.
  assert (Hf : In (l, c) (filter (fun lc => fst lc =? l) (columns df))).
  { apply filter_In. split; auto. simpl. apply String.eqb_refl. }
  destruct (filter (fun lc => fst lc =? l) (columns df)) as [|[k v] [|y r]];
    simpl in *; try contradiction; try lia.
  destruct Hf as [Hf|[]]. now injection Hf as -> ->.
Qed.

Lemma several_iff (hits : list (string * column)) :
  several (selection_of hits) <-> 2 <= List.length hits.
Proof.
  unfold several. destruct hits as [|[k c] [|y r]]; simpl.
  - split; [intros [cs H]; discriminate H | lia].
  - split; [intros [cs H]; discriminate H | lia].
  - split; [intros _; lia | intros _; eauto].
Qed.

Lemma hits_several (df : DataFrame) (l : string) :
  several (getitem df l) <-> 2 <= hits df l.
Proof. unfold getitem, hits. apply several_iff. Qed.

Lemma NoDup_hits (df : DataFrame) (l : string) :
  NoDup (labels df) -> hits df l <= 1.
Proof.
  unfold hits, labels. induction (columns df) as [|[k v] cs IH]; simpl; auto.
  intros Hnd. inversion Hnd as [|? ? Hk Hnd']; subst.
  destruct (String.eqb_spec k l) as [->|Hne]; auto.
  simpl. rewrite filter_label_absent; auto.
Qed.


Lemma getitem_absent (df : DataFrame) (l : string) :
  has_column df l = false -> getitem df l = Absent.
Proof.
  intros H. apply has_column_false in H. unfold getitem.
  now rewrite filter_label_absent.
Qed.

Lemma In_label (df : DataFrame) (l : string) :
  In l (labels df) -> exists c, In (l, c) (columns df).
Proof.
  unfold labels. rewrite in_map_iff. intros [[k c] [Heq Hin]].
  simpl in Heq. subst. now exists c.
Qed.

Lemma getitem_Single_In (df : DataFrame) (l : string) (c : column) :
  getitem df l = Single c -> In (l, c) (columns df).
Proof.
  unfold getitem. intros H.
  destruct (filter (fun lc => fst lc =? l) (columns df)) as [|[k v] [|y r]] eqn:E;
    try discriminate.
  injection H as ->.
  assert (Hin : In (k, c) (filter (fun lc => fst lc =? l) (columns df)))
    by (rewrite E; now left).
  apply filter_In in Hin. destruct Hin as [Hin Hk]. simpl in Hk.
  apply String.eqb_eq in Hk. now subst.
Qed.

Lemma getitem_Single_has (df : DataFrame) (l : string) (c : column) :
  getitem df l = Single c -> has_column df l = true.
Proof.
  intros H. apply getitem_Single_In in H. apply has_column_In.
  unfold labels. change l with (fst (l, c)). now apply in_map.
Qed.

(** A label met at two positions selects several columns. *)
Lemma getitem_twice (df : DataFrame) (l : string) (i j : nat) (a b : column) :
  i < j ->
  nth_error (columns df) i = Some (l, a) ->
  nth_error (columns df) j = Some (l, b) ->
  exists cs, getitem df l = Several cs /\ In a cs /\ In b cs.
Proof.
  intros Hij Hi Hj. unfold getitem.
  set (f := fun lc : string * column => fst lc =? l).
  destruct (nth_error_split _ _ Hi) as [l1 [l2 [Hcs Hlen]]].
  assert (Hb : In (l, b) l2).
  { rewrite Hcs in Hj. rewrite nth_error_app2 in Hj by lia.
    rewrite Hlen in Hj. destruct (j - i) as [|k] eqn:E; [lia|].
    simpl in Hj. now apply nth_error_In in Hj. }
  assert (Hfb : In (l, b) (filter f l2)).
  { apply filter_In. split; auto. unfold f. simpl. apply String.eqb_refl. }
  assert (Hsel : forall xs : list (string * column), 2 <= List.length xs ->
            selection_of xs = Several (map snd xs)).
  { intros [|[x1 x2] [|y r]] Hl; simpl in *; try lia; reflexivity. }
  assert (Hf : filter f (l1 ++ (l, a) :: l2) = (filter f l1 ++ (l, a) :: filter f l2)%list).
  { rewrite filter_app. simpl. unfold f at 2. simpl. now rewrite String.eqb_refl. }
  rewrite Hcs, Hf.
  exists (map snd (filter f l1 ++ (l, a) :: filter f l2)). split.
  - apply Hsel. rewrite length_app. simpl.
    destruct (filter f l2); [contradiction|]. simpl. lia.
  - split.
    + change a with (snd (l, a)). apply in_map. apply in_or_app. right. now left.
    + change b with (snd (l, b)). apply in_map. apply in_or_app. right. now right.
Qed.


(** ** Assignment, row dropping and label trimming *)

Lemma frame_eta (df : DataFrame) : mkdf (index df) (columns df) = df.
Proof. now destruct df. Qed.

Lemma setitem_index (df : DataFrame) (l : string) (c : column) :
  index (setitem df l c) = index df.
Proof. unfold setitem. now destruct (has_column df l). Qed.

Lemma setitem_nrows (df : DataFrame) (l : string) (c : column) :
  nrows (setitem df l c) = nrows df.
Proof. unfold nrows. now rewrite setitem_index. Qed.

Lemma setitem_labels_present (df : DataFrame) (l : string) (c : column) :
  has_column df l = true -> labels (setitem df l c) = labels df.
Proof.
  intros H. unfold setitem, labels. rewrite H. simpl. rewrite map_map.
  apply map_ext_in. intros [k v] _. simpl.
  destruct (String.eqb_spec k l); simpl; congruence.
Qed.

Lemma setitem_labels_absent (df : DataFrame) (l : string) (c : column) :
  has_column df l = false -> labels (setitem df l c) = (labels df ++ [l])%list.
Proof.
  intros H. unfold setitem, labels. rewrite H. simpl. now rewrite map_app.
Qed.

Lemma setitem_has (df : DataFrame) (l : string) (c : column) :
  has_column (setitem df l c) l = true.
Proof.
  apply has_column_In. destruct (has_column df l) eqn:H.
  - rewrite setitem_labels_present by assumption. now apply has_column_In.
  - rewrite setitem_labels_absent by assumption. apply in_or_app. right. now left.
Qed.

Lemma setitem_aligned (df : DataFrame) (l : string) (c : column) :
  aligned df -> col_len c = nrows df -> aligned (setitem df l c).
Proof.
  unfold aligned. intros Ha Hc. rewrite setitem_nrows.
  unfold setitem. destruct (has_column df l); simpl.
  - apply Forall_map. eapply Forall_impl; [|exact Ha].
    intros [k v] Hk. simpl in *. destruct (k =? l); simpl; auto.
  - apply Forall_app. split; auto.
Qed.

Lemma setitem_In (df : DataFrame) (l : string) (c : column) :
  In (l, c) (columns (setitem df l c)).
Proof.
  unfold setitem. destruct (has_column df l) eqn:H; simpl.
  - apply has_column_In in H. apply In_label in H. destruct H as [v Hv].
    apply in_map_iff. exists (l, v). split; auto. simpl.
    now rewrite String.eqb_refl.
  - apply in_or_app. right. now left.
Qed.

Lemma setitem_nth_other (df : DataFrame) (l k : string) (c v : column) (i : nat) :
  nth_error (columns df) i = Some (k, v) -> k <> l ->
  nth_error (columns (setitem df l c)) i = Some (k, v).
Proof.
  intros Hi Hne. unfold setitem. destruct (has_column df l); simpl.
  - rewrite nth_error_map, Hi. simpl.
    destruct (String.eqb_spec k l); congruence.
  - rewrite nth_error_app1; auto. apply nth_error_Some. congruence.
Qed.

Lemma setitem_nth_same (df : DataFrame) (l : string) (c v : column) (i : nat) :
  nth_error (columns df) i = Some (l, v) ->
  nth_error (columns (setitem df l c)) i = Some (l, c).
Proof.
  intros Hi. unfold setitem.
  assert (H : has_column df l = true).
  { apply has_column_In. apply nth_error_In in Hi.
    unfold labels. change l with (fst (l, v)). now apply in_map. }
  rewrite H. simpl. rewrite nth_error_map, Hi. simpl.
  now rewrite String.eqb_refl.
Qed.

Lemma setitem_nth_new (df : DataFrame) (l : string) (c : column) :
  has_column df l = false ->
  nth_error (columns (setitem df l c)) (List.length (columns df)) = Some (l, c).
Proof.
  intros H. unfold setitem. rewrite H. simpl.
  rewrite nth_error_app2 by lia. now rewrite Nat.sub_diag.
Qed.

Lemma setitem_columns_length (df : DataFrame) (l : string) (c : column) :
  List.length (columns df) <= List.length (columns (setitem df l c)).
Proof.
  unfold setitem. destruct (has_column df l); simpl.
  - now rewrite length_map.
  - rewrite length_app. lia.
Qed.

Lemma setitem_same (df : DataFrame) (l : string) (c : column) :
  hits df l <= 1 -> In (l, c) (columns df) -> setitem df l c = df.
Proof.
  intros Hle Hin. unfold setitem.
  assert (H : has_column df l = true).
  { apply has_column_In. unfold labels. change l with (fst (l, c)).
    now apply in_map. }
  rewrite H. destruct df as [idx cs]. cbn [index columns] in *. f_equal.
  rewrite <- (map_id cs) at 2. apply map_ext_in.
  intros [k v] Hkv. simpl. destruct (String.eqb_spec k l) as [->|Hne]; auto.
  f_equal.
  pose proof (@getitem_unique (mkdf idx cs) l c Hle Hin) as H1.
  pose proof (@getitem_unique (mkdf idx cs) l v Hle Hkv) as H2. congruence.
Qed.

Lemma filter_setitem_other (df : DataFrame) (l k : string) (c : column) :
  k <> l ->
  filter (fun lc => fst lc =? k) (columns (setitem df l c))
  = filter (fun lc => fst lc =? k) (columns df).
Proof.
  intros Hne. unfold setitem.
  destruct (has_column df l); simpl.
  - induction (columns df) as [|[a v] cs IH]; simpl; auto.
    destruct (String.eqb_spec a l) as [->|Hal]; simpl.
    + destruct (String.eqb_spec l k) as [E|_]; [congruence|]. exact IH.
    + destruct (a =? k); [f_equal|]; exact IH.
  - rewrite filter_app. simpl.
    destruct (String.eqb_spec l k) as [E|_]; [congruence|]. apply app_nil_r.
Qed.

Lemma setitem_getitem_other (df : DataFrame) (l k : string) (c : column) :
  k <> l -> getitem (setitem df l c) k = getitem df k.
Proof. intros Hne. unfold getitem. now rewrite filter_setitem_other. Qed.

Lemma hits_setitem_other (df : DataFrame) (l k : string) (c : column) :
  k <> l -> hits (setitem df l c) k = hits df k.
Proof. intros Hne. unfold hits. now rewrite filter_setitem_other. Qed.

Lemma hits_setitem_same (df : DataFrame) (l : string) (c : column) :
  hits df l <= 1 -> hits (setitem df l c) l <= 1.
Proof.
  intros Hle. unfold hits, setitem in *. destruct (has_column df l) eqn:H; simpl.
  - assert (E : forall cs : list (string * column),
              List.length (filter (fun lc => fst lc =? l)
                             (map (fun lc => if fst lc =? l then (l, c) else lc) cs))
              = List.length (filter (fun lc => fst lc =? l) cs)).
    { induction cs as [|[a v] cs IH]; simpl; auto.
      destruct (String.eqb_spec a l) as [->|Hal]; simpl.
      - rewrite String.eqb_refl. simpl. now rewrite IH.
      - destruct (String.eqb_spec a l); [congruence|]. exact IH. }
    now rewrite E.
  - rewrite filter_app, length_app. simpl. rewrite String.eqb_refl. simpl.
    apply has_column_false in H. rewrite filter_label_absent by exact H.
    simpl. lia.
Qed.

Lemma setitem_getitem_same (df : DataFrame) (l : string) (c : column) :
  hits df l <= 1 -> getitem (setitem df l c) l = Single c.
Proof.
  intros Hle. apply getitem_unique.
  - now apply hits_setitem_same.
  - apply setitem_In.
Qed.

Lemma col_select_len (keep : list bool) (c : column) (idx : list nat) :
  col_len c = List.length idx ->
  col_len (col_select keep c) = List.length (select keep idx).
Proof.
  destruct c; simpl; intros H; now apply select_length_eq.
Qed.

Lemma col_select_all (B : Type) (ys : list B) (c : column) :
  List.length ys = col_len c ->
  col_select (map (fun _ => true) ys) c = c.
Proof.
  destruct c; simpl; intros H; f_equal; now apply select_all.
Qed.

Lemma drop_rows_labels (keep : list bool) (df : DataFrame) :
  labels (drop_rows keep df) = labels df.
Proof. unfold labels, drop_rows. simpl. now rewrite map_map. Qed.

Lemma drop_rows_aligned (keep : list bool) (df : DataFrame) :
  aligned df -> aligned (drop_rows keep df).
Proof.
  unfold aligned, drop_rows, nrows. simpl. intros H.
  apply Forall_map. eapply Forall_impl; [|exact H].
  intros [k v] Hk. simpl in *. now apply col_select_len.
Qed.

Lemma drop_rows_nth (keep : list bool) (df : DataFrame) (i : nat) (k : string) (v : column) :
  nth_error (columns df) i = Some (k, v) ->
  nth_error (columns (drop_rows keep df)) i = Some (k, col_select keep v).
Proof.
  intros H. unfold drop_rows. simpl. now rewrite nth_error_map, H.
Qed.

Lemma drop_rows_all (df : DataFrame) :
  aligned df -> drop_rows (map (fun _ => true) (index df)) df = df.
Proof.
  destruct df as [idx cs]. unfold aligned, drop_rows, nrows. simpl.
  intros Ha. f_equal.
  - now apply select_all.
  - rewrite <- (map_id cs) at 2. apply map_ext_in.
    intros [k v] Hkv. simpl. f_equal. apply col_select_all.
    rewrite Forall_forall in Ha. symmetry. exact (Ha _ Hkv).
Qed.

Lemma strip_columns_labels (df : DataFrame) :
  labels (strip_columns df) = map strip (labels df).
Proof. unfold labels, strip_columns. simpl. now rewrite !map_map. Qed.

Lemma strip_columns_aligned (df : DataFrame) :
  aligned df -> aligned (strip_columns df).
Proof.
  unfold aligned, strip_columns, nrows. simpl. intros H.
  apply Forall_map. eapply Forall_impl; [|exact H]. now intros [k v].
Qed.

Lemma strip_columns_nth (df : DataFrame) (i : nat) (k : string) (v : column) :
  nth_error (columns df) i = Some (k, v) ->
  nth_error (columns (strip_columns df)) i = Some (strip k, v).
Proof.
  intros H. unfold strip_columns. simpl. now rewrite nth_error_map, H.
Qed.

Lemma strip_columns_trimmed (df : DataFrame) :
  trimmed df -> strip_columns df = df.
Proof.
  unfold trimmed, labels. intros H. unfold strip_columns.
  rewrite <- (frame_eta df) at 3. f_equal.
  rewrite <- (map_id (columns df)) at 2. apply map_ext_in.
  intros [k v] Hkv. simpl. f_equal.
  rewrite Forall_forall in H. apply H.
  change k with (fst (k, v)). now apply in_map.
Qed.


Lemma filter_relabel_length (g : column -> column) (l : string)
    (cs : list (string * column)) :
  List.length (filter (fun lc => fst lc =? l)
                 (map (fun lc => (fst lc, g (snd lc))) cs))
  = List.length (filter (fun lc => fst lc =? l) cs).
Proof.
  induction cs as [|[k v] cs IH]; simpl; auto.
  destruct (k =? l); simpl; now rewrite IH.
Qed.

Lemma hits_drop_rows (keep : list bool) (df : DataFrame) (l : string) :
  hits (drop_rows keep df) l = hits df l.
Proof. unfold hits, drop_rows. cbn [columns]. apply filter_relabel_length. Qed.

Lemma setitem_labels (df : DataFrame) (l : string) (c : column) :
  labels (setitem df l c)
  = (labels df ++ (if has_column df l then [] else [l]))%list.
Proof.
  destruct (has_column df l) eqn:H.
  - rewrite setitem_labels_present by assumption. now rewrite app_nil_r.
  - now apply setitem_labels_absent.
Qed.

Lemma setitem_In_other (df : DataFrame) (l k : string) (c v : column) :
  In (k, v) (columns df) -> k <> l -> In (k, v) (columns (setitem df l c)).
Proof.
  intros Hin Hne. destruct (In_nth_error _ _ Hin) as [i Hi].
  eapply nth_error_In. eapply setitem_nth_other; eauto.
Qed.

Lemma setitem_has_other (df : DataFrame) (l k : string) (c : column) :
  k <> l -> has_column (setitem df l c) k = has_column df k.
Proof.
  intros Hne. destruct (has_column df l) eqn:H.
  - unfold has_column. now rewrite setitem_labels_present.
  - unfold has_column. rewrite setitem_labels_absent by assumption.
    rewrite existsb_app. simpl.
    destruct (String.eqb_spec k l); [congruence|].
    now rewrite !orb_false_r.
Qed.

Lemma setitem_labels_incl (df : DataFrame) (l k : string) (c : column) :
  In k (labels (setitem df l c)) -> In k (labels df) \/ k = l.
Proof.
  destruct (has_column df l) eqn:E.
  - rewrite setitem_labels_present by assumption. auto.
  - rewrite setitem_labels_absent by assumption. intros H.
    apply in_app_or in H. destruct H as [H|[H|[]]]; auto.
Qed.

Lemma strip_columns_In (df : DataFrame) (k : string) (v : column) :
  In (k, v) (columns df) -> In (strip k, v) (columns (strip_columns df)).
Proof.
  intros H. unfold strip_columns. cbn [columns].
  change (strip k, v) with ((fun lc : string * column => (strip (fst lc), snd lc)) (k, v)).
  now apply in_map.
Qed.

Lemma columns_length (df : DataFrame) :
  List.length (columns df) = List.length (labels df).
Proof. unfold labels. now rewrite length_map. Qed.

Lemma aligned_In (df : DataFrame) (l : string) (c : column) :
  aligned df -> In (l, c) (columns df) -> col_len c = nrows df.
Proof.
  unfold aligned. rewrite Forall_forall. intros H Hin. exact (H _ Hin).
Qed.

Lemma map_const (A B C : Type) (b : C) (xs : list A) (ys : list B) :
  List.length xs = List.length ys ->
  map (fun _ => b) xs = map (fun _ => b) ys.
Proof.
  revert ys. induction xs as [|x xs IH]; intros [|y ys] H; simpl in *;
    try reflexivity; try discriminate.
  injection H as H. now rewrite (IH ys).
Qed.

Lemma append_empty_r (s : string) : s ++ "" = s.
Proof. induction s; simpl; congruence. Qed.

Lemma append_assoc_s (a b c : string) : (a ++ b) ++ c = a ++ (b ++ c).
Proof. induction a; simpl; congruence. Qed.

Lemma select_none (A B : Type) (ys : list B) (xs : list A) :
  select (map (fun _ => false) ys) xs = [].
Proof.
  revert xs. induction ys as [|y ys IH]; intros [|x xs]; simpl; auto.
Qed.

Lemma somes_none (A B : Type) (ys : list B) :
  somes (map (fun _ => @None A) ys) = [].
Proof. induction ys; simpl; auto. Qed.

(** A label that names at most one column is met at one position. *)
Lemma hits_position (df : DataFrame) (l : string) (i j : nat) (a b : column) :
  hits df l <= 1 ->
  nth_error (columns df) i = Some (l, a) ->
  nth_error (columns df) j = Some (l, b) -> i = j.
Proof.
  intros Hle Hi Hj.
  destruct (Nat.lt_trichotomy i j) as [H|[H|H]]; auto.
  - destruct (@getitem_twice df l i j a b H Hi Hj) as [cs [G _]].
    assert (S : several (getitem df l)) by (now exists cs).
    apply hits_several in S. lia.
  - destruct (@getitem_twice df l j i b a H Hj Hi) as [cs [G _]].
    assert (S : several (getitem df l)) by (now exists cs).
    apply hits_several in S. lia.
Qed.


Lemma select_In (A : Type) (keep : list bool) (xs : list A) (x : A) :
  In x (select keep xs) -> In x xs.
Proof.
  revert xs. induction keep as [|k keep IH]; intros xs H.
  - destruct xs; contradiction.
  - destruct xs as [|y xs]; [contradiction|]. simpl in H. destruct k.
    + destruct H as [H|H]; [now left|right; now apply IH].
    + right. now apply IH.
Qed.

(** ** Trimming *)

Lemma lstrip_step (s : string) :
  lstrip s = match drop_space s with Some r => lstrip r | None => s end.
Proof.
  destruct s as [|a [|b [|c r3]]]; simpl; auto.
  - now destruct (space1 a).
  - destruct (space1 a); auto. now destruct (space2 a b).
  - destruct (space1 a); auto. destruct (space2 a b); auto.
    now destruct (space3 a b c).
Qed.

Lemma drop_space_shorter (s r : string) :
  drop_space s = Some r -> String.length r < String.length s.
Proof.
  destruct s as [|a [|b [|c r3]]]; simpl; try discriminate.
  - destruct (space1 a); [|discriminate]. intros [= <-]. simpl. lia.
  - destruct (space1 a); [intros [= <-]; simpl; lia|].
    destruct (space2 a b); [|discriminate]. intros [= <-]. simpl. lia.
  - destruct (space1 a); [intros [= <-]; simpl; lia|].
    destruct (space2 a b); [intros [= <-]; simpl; lia|].
    destruct (space3 a b c); [|discriminate]. intros [= <-]. simpl. lia.
Qed.

Lemma drop_space_app (s r w : string) :
  drop_space s = Some r -> drop_space (s ++ w) = Some (r ++ w).
Proof.
  destruct s as [|a [|b [|c r3]]]; simpl; try discriminate.
  - destruct (space1 a); [|discriminate]. now intros [= <-].
  - destruct (space1 a); [now intros [= <-]|].
    destruct (space2 a b); [|discriminate]. now intros [= <-].
  - destruct (space1 a); [now intros [= <-]|].
    destruct (space2 a b); [now intros [= <-]|].
    destruct (space3 a b c); [|discriminate]. now intros [= <-].
Qed.

(** What [lstrip] returns does not start with whitespace. *)
Lemma lstrip_head (s : string) : drop_space (lstrip s) = None.
Proof.
  assert (G : forall n s, String.length s <= n -> drop_space (lstrip s) = None).
  { intros n. induction n as [|n IH]; intros t Hl.
    - destruct t; [reflexivity|simpl in Hl; lia].
    - rewrite lstrip_step. destruct (drop_space t) as [r|] eqn:E; auto.
      apply IH. apply drop_space_shorter in E. lia. }
  now apply (G (String.length s)).
Qed.

Lemma lstrip_id (s : string) : drop_space s = None -> lstrip s = s.
Proof. intros H. now rewrite lstrip_step, H. Qed.

Lemma blank_app (x w : string) :
  blank x = true -> blank w = true -> blank (x ++ w) = true.
Proof.
  assert (G : forall n x, String.length x <= n ->
                blank x = true -> blank w = true -> blank (x ++ w) = true).
  { intros n. induction n as [|n IH]; intros t Hl Ht Hw.
    - destruct t; [exact Hw|simpl in Hl; lia].
    - unfold blank in *. rewrite lstrip_step in Ht.
      destruct (drop_space t) as [r|] eqn:E.
      + rewrite lstrip_step, (@drop_space_app t r w E).
        apply IH; auto. apply drop_space_shorter in E. lia.
      + destruct t; [exact Hw|discriminate Ht]. }
  now apply (G (String.length x)).
Qed.

(** What [rstrip] cuts off is whitespace. *)
Lemma rstrip_cut (s : string) :
  exists w, s = rstrip s ++ w /\ blank w = true.
Proof.
  induction s as [|a r IH].
  - exists EmptyString. split; reflexivity.
  - cbn [rstrip]. destruct (blank (String a r)) eqn:E.
    + exists (String a r). split; auto.
    + destruct IH as [w [Hr Hw]]. exists w. split; auto.
      simpl. now rewrite <- Hr.
Qed.

Lemma rstrip_twice (s : string) : rstrip (rstrip s) = rstrip s.
Proof.
  induction s as [|a r IH]; auto.
  cbn [rstrip]. destruct (blank (String a r)) eqn:E; auto.
  cbn [rstrip]. rewrite IH.
  destruct (blank (String a (rstrip r))) eqn:F; auto.
  destruct (rstrip_cut r) as [w [Hr Hw]].
  pose proof (@blank_app (String a (rstrip r)) w F Hw) as B.
  simpl in B. rewrite <- Hr in B. congruence.
Qed.

Lemma rstrip_head (s : string) :
  drop_space s = None -> drop_space (rstrip s) = None.
Proof.
  intros H. destruct (drop_space (rstrip s)) as [u|] eqn:E; auto.
  destruct (rstrip_cut s) as [w [Hr _]].
  pose proof (@drop_space_app (rstrip s) u w E) as D. rewrite <- Hr in D.
  congruence.
Qed.

(** Trimming a trimmed text changes nothing. *)
Lemma strip_twice (s : string) : strip (strip s) = strip s.
Proof.
  unfold strip.
  rewrite (@lstrip_id (rstrip (lstrip s))).
  - apply rstrip_twice.
  - apply rstrip_head. apply lstrip_head.
Qed.

(** A trimmed text has no whitespace at its start, and none from any
    point to its end. *)
Lemma strip_fixed_ends (s : string) :
  strip s = s ->
  drop_space s = None
  /\ forall a b, s = a ++ b -> b <> EmptyString -> blank b = false.
Proof.
  intros H. split.
  - rewrite <- H. unfold strip. apply rstrip_head. apply lstrip_head.
  - assert (R : rstrip s = s).
    { rewrite <- H. unfold strip. apply rstrip_twice. }
    clear H. revert R. induction s as [|c s IH]; intros R a b Hs Hb.
    + destruct a; [|discriminate Hs]. simpl in Hs. now subst b.
    + cbn [rstrip] in R. destruct (blank (String c s)) eqn:E; [discriminate R|].
      injection R as R. destruct a as [|x a]; simpl in Hs.
      * now subst b.
      * injection Hs as -> Hs. exact (IH R a b Hs Hb).
Qed.

Lemma labels_distinct :
  DATE <> DEBIT /\ DATE <> CREDIT /\ DEBIT <> CREDIT.
Proof. repeat split; discriminate. Qed.

Lemma labels_trimmed :
  strip DATE = DATE /\ strip DEBIT = DEBIT /\ strip CREDIT = CREDIT.
Proof. repeat split; reflexivity. Qed.

Lemma strip_columns_is_trimmed (df : DataFrame) : trimmed (strip_columns df).
Proof.
  unfold trimmed. rewrite strip_columns_labels. apply Forall_forall.
  intros l Hl. apply in_map_iff in Hl. destruct Hl as [k [<- _]].
  apply strip_twice.
Qed.

Lemma trimmed_labels (df : DataFrame) :
  trimmed df -> map strip (labels df) = labels df.
Proof.
  unfold trimmed. intros H. rewrite <- (map_id (labels df)) at 2.
  apply map_ext_in. intros l Hl. rewrite Forall_forall in H. now apply H.
Qed.

(** Trimming the labels keeps the number of columns under a trimmed label
    that no other label trims to. *)
Lemma hits_strip_columns (df : DataFrame) (col : string) :
  strip col = col -> exact_label df col ->
  hits (strip_columns df) col = hits df col.
Proof.
  unfold exact_label, hits, strip_columns, labels. cbn [columns].
  intros Hc. induction (columns df) as [|[k v] cs IH]; intros He; auto.
  assert (IH' : List.length
                  (filter (fun lc => fst lc =? col)
                     (map (fun lc : string * column => (strip (fst lc), snd lc)) cs))
                = List.length (filter (fun lc => fst lc =? col) cs)).
  { apply IH. intros l Hl. apply He. now right. }
  simpl. destruct (String.eqb_spec (strip k) col) as [E|E];
    destruct (String.eqb_spec k col) as [F|F]; simpl; auto.
  - exfalso. apply F. apply He; auto. now left.
  - exfalso. apply E. now rewrite F.
Qed.

Lemma raw_ledger_hits (df : DataFrame) (col : string) :
  raw_ledger df -> col = DATE \/ col = DEBIT \/ col = CREDIT -> hits df col <= 1.
Proof. intros [_ [H1 [H2 H3]]] [-> | [-> | ->]]; assumption. Qed.

(** Distinct labels and aligned columns make a ledger of the loader. *)
Lemma NoDup_raw_ledger (df : DataFrame) :
  aligned df -> NoDup (labels df) -> raw_ledger df.
Proof. intros Ha Hn. repeat split; auto; now apply NoDup_hits. Qed.

(** Assigning a column of the right length keeps a ledger one. *)
Lemma setitem_raw (df : DataFrame) (l : string) (c : column) :
  raw_ledger df -> hits df l <= 1 -> col_len c = nrows df ->
  raw_ledger (setitem df l c).
Proof.
  intros [Ha [H1 [H2 H3]]] Hl Hc.
  assert (K : forall k, hits df k <= 1 -> hits (setitem df l c) k <= 1).
  { intros k Hk. destruct (String.eqb_spec k l) as [->|Hne].
    - now apply hits_setitem_same.
    - now rewrite hits_setitem_other. }
  split; [now apply setitem_aligned|]. repeat split; now apply K.
Qed.

(** ** The steps of normalisation *)

Section PassLemmas.

Context {pd : Pandas}.

Lemma to_datetime_length (c : column) :
  List.length (to_datetime c) = col_len c.
Proof. destruct c; simpl; now rewrite ?length_map. Qed.

Lemma astype_str_length (c : column) :
  List.length (astype_str c) = col_len c.
Proof. destruct c; simpl; now rewrite length_map. Qed.

(** The mask of the statements is the one the pass computes. *)
Lemma date_mask_single (df : DataFrame) (c : column) :
  getitem df DATE = Single c -> date_mask df = map not_none (to_datetime c).
Proof.
  intros H. unfold date_mask. rewrite H. destruct c as [l|l|l]; simpl; auto.
  - rewrite map_map. apply map_ext. now intros [t|].
  - now rewrite map_map.
Qed.

Lemma date_mask_absent (df : DataFrame) :
  has_column df DATE = false -> date_mask df = map (fun _ => true) (index df).
Proof. intros H. unfold date_mask. now rewrite (getitem_absent df DATE H). Qed.

Lemma with_dates_labels (df : DataFrame) : labels (with_dates df) = labels df.
Proof.
  unfold with_dates. destruct (getitem df DATE) eqn:E; auto.
  apply setitem_labels_present. eapply getitem_Single_has; eauto.
Qed.

Lemma with_dates_index (df : DataFrame) : index (with_dates df) = index df.
Proof.
  unfold with_dates. destruct (getitem df DATE); auto. apply setitem_index.
Qed.

Lemma with_dates_aligned (df : DataFrame) : aligned df -> aligned (with_dates df).
Proof.
  intros Ha. unfold with_dates. destruct (getitem df DATE) eqn:E; auto.
  apply setitem_aligned; auto. simpl. rewrite to_datetime_length.
  apply aligned_In with (l := DATE); auto. now apply getitem_Single_In.
Qed.

Lemma with_dates_hits (df : DataFrame) (k : string) :
  hits df k <= 1 -> hits (with_dates df) k <= 1.
Proof.
  intros Hk. unfold with_dates. destruct (getitem df DATE); auto.
  destruct (String.eqb_spec k DATE) as [->|Hne].
  - now apply hits_setitem_same.
  - now rewrite hits_setitem_other.
Qed.

Lemma date_mask_length (df : DataFrame) :
  aligned df -> List.length (date_mask df) = nrows df.
Proof.
  intros Ha. destruct (getitem df DATE) as [|c|cs] eqn:E.
  - unfold date_mask. rewrite E. now rewrite length_map.
  - rewrite (@date_mask_single df c E), length_map, to_datetime_length.
    apply aligned_In with (l := DATE); auto. now apply getitem_Single_In.
  - unfold date_mask. rewrite E. now rewrite length_map.
Qed.

Lemma preprocess_date_ok (df : DataFrame) :
  raw_ledger df ->
  preprocess_date df = Ok (drop_rows (date_mask df) (with_dates df)).
Proof.
  intros [Ha [Hd _]]. unfold preprocess_date.
  destruct (has_column df DATE) eqn:H.
  - apply has_column_In in H. destruct (In_label df DATE H) as [c Hc].
    pose proof (@getitem_unique df DATE c Hd Hc) as G.
    rewrite (@date_mask_single df c G). unfold with_dates. rewrite G.
    destruct (existsb is_none (to_datetime c)) eqn:E; auto.
    rewrite (no_none_mask _ E). f_equal. symmetry.
    rewrite (map_const true (to_datetime c) (index (setitem df DATE (DateCol (to_datetime c))))).
    + apply drop_rows_all. apply setitem_aligned; auto.
      simpl. rewrite to_datetime_length. now apply aligned_In with (l := DATE).
    + rewrite to_datetime_length, setitem_index. now apply aligned_In with (l := DATE).
  - rewrite (date_mask_absent df H). unfold with_dates.
    rewrite (getitem_absent df DATE H). now rewrite drop_rows_all.
Qed.

Lemma fillna0_no_none (l : list (option float)) :
  existsb is_none l = false -> map fillna0 l = l.
Proof.
  induction l as [|[x|] l IH]; simpl; intros H; try discriminate; auto.
  now rewrite IH.
Qed.

Lemma astype_str_text (ts : list string) :
  astype_str (ObjCol (map Some ts)) = ts.
Proof.
  simpl. rewrite map_map. rewrite <- (map_id ts) at 2. now apply map_ext.
Qed.

Lemma convert_amount_spec (c : column) :
  convert_amount c = Ok (NumCol (map Some (amount_cells c))).
Proof.
  unfold convert_amount, amount_cells.
  assert (E : astype_str (if negb (is_numeric_dtype c) && negb (is_string_dtype c)
                          then ObjCol (map Some (astype_str c)) else c)
              = astype_str c).
  { destruct (negb (is_numeric_dtype c) && negb (is_string_dtype c)); auto.
    apply astype_str_text. }
  rewrite E. do 2 f_equal.
  set (nums := map to_numeric (map clean_amount (astype_str c))).
  assert (F : (if existsb is_none nums then map fillna0 nums else nums)
              = map fillna0 nums).
  { destruct (existsb is_none nums) eqn:N; auto. now rewrite fillna0_no_none. }
  rewrite F. unfold nums. rewrite !map_map. apply map_ext.
  intros t. unfold parse_or_zero. now destruct (to_numeric (clean_amount t)).
Qed.

Lemma process_amount_ok (col : string) (df : DataFrame) :
  hits df col <= 1 ->
  process_amount col df = Ok (setitem df col (normalized_amount df col)).
Proof.
  intros Hle. unfold process_amount, normalized_amount, amount_column.
  destruct (has_column df col) eqn:H; cbn [negb].
  - apply has_column_In in H. destruct (In_label df col H) as [c Hc].
    rewrite (@getitem_unique df col c Hle Hc).
    destruct (forallb (fun b => b) (isna c)); auto.
    now rewrite convert_amount_spec.
  - now rewrite (getitem_absent df col H).
Qed.

Lemma zeros_shape (n : nat) : zeros n = NumCol (map Some (repeat fzero n)).
Proof. unfold zeros. now rewrite map_repeat. Qed.

Lemma amount_column_shape (n : nat) (c : column) :
  col_len c = n ->
  exists xs, amount_column n c = NumCol (map Some xs) /\ List.length xs = n.
Proof.
  intros Hc. unfold amount_column.
  destruct (forallb (fun b => b) (isna c)).
  - exists (repeat fzero n). split; [now rewrite map_repeat|apply repeat_length].
  - exists (amount_cells c). split; auto.
    unfold amount_cells. now rewrite length_map, astype_str_length.
Qed.

Lemma normalized_amount_shape (df : DataFrame) (col : string) :
  aligned df ->
  exists xs, normalized_amount df col = NumCol (map Some xs)
             /\ List.length xs = nrows df.
Proof.
  intros Ha. unfold normalized_amount.
  assert (Z : exists xs, zeros (nrows df) = NumCol (map Some xs)
                         /\ List.length xs = nrows df).
  { exists (repeat fzero (nrows df)). split; [apply zeros_shape|apply repeat_length]. }
  destruct (getitem df col) eqn:E; auto.
  apply amount_column_shape.
  apply aligned_In with (l := col); auto. now apply getitem_Single_In.
Qed.

Lemma normalized_amount_len (df : DataFrame) (col : string) :
  aligned df -> col_len (normalized_amount df col) = nrows df.
Proof.
  intros Ha. destruct (normalized_amount_shape col Ha) as [xs [-> Hl]].
  simpl. now rewrite length_map.
Qed.

Lemma dated_raw (df : DataFrame) :
  raw_ledger df -> raw_ledger (drop_rows (date_mask df) (with_dates df)).
Proof.
  intros [Ha [H1 [H2 H3]]]. split.
  - apply drop_rows_aligned. now apply with_dates_aligned.
  - rewrite !hits_drop_rows. repeat split; now apply with_dates_hits.
Qed.

Lemma amount_step_raw (df : DataFrame) (col : string) :
  raw_ledger df -> col = DEBIT \/ col = CREDIT ->
  raw_ledger (setitem df col (normalized_amount df col)).
Proof.
  intros Hraw Hcol. apply setitem_raw; auto.
  - apply raw_ledger_hits; [assumption|destruct Hcol; auto].
  - apply normalized_amount_len. apply Hraw.
Qed.

Lemma preprocess_body_ok (df : DataFrame) :
  raw_ledger df -> preprocess_body df = Ok (normal_form df).
Proof.
  intros Hraw. unfold preprocess_body, normal_form.
  rewrite (preprocess_date_ok Hraw). simpl.
  pose proof (dated_raw Hraw) as H1.
  rewrite (@process_amount_ok DEBIT _ (proj1 (proj2 (proj2 H1)))). simpl.
  pose proof (@amount_step_raw _ DEBIT H1 (or_introl eq_refl)) as H2.
  now rewrite (@process_amount_ok CREDIT _ (proj2 (proj2 (proj2 H2)))).
Qed.

(** On a ledger from the loader the pass never raises. *)
Lemma preprocess_normal_form (df : DataFrame) :
  raw_ledger df -> _preprocess_data df = Ok (normal_form df).
Proof.
  intros Hraw. unfold _preprocess_data. now rewrite (preprocess_body_ok Hraw).
Qed.

(** ** The normalised ledger *)

Lemma normal_form_index (df : DataFrame) :
  index (normal_form df) = select (date_mask df) (index df).
Proof.
  unfold normal_form. cbn [strip_columns index].
  rewrite !setitem_index. unfold drop_rows. cbn [index].
  now rewrite with_dates_index.
Qed.

Lemma normal_form_nrows (df : DataFrame) : nrows (normal_form df) <= nrows df.
Proof. unfold nrows. rewrite normal_form_index. apply select_length_le. Qed.

Lemma normal_form_aligned (df : DataFrame) :
  raw_ledger df -> aligned (normal_form df).
Proof.
  intros Hraw. unfold normal_form. apply strip_columns_aligned.
  apply amount_step_raw; [|now right]. apply amount_step_raw; [|now left].
  now apply dated_raw.
Qed.

(** A column that is none of the three configured ones keeps its place
    and its cells; only the rows with an unparsable date go. *)
Lemma normal_form_nth_other (df : DataFrame) (i : nat) (k : string) (v : column) :
  nth_error (columns df) i = Some (k, v) ->
  k <> DATE -> k <> DEBIT -> k <> CREDIT ->
  nth_error (columns (normal_form df)) i
  = Some (strip k, col_select (date_mask df) v).
Proof.
  intros Hi Hd Hb Hc. unfold normal_form.
  apply strip_columns_nth. apply setitem_nth_other; auto.
  apply setitem_nth_other; auto. apply drop_rows_nth.
  unfold with_dates. destruct (getitem df DATE); auto.
  now apply setitem_nth_other.
Qed.

(** The date column keeps its place and holds the timestamps that were
    read. *)
Lemma normal_form_nth_date (df : DataFrame) (i : nat) (c : column) :
  hits df DATE <= 1 ->
  nth_error (columns df) i = Some (DATE, c) ->
  date_mask df = map not_none (to_datetime c)
  /\ nth_error (columns (normal_form df)) i
     = Some (DATE, DateCol (map Some (somes (to_datetime c)))).
Proof.
  intros Hnd Hi.
  assert (Hg : getitem df DATE = Single c).
  { apply getitem_unique; auto. eapply nth_error_In; eauto. }
  pose proof (@date_mask_single df c Hg) as Hm.
  split; auto.
  destruct labels_distinct as [H1 [H2 H3]].
  unfold normal_form.
  assert (Hs : forall (d : DataFrame) (v : column),
            nth_error (columns d) i = Some (DATE, v) ->
            nth_error (columns (strip_columns d)) i = Some (DATE, v)).
  { intros d v Hd. exact (strip_columns_nth d i Hd). }
  apply Hs. apply setitem_nth_other; auto.
  apply setitem_nth_other; auto.
  rewrite <- select_not_none, <- Hm.
  change (DateCol (select (date_mask df) (to_datetime c)))
    with (col_select (date_mask df) (DateCol (to_datetime c))).
  apply drop_rows_nth. unfold with_dates. rewrite Hg.
  eapply setitem_nth_same; eauto.
Qed.

Lemma dated_columns_length (df : DataFrame) :
  List.length (columns (drop_rows (date_mask df) (with_dates df)))
  = List.length (columns df).
Proof.
  now rewrite !columns_length, drop_rows_labels, with_dates_labels.
Qed.

Lemma dated_has_column (df : DataFrame) (l : string) :
  has_column (drop_rows (date_mask df) (with_dates df)) l = has_column df l.
Proof.
  unfold has_column. now rewrite drop_rows_labels, with_dates_labels.
Qed.

Lemma dated_nrows (df : DataFrame) :
  nrows (normal_form df) = nrows (drop_rows (date_mask df) (with_dates df)).
Proof.
  unfold normal_form, nrows. cbn [strip_columns index].
  now rewrite !setitem_index.
Qed.

Lemma dated_In (df : DataFrame) (k : string) (v : column) :
  In (k, v) (columns df) -> k <> DATE ->
  In (k, col_select (date_mask df) v)
     (columns (drop_rows (date_mask df) (with_dates df))).
Proof.
  intros Hin Hk. destruct (In_nth_error _ _ Hin) as [i Hi].
  eapply nth_error_In. apply drop_rows_nth.
  unfold with_dates. destruct (getitem df DATE); eauto.
  apply setitem_nth_other; eauto.
Qed.

(** Each amount label names, in the normalised ledger, a numeric column
    with a number in every row. *)
Lemma normal_form_amount (df : DataFrame) (col : string) :
  raw_ledger df -> col = DEBIT \/ col = CREDIT ->
  exists xs,
    In (col, NumCol (map Some xs)) (columns (normal_form df))
    /\ List.length xs = nrows (normal_form df).
Proof.
  intros Hraw Hcol. pose proof (dated_raw Hraw) as H1.
  pose proof (@amount_step_raw _ DEBIT H1 (or_introl eq_refl)) as H2.
  rewrite dated_nrows. unfold normal_form.
  set (df1 := drop_rows (date_mask df) (with_dates df)) in *.
  set (df2 := setitem df1 DEBIT (normalized_amount df1 DEBIT)) in *.
  destruct Hcol as [-> | ->].
  - destruct (@normalized_amount_shape df1 DEBIT (proj1 H1)) as [xs [Hx Hl]].
    exists xs. split; auto.
    apply (strip_columns_In _ DEBIT). apply setitem_In_other; [|discriminate].
    unfold df2. rewrite Hx. apply setitem_In.
  - destruct (@normalized_amount_shape df2 CREDIT (proj1 H2)) as [xs [Hx Hl]].
    exists xs. split.
    + apply (strip_columns_In _ CREDIT). rewrite Hx. apply setitem_In.
    + rewrite Hl. unfold df2. apply setitem_nrows.
Qed.

(** What the amount loop makes of a column that is there. *)
Lemma normal_form_amount_of (df : DataFrame) (col : string) (c : column) :
  raw_ledger df -> col = DEBIT \/ col = CREDIT ->
  In (col, c) (columns df) ->
  In (col, amount_column (nrows (normal_form df)) (col_select (date_mask df) c))
     (columns (normal_form df)).
Proof.
  intros Hraw Hcol Hin.
  assert (Hd : col <> DATE) by (destruct Hcol as [-> | ->]; discriminate).
  pose proof (dated_raw Hraw) as H1.
  pose proof (@dated_In df col c Hin Hd) as Hin1.
  rewrite dated_nrows. unfold normal_form.
  set (df1 := drop_rows (date_mask df) (with_dates df)) in *.
  assert (K1 : hits df1 col <= 1).
  { apply raw_ledger_hits; [assumption|destruct Hcol; auto]. }
  pose proof (@getitem_unique df1 col _ K1 Hin1) as G1.
  destruct Hcol as [-> | ->].
  - apply (strip_columns_In _ DEBIT). apply setitem_In_other; [|discriminate].
    unfold normalized_amount. rewrite G1. apply setitem_In.
  - apply (strip_columns_In _ CREDIT).
    set (df2 := setitem df1 DEBIT (normalized_amount df1 DEBIT)) in *.
    assert (G2 : getitem df2 CREDIT = Single (col_select (date_mask df) c)).
    { unfold df2. rewrite setitem_getitem_other by discriminate. exact G1. }
    unfold normalized_amount at 1. rewrite G2.
    replace (nrows df2) with (nrows df1) by (unfold df2; now rewrite setitem_nrows).
    apply setitem_In.
Qed.


Lemma normal_form_labels_eq (df : DataFrame) :
  labels (normal_form df)
  = map strip (labels df
               ++ (if has_column df DEBIT then [] else [DEBIT])
               ++ (if has_column df CREDIT then [] else [CREDIT]))%list.
Proof.
  unfold normal_form. rewrite strip_columns_labels. f_equal.
  rewrite !setitem_labels.
  rewrite setitem_has_other by discriminate.
  rewrite !dated_has_column, drop_rows_labels, with_dates_labels.
  now rewrite app_assoc.
Qed.

(** Before the labels are trimmed, they are those of the input and the two
    amount labels. *)
Lemma amounts_labels (df : DataFrame) (l : string) :
  let df1 := drop_rows (date_mask df) (with_dates df) in
  let df2 := setitem df1 DEBIT (normalized_amount df1 DEBIT) in
  In l (labels (setitem df2 CREDIT (normalized_amount df2 CREDIT))) ->
  In l (labels df) \/ l = DEBIT \/ l = CREDIT.
Proof.
  cbv zeta. intros H.
  apply setitem_labels_incl in H. destruct H as [H|H]; auto.
  apply setitem_labels_incl in H. destruct H as [H|H]; auto.
  rewrite drop_rows_labels, with_dates_labels in H. auto.
Qed.

Lemma amounts_exact (df : DataFrame) (col : string) :
  strip col = col -> exact_label df col ->
  let df1 := drop_rows (date_mask df) (with_dates df) in
  let df2 := setitem df1 DEBIT (normalized_amount df1 DEBIT) in
  exact_label (setitem df2 CREDIT (normalized_amount df2 CREDIT)) col.
Proof.
  cbv zeta. intros Hc He l Hl Hs.
  destruct (@amounts_labels df l Hl) as [H|[H|H]].
  - now apply He.
  - subst l. now rewrite (proj1 (proj2 labels_trimmed)) in Hs.
  - subst l. now rewrite (proj2 (proj2 labels_trimmed)) in Hs.
Qed.

(** With exact labels the normalised ledger is again a ledger of the
    loader. *)
Lemma normal_form_raw (df : DataFrame) :
  raw_ledger df -> configured_exact df -> raw_ledger (normal_form df).
Proof.
  intros Hraw [E1 [E2 E3]].
  split; [now apply normal_form_aligned|].
  pose proof (@amount_step_raw _ CREDIT
                (@amount_step_raw _ DEBIT (dated_raw Hraw) (or_introl eq_refl))
                (or_intror eq_refl)) as [_ [H1 [H2 H3]]].
  destruct labels_trimmed as [T1 [T2 T3]].
  unfold normal_form. repeat split.
  - rewrite hits_strip_columns; auto. now apply amounts_exact.
  - rewrite hits_strip_columns; auto. now apply amounts_exact.
  - rewrite hits_strip_columns; auto. now apply amounts_exact.
Qed.

(** With an exact label, one column at most is under it after the pass. *)
Lemma normal_form_hits (df : DataFrame) (col : string) :
  raw_ledger df -> col = DATE \/ col = DEBIT \/ col = CREDIT ->
  exact_label df col -> hits (normal_form df) col <= 1.
Proof.
  intros Hraw Hcol He.
  pose proof (@amount_step_raw _ CREDIT
                (@amount_step_raw _ DEBIT (dated_raw Hraw) (or_introl eq_refl))
                (or_intror eq_refl)) as H3.
  assert (T : strip col = col).
  { destruct labels_trimmed as [T1 [T2 T3]].
    destruct Hcol as [-> | [-> | ->]]; assumption. }
  unfold normal_form. rewrite hits_strip_columns; auto.
  - now apply raw_ledger_hits.
  - now apply amounts_exact.
Qed.

(** With an exact date label, a date column of the normalised ledger holds
    timestamps, none missing. *)
Lemma normal_form_dates (df : DataFrame) (c : column) :
  raw_ledger df -> exact_label df DATE ->
  In (DATE, c) (columns (normal_form df)) ->
  exists ts, c = DateCol (map Some ts).
Proof.
  intros Hraw He Hc.
  pose proof (@normal_form_hits df DATE Hraw (or_introl eq_refl) He) as Hh.
  assert (Hl : In DATE (labels df)).
  { assert (H : In DATE (labels (normal_form df))).
    { unfold labels. change DATE with (fst (DATE, c)). now apply in_map. }
    unfold normal_form in H. rewrite strip_columns_labels in H.
    apply in_map_iff in H. destruct H as [l [Hs Hl]].
    destruct (@amounts_labels df l Hl) as [H|[H|H]].
    - rewrite <- (He l H Hs). exact H.
    - subst l. discriminate Hs.
    - subst l. discriminate Hs. }
  destruct (In_label df DATE Hl) as [c0 Hc0].
  destruct (In_nth_error _ _ Hc0) as [i Hi].
  destruct (@normal_form_nth_date df i c0 (proj1 (proj2 Hraw)) Hi) as [_ Hn].
  apply nth_error_In in Hn.
  pose proof (@getitem_unique _ DATE _ Hh Hn) as G1.
  pose proof (@getitem_unique _ DATE _ Hh Hc) as G2.
  rewrite G1 in G2. injection G2 as <-. eauto.
Qed.

Lemma normal_form_normalized (df : DataFrame) :
  raw_ledger df -> configured_exact df -> normalized (normal_form df).
Proof.
  intros Hraw He.
  split; [now apply normal_form_raw|].
  split; [apply strip_columns_is_trimmed|]. split.
  - intros c Hc. eapply normal_form_dates; eauto. apply He.
  - split.
    + destruct (@normal_form_amount df DEBIT Hraw (or_introl eq_refl)) as [xs [H _]].
      eauto.
    + destruct (@normal_form_amount df CREDIT Hraw (or_intror eq_refl)) as [xs [H _]].
      eauto.
Qed.

(** ** A second pass over a normalised ledger *)

Lemma amount_cells_numbers (xs : list float) :
  Forall reads_back xs -> amount_cells (NumCol (map Some xs)) = xs.
Proof.
  unfold amount_cells. simpl. rewrite !map_map.
  induction 1 as [|x xs Hx _ IH]; simpl; auto.
  rewrite IH. f_equal. unfold parse_or_zero. now rewrite Hx.
Qed.

Lemma all_missing_numbers (xs : list float) :
  forallb (fun b => b) (isna (NumCol (map Some xs))) = true -> xs = [].
Proof. destruct xs; simpl; auto; discriminate. Qed.

(** An amount column of numbers that are read back is assigned to
    itself. *)
Lemma normalized_amount_fixed (df : DataFrame) (col : string) (xs : list float) :
  aligned df -> hits df col <= 1 ->
  In (col, NumCol (map Some xs)) (columns df) ->
  Forall reads_back xs ->
  normalized_amount df col = NumCol (map Some xs).
Proof.
  intros Ha Hh Hin Hr. unfold normalized_amount, amount_column.
  rewrite (@getitem_unique df col _ Hh Hin).
  destruct (forallb (fun b => b) (isna (NumCol (map Some xs)))) eqn:E.
  - apply all_missing_numbers in E. subst xs.
    pose proof (@aligned_In df col _ Ha Hin) as Hl. simpl in Hl.
    now rewrite <- Hl.
  - now rewrite amount_cells_numbers.
Qed.

Lemma dates_fixed (df : DataFrame) :
  raw_ledger df ->
  (forall c, In (DATE, c) (columns df) -> exists ts, c = DateCol (map Some ts)) ->
  drop_rows (date_mask df) (with_dates df) = df.
Proof.
  intros [Ha [Hh _]] Hd.
  destruct (has_column df DATE) eqn:H.
  - apply has_column_In in H. destruct (In_label df DATE H) as [c Hc].
    destruct (Hd c Hc) as [ts ->].
    pose proof (@getitem_unique df DATE _ Hh Hc) as G.
    unfold date_mask, with_dates. rewrite G. simpl to_datetime.
    rewrite (@setitem_same df DATE _ Hh Hc).
    rewrite (@no_none_mask _ _ (@existsb_none_map_Some _ ts)).
    rewrite (@map_const _ _ _ true (map Some ts) (index df)).
    + now apply drop_rows_all.
    + pose proof (@aligned_In df DATE _ Ha Hc) as Hl. simpl in Hl. exact Hl.
  - rewrite (date_mask_absent df H). unfold with_dates.
    rewrite (getitem_absent df DATE H). now apply drop_rows_all.
Qed.

Lemma read_back_column (df : DataFrame) (col : string) (xs : list float) :
  amounts_read_back df -> col = DEBIT \/ col = CREDIT ->
  In (col, NumCol (map Some xs)) (columns df) -> Forall reads_back xs.
Proof.
  intros Hr Hcol Hin. apply Forall_forall. intros x Hx.
  apply (Hr col (map Some xs) x Hcol Hin). now apply in_map.
Qed.

(** The pass changes nothing in a normalised ledger whose amounts are read
    back from their texts. *)
Lemma normalized_fixed (df : DataFrame) :
  normalized df -> amounts_read_back df -> normal_form df = df.
Proof.
  intros [Hraw [Ht [Hd [[xs Hx] [ys Hy]]]]] Hr.
  destruct Hraw as [Ha [H1 [H2 H3]]].
  unfold normal_form.
  rewrite (@dates_fixed df (conj Ha (conj H1 (conj H2 H3))) Hd).
  rewrite (@normalized_amount_fixed df DEBIT xs Ha H2 Hx
             (@read_back_column df DEBIT xs Hr (or_introl eq_refl) Hx)).
  rewrite (@setitem_same df DEBIT _ H2 Hx).
  rewrite (@normalized_amount_fixed df CREDIT ys Ha H3 Hy
             (@read_back_column df CREDIT ys Hr (or_intror eq_refl) Hy)).
  rewrite (@setitem_same df CREDIT _ H3 Hy).
  now apply strip_columns_trimmed.
Qed.

(** ** Repeated labels *)

Lemma several_drop_rows (keep : list bool) (df : DataFrame) (l : string) :
  several (getitem df l) -> several (getitem (drop_rows keep df) l).
Proof. rewrite !hits_several. now rewrite hits_drop_rows. Qed.

Lemma several_has_column (df : DataFrame) (l : string) :
  several (getitem df l) -> has_column df l = true.
Proof.
  intros H. destruct (has_column df l) eqn:E; auto.
  rewrite (getitem_absent df l E) in H. destruct H as [cs H]. discriminate H.
Qed.

Lemma process_amount_several (col : string) (df : DataFrame) :
  several (getitem df col) -> process_amount col df = Raise ambiguous_error.
Proof.
  intros H. unfold process_amount.
  rewrite (several_has_column df col H). destruct H as [cs ->]. reflexivity.
Qed.

Lemma process_amount_result (col : string) (df : DataFrame) :
  (exists c, process_amount col df = Ok (setitem df col c))
  \/ process_amount col df = Raise ambiguous_error.
Proof.
  unfold process_amount. destruct (has_column df col); cbn [negb]; eauto.
  destruct (getitem df col); eauto.
  destruct (forallb (fun b => b) (isna c)); eauto.
  rewrite convert_amount_spec. eauto.
Qed.

Lemma preprocess_date_result (df : DataFrame) :
  (exists df1, preprocess_date df = Ok df1
               /\ forall l, l <> DATE -> several (getitem df l) ->
                            several (getitem df1 l))
  \/ preprocess_date df = Raise assemble_error.
Proof.
  unfold preprocess_date. destruct (has_column df DATE); [|left; eauto].
  destruct (getitem df DATE) as [|c|cs]; auto.
  left. destruct (existsb is_none (to_datetime c)); eexists; split; eauto.
  - intros l Hl Hs. apply several_drop_rows.
    now rewrite setitem_getitem_other.
  - intros l Hl Hs. now rewrite setitem_getitem_other.
Qed.

(** A repeated amount label makes the body of the pass raise. *)
Lemma preprocess_body_several (df : DataFrame) (col : string) :
  col = DEBIT \/ col = CREDIT -> several (getitem df col) ->
  exists m, preprocess_body df = Raise (ValueError m).
Proof.
  intros Hcol Hs. unfold preprocess_body.
  destruct (preprocess_date_result df) as [[d1 [E K]]|E]; rewrite E; cbn [bind].
  - assert (Hs1 : several (getitem d1 col)).
    { apply K; auto. destruct Hcol as [-> | ->]; discriminate. }
    cbn [fold_left bind].
    destruct Hcol as [-> | ->].
    + rewrite (process_amount_several DEBIT d1 Hs1). cbn [bind]. now eexists.
    + destruct (process_amount_result DEBIT d1) as [[c' E2]|E2]; rewrite E2;
        cbn [bind].
      * rewrite process_amount_several; [now eexists|].
        rewrite setitem_getitem_other by discriminate. exact Hs1.
      * now eexists.
  - now eexists.
Qed.

End PassLemmas.

(** ** Whitespace around an amount label *)

Section PaddedLemmas.

Context {pd : Pandas}.


(** With whitespace around an amount label and no column under the label
    itself, the normalised ledger has two columns under it. *)
Lemma normal_form_padded (df : DataFrame) (col l : string) (c : column) :
  raw_ledger df -> col = DEBIT \/ col = CREDIT ->
  In (l, c) (columns df) -> l <> col -> strip l = col ->
  has_column df col = false ->
  exists i j,
    i < j
    /\ nth_error (columns (normal_form df)) i
       = Some (col, col_select (date_mask df) c)
    /\ nth_error (columns (normal_form df)) j
       = Some (col, zeros (nrows (normal_form df)))
    /\ forall k v, j < k ->
         nth_error (columns (normal_form df)) k = Some (col, v) -> False.
Proof.
  intros Hraw Hcol Hin Hne Hs Habs.
  assert (Hl : l <> DATE /\ l <> DEBIT /\ l <> CREDIT).
  { repeat split; intros ->; destruct Hcol as [-> | ->];
      first [discriminate Hs | now apply Hne]. }
  destruct Hl as [L1 [L2 L3]].
  destruct (In_nth_error _ _ Hin) as [i Hi].
  pose proof (@normal_form_nth_other _ df i l c Hi L1 L2 L3) as Hold.
  rewrite Hs in Hold.
  assert (Hlt : i < List.length (columns df)).
  { apply nth_error_Some. congruence. }
  pose proof (dated_raw Hraw) as H1.
  exists i.
  rewrite dated_nrows. unfold normal_form in *.
  set (df1 := drop_rows (date_mask df) (with_dates df)) in *.
  assert (L : List.length (columns df1) = List.length (columns df)).
  { unfold df1. apply dated_columns_length. }
  destruct Hcol as [-> | ->].
  - assert (A : has_column df1 DEBIT = false).
    { unfold df1. now rewrite dated_has_column. }
    assert (Z : normalized_amount df1 DEBIT = zeros (nrows df1)).
    { unfold normalized_amount. now rewrite (getitem_absent df1 DEBIT A). }
    rewrite Z in *.
    set (df2 := setitem df1 DEBIT (zeros (nrows df1))) in *.
    assert (C2 : columns df2 = (columns df1 ++ [(DEBIT, zeros (nrows df1))])%list).
    { unfold df2, setitem. now rewrite A. }
    exists (List.length (columns df1)). split; [lia|]. split; [exact Hold|].
    split.
    + apply (strip_columns_nth _ _ (k := DEBIT)).
      apply setitem_nth_other; [|discriminate].
      now apply setitem_nth_new.
    + intros k v Hk Hnth. unfold strip_columns in Hnth. cbn [columns] in Hnth.
      rewrite nth_error_map in Hnth.
      destruct (nth_error (columns (setitem df2 CREDIT (normalized_amount df2 CREDIT))) k)
        as [[a w]|] eqn:E; [|discriminate Hnth].
      simpl in Hnth. injection Hnth as Ha Hw.
      unfold setitem in E. destruct (has_column df2 CREDIT) eqn:HC; cbn [columns] in E.
      * rewrite nth_error_map, C2 in E.
        rewrite nth_error_app2 in E by lia.
        destruct (k - List.length (columns df1)) as [|[|m]] eqn:D; try lia;
          simpl in E; discriminate E.
      * rewrite C2 in E. rewrite <- app_assoc in E.
        rewrite nth_error_app2 in E by lia.
        destruct (k - List.length (columns df1)) as [|[|[|m]]] eqn:D; try lia;
          simpl in E; try discriminate E.
        injection E as <- _. discriminate Ha.
  - set (df2 := setitem df1 DEBIT (normalized_amount df1 DEBIT)) in *.
    assert (A : has_column df2 CREDIT = false).
    { unfold df2. rewrite setitem_has_other by discriminate.
      unfold df1. now rewrite dated_has_column. }
    assert (Z : normalized_amount df2 CREDIT = zeros (nrows df1)).
    { unfold normalized_amount. rewrite (getitem_absent df2 CREDIT A).
      unfold df2. now rewrite setitem_nrows. }
    rewrite Z in *.
    pose proof (setitem_columns_length df1 DEBIT (normalized_amount df1 DEBIT)) as Hle.
    fold df2 in Hle.
    exists (List.length (columns df2)). split; [lia|]. split; [exact Hold|].
    split.
    + apply (strip_columns_nth _ _ (k := CREDIT)). now apply setitem_nth_new.
    + intros k v Hk Hnth. unfold strip_columns in Hnth. cbn [columns] in Hnth.
      rewrite nth_error_map in Hnth. unfold setitem in Hnth. rewrite A in Hnth.
      cbn [columns] in Hnth. rewrite nth_error_app2 in Hnth by lia.
      destruct (k - List.length (columns df2)) as [|[|m]] eqn:D; try lia;
        simpl in Hnth; discriminate Hnth.
Qed.

Lemma normal_form_padded_several (df : DataFrame) (col l : string) (c : column) :
  raw_ledger df -> col = DEBIT \/ col = CREDIT ->
  In (l, c) (columns df) -> l <> col -> strip l = col ->
  has_column df col = false ->
  several (getitem (normal_form df) col).
Proof.
  intros Hraw Hcol Hin Hne Hs Habs.
  destruct (@normal_form_padded df col l c Hraw Hcol Hin Hne Hs Habs)
    as [i [j [Hij [Hi [Hj _]]]]].
  destruct (@getitem_twice (normal_form df) col i j _ _ Hij Hi Hj) as [cs [G _]].
  now exists cs.
Qed.


End PaddedLemmas.

(** ** Order of timestamps *)

Lemma earliest_spec (ts : list timestamp) (t : timestamp) :
  In (fold_left Z.min ts t) (t :: ts)
  /\ forall x, In x (t :: ts) -> (fold_left Z.min ts t <= x)%Z.
Proof.
  revert t. induction ts as [|a ts IH]; intros t; simpl.
  - split; auto. intros x [<-|[]]. lia.
  - destruct (IH (Z.min t a)) as [Hin Hle]. split.
    + destruct Hin as [Hin|Hin]; auto.
      rewrite <- Hin. destruct (Z.min_spec t a) as [[_ ->]|[_ ->]]; auto.
    + pose proof (Hle (Z.min t a) (or_introl eq_refl)) as Hm.
      intros x [<-|[<-|Hx]]; [lia|lia|]. apply Hle. now right.
Qed.

Lemma latest_spec (ts : list timestamp) (t : timestamp) :
  In (fold_left Z.max ts t) (t :: ts)
  /\ forall x, In x (t :: ts) -> (x <= fold_left Z.max ts t)%Z.
Proof.
  revert t. induction ts as [|a ts IH]; intros t; simpl.
  - split; auto. intros x [<-|[]]. lia.
  - destruct (IH (Z.max t a)) as [Hin Hle]. split.
    + destruct Hin as [Hin|Hin]; auto.
      rewrite <- Hin. destruct (Z.max_spec t a) as [[_ ->]|[_ ->]]; auto.
    + pose proof (Hle (Z.max t a) (or_introl eq_refl)) as Hm.
      intros x [<-|[<-|Hx]]; [lia|lia|]. apply Hle. now right.
Qed.


(** ** Dictionaries *)

Lemma dict_set_fresh (V : Type) (d : dict V) (k : string) (v : V) :
  ~ In k (map fst d) -> dict_set d k v = (d ++ [(k, v)])%list.
Proof.
  induction d as [|[k' v'] d IH]; simpl; intros H; auto.
  destruct (String.eqb_spec k' k) as [->|Hne].
  - exfalso. apply H. now left.
  - rewrite IH; auto.
Qed.

Lemma to_dict_from (V : Type) (items acc : list (string * V)) :
  NoDup (map fst (acc ++ items)) ->
  fold_left (fun d kv => dict_set d (fst kv) (snd kv)) items acc
  = (acc ++ items)%list.
Proof.
  revert acc. induction items as [|[k v] items IH]; intros acc H; simpl.
  - now rewrite app_nil_r.
  - rewrite dict_set_fresh.
    + rewrite IH; rewrite <- app_assoc; simpl; auto.
    + rewrite map_app in H. simpl in H. apply NoDup_remove_2 in H.
      intros Hin. apply H. apply in_or_app. now left.
Qed.

(** With distinct labels [to_dict] keeps the items as they are. *)
Lemma to_dict_distinct (V : Type) (items : list (string * V)) :
  NoDup (map fst items) -> to_dict items = items.
Proof. intros H. unfold to_dict. now rewrite to_dict_from. Qed.

Lemma dict_get_In (V : Type) (d : dict V) (k : string) (v : V) :
  NoDup (map fst d) -> In (k, v) d -> dict_get d k = Some v.
Proof.
  induction d as [|[k' v'] d IH]; simpl; intros Hnd Hin; [contradiction|].
  inversion Hnd as [|? ? Hk Hnd']; subst.
  destruct Hin as [Heq|Hin].
  - injection Heq as -> ->. now rewrite String.eqb_refl.
  - destruct (String.eqb_spec k' k) as [->|Hne]; auto.
    exfalso. apply Hk. change k with (fst (k, v)). now apply in_map.
Qed.

Lemma null_count_numbers (xs : list float) :
  null_count (NumCol (map Some xs)) = 0.
Proof. unfold null_count. simpl. induction xs; simpl; auto. Qed.


(** ** Dictionaries with repeated keys *)

Lemma dict_get_set_same (V : Type) (d : dict V) (k : string) (v : V) :
  dict_get (dict_set d k v) k = Some v.
Proof.
  induction d as [|[k' v'] d IH]; simpl.
  - now rewrite String.eqb_refl.
  - destruct (String.eqb_spec k' k) as [->|Hne]; simpl.
    + now rewrite String.eqb_refl.
    + destruct (String.eqb_spec k' k); [congruence|]. exact IH.
Qed.

Lemma dict_get_set_other (V : Type) (d : dict V) (k k' : string) (v : V) :
  k' <> k -> dict_get (dict_set d k' v) k = dict_get d k.
Proof.
  intros Hne. induction d as [|[a w] d IH]; simpl.
  - destruct (String.eqb_spec k' k); [congruence|]. reflexivity.
  - destruct (String.eqb_spec a k') as [->|Ha]; simpl.
    + destruct (String.eqb_spec k' k); [congruence|]. reflexivity.
    + destruct (a =? k); auto.
Qed.

Lemma dict_get_fold_other (V : Type) (items : list (string * V))
    (acc : dict V) (k : string) :
  ~ In k (map fst items) ->
  dict_get (fold_left (fun d kv => dict_set d (fst kv) (snd kv)) items acc) k
  = dict_get acc k.
Proof.
  revert acc. induction items as [|[a w] items IH]; intros acc H; simpl; auto.
  rewrite IH.
  - apply dict_get_set_other. intros ->. apply H. now left.
  - intros Hin. apply H. now right.
Qed.

(** [to_dict] gives a key the value of its last item. *)
Lemma to_dict_last (V : Type) (items : list (string * V)) (j : nat)
    (k : string) (v : V) :
  nth_error items j = Some (k, v) ->
  (forall i w, j < i -> nth_error items i = Some (k, w) -> False) ->
  dict_get (to_dict items) k = Some v.
Proof.
  intros Hj Hlast. unfold to_dict.
  destruct (nth_error_split _ _ Hj) as [pre [post [E Hlen]]].
  rewrite E, fold_left_app. simpl.
  rewrite dict_get_fold_other; [apply dict_get_set_same|].
  intros Hin. apply in_map_iff in Hin. destruct Hin as [[a w] [Ha Hw]].
  simpl in Ha. subst a. destruct (In_nth_error _ _ Hw) as [m Hm].
  apply (Hlast (j + 1 + m) w); [lia|].
  rewrite E. rewrite nth_error_app2 by lia.
  replace (j + 1 + m - List.length pre) with (S m) by lia. exact Hm.
Qed.


Lemma null_count_repeat (n : nat) :
  null_count (NumCol (repeat (Some fzero) n)) = 0.
Proof. unfold null_count. simpl. induction n; simpl; auto. Qed.


(** ** The analyzer *)

Lemma reduce_absent (series_agg : agg -> column -> result value)
    (frame_agg : agg -> list column -> result value)
    (a : agg) (df : DataFrame) (l : string) :
  has_column df l = false ->
  reduce series_agg frame_agg a df l = Raise (KeyError l).
Proof. intros H. unfold reduce. now rewrite (getitem_absent df l H). Qed.

(** ** Writers *)

Lemma sound_write (s : string) : sound (write s) /\ text_of (write s) = s.
Proof. split; [intros f|]; reflexivity. Qed.

Lemma sound_then (w1 w2 : writer) :
  sound w1 -> sound w2 ->
  sound (w1 >> w2) /\ text_of (w1 >> w2) = text_of w1 ++ text_of w2.
Proof.
  intros H1 H2.
  assert (E : forall f, (w1 >> w2) f = (f ++ text_of w1 ++ text_of w2, Ok tt)).
  { intros f. unfold then_. now rewrite H1, H2, append_assoc_s. }
  assert (T : text_of (w1 >> w2) = text_of w1 ++ text_of w2).
  { unfold text_of at 1. now rewrite E. }
  split; auto. intros f. now rewrite E, T.
Qed.

Lemma sound_plots (plots : dict string) (w : writer) :
  sound w ->
  sound (fold_left (fun w item => w >> write_plot item) plots w).
Proof.
  revert w. induction plots as [|item plots IH]; intros w Hw; simpl; auto.
  apply IH. apply sound_then; auto.
  unfold write_plot. apply sound_then; apply sound_write.
Qed.

Lemma sound_visualizations (plots : dict string) :
  sound (_write_visualizations plots)
  /\ exists body,
       text_of (_write_visualizations plots)
       = ("## Visualizations" ++ LF ++ LF) ++ body
       /\ forall w, dict_get plots "warning" = Some w -> body = warning_line w.
Proof.
  unfold _write_visualizations.
  destruct (dict_get plots "warning") as [w|].
  - destruct (sound_then (proj1 (sound_write ("## Visualizations" ++ LF ++ LF)))
                (proj1 (sound_write (warning_line w)))) as [S T].
    split; auto. exists (warning_line w). split; auto.
    intros w' E. now injection E as <-.
  - pose proof (@sound_plots plots (write "") (proj1 (sound_write ""))) as P.
    destruct (sound_then (proj1 (sound_write ("## Visualizations" ++ LF ++ LF))) P)
      as [S T].
    split; auto. eexists. split; [exact T|]. intros w' E. discriminate E.
Qed.

Lemma sound_llm_insights (insights : string) :
  sound (_write_llm_insights insights)
  /\ text_of (_write_llm_insights insights)
     = ("## LLM Insights" ++ LF ++ LF) ++ (insights ++ LF ++ LF).
Proof.
  unfold _write_llm_insights. apply sound_then; apply sound_write.
Qed.

Lemma sound_judge_evaluation (evaluation : string) :
  sound (_write_judge_evaluation (Some evaluation))
  /\ text_of (_write_judge_evaluation (Some evaluation))
     = ("## Expert Review" ++ LF ++ LF) ++ (evaluation ++ LF ++ LF).
Proof.
  unfold _write_judge_evaluation. apply sound_then; apply sound_write.
Qed.

Lemma sound_header (now : string) :
  sound (_write_report_header now)
  /\ text_of (_write_report_header now)
     = ("# Bank Transaction Analysis Report" ++ LF ++ LF)
         ++ ("Generated on: " ++ now ++ LF ++ LF).
Proof.
  unfold _write_report_header. apply sound_then; apply sound_write.
Qed.

Lemma sound_structure_analysis (str_value : value -> string)
    (format_amount : value -> result string)
    (missing_to_string : dict nat -> string) (stats_to_string : stats -> string)
    (analysis : Analysis) :
  (warning analysis = None ->
   exists amount, format_amount (total_debit analysis) = Ok amount) ->
  sound (_write_structure_analysis str_value format_amount missing_to_string
           stats_to_string analysis)
  /\ exists body,
       text_of (_write_structure_analysis str_value format_amount
                  missing_to_string stats_to_string analysis)
       = ("## Data Structure Analysis" ++ LF ++ LF) ++ body
       /\ forall w, warning analysis = Some w -> body = warning_line w.
Proof.
  intros Hf. unfold _write_structure_analysis.
  destruct (warning analysis) as [w|].
  - destruct (sound_then (proj1 (sound_write ("## Data Structure Analysis" ++ LF ++ LF)))
                (proj1 (sound_write (warning_line w)))) as [S T].
    split; auto. exists (warning_line w). split; auto.
    intros w' E. now injection E as <-.
  - destruct (Hf eq_refl) as [amount ->].
    match goal with
    | |- sound (?h >> ?rest) /\ _ =>
        assert (R : sound rest)
          by (repeat (apply sound_then; [apply sound_write|]); apply sound_write);
        destruct (sound_then (proj1 (sound_write ("## Data Structure Analysis" ++ LF ++ LF))) R)
          as [S T]
    end.
    split; auto. eexists. split; [exact T|]. intros w' E. discriminate E.
Qed.

(** ** Writers that may raise *)

Lemma appending_sound (w : writer) : sound w -> appending w.
Proof.
  intros H f. rewrite (H f). f_equal. rewrite (H EmptyString). reflexivity.
Qed.

Lemma appending_write (s : string) : appending (write s).
Proof. apply appending_sound. apply sound_write. Qed.

Lemma appending_fail (e : exn) : appending (fail e).
Proof. intros f. unfold fail, text_of. simpl. now rewrite append_empty_r. Qed.

Lemma appending_then (w1 w2 : writer) :
  appending w1 -> appending w2 -> appending (w1 >> w2).
Proof.
  intros H1 H2 f. unfold text_of, then_. rewrite (H1 f).
  unfold text_of. destruct (w1 EmptyString) as [t1 r1]. cbn [fst snd].
  destruct r1 as [u|e]; [|reflexivity].
  rewrite (H2 (f ++ t1)), (H2 t1). cbn [fst snd]. now rewrite append_assoc_s.
Qed.

Lemma appending_lift (A : Type) (r : result A) (k : A -> writer) :
  (forall a, appending (k a)) -> appending (lift r k).
Proof. intros H. destruct r; simpl; [apply H|apply appending_fail]. Qed.

Lemma appending_structure_analysis (str_value : value -> string)
    (format_amount : value -> result string)
    (missing_to_string : dict nat -> string) (stats_to_string : stats -> string)
    (analysis : Analysis) :
  appending (_write_structure_analysis str_value format_amount missing_to_string
               stats_to_string analysis).
Proof.
  unfold _write_structure_analysis.
  apply appending_then; [apply appending_write|].
  destruct (warning analysis); [apply appending_write|].
  apply appending_then; [apply appending_write|].
  apply appending_then; [apply appending_write|].
  destruct (format_amount (total_debit analysis)); [|apply appending_fail].
  repeat (apply appending_then; [apply appending_write|]).
  apply appending_write.
Qed.

Lemma appending_visualizations (plots : dict string) :
  appending (_write_visualizations plots).
Proof. apply appending_sound. apply sound_visualizations. Qed.

Lemma appending_judge_evaluation (evaluation : option string) :
  appending (_write_judge_evaluation evaluation).
Proof.
  unfold _write_judge_evaluation.
  apply appending_then; [apply appending_write|].
  destruct evaluation; [apply appending_write|apply appending_fail].
Qed.

(** The text of the visualizations section when there is no marker. *)
Lemma plots_text (plots : dict string) (w : writer) :
  sound w ->
  text_of (fold_left (fun w item => w >> write_plot item) plots w)
  = text_of w ++ plot_blocks plots.
Proof.
  revert w. induction plots as [|item plots IH]; intros w Hw; simpl.
  - now rewrite append_empty_r.
  - assert (Hb : sound (write_plot item) /\ text_of (write_plot item) = plot_block item).
    { unfold write_plot, plot_block. apply sound_then; apply sound_write. }
    destruct Hb as [Sb Tb].
    destruct (sound_then Hw Sb) as [S T].
    rewrite (IH _ S), T, Tb. apply append_assoc_s.
Qed.

Lemma sound_then_run (w1 w2 : writer) (f : string) :
  sound w1 -> (w1 >> w2) f = w2 (f ++ text_of w1).
Proof. intros H. unfold then_. now rewrite (H f). Qed.

(** The body of the report up to the review, when the first three stages
    return. *)
Lemma report_body_run (describe : DataFrame -> stats)
    (series_agg : agg -> column -> result value)
    (frame_agg : agg -> list column -> result value)
    (str_value : value -> string) (format_amount : value -> result string)
    (missing_to_string : dict nat -> string) (stats_to_string : stats -> string)
    (now : string) (draw_plots : DataFrame -> result (dict string))
    (df : DataFrame) (llm : attempt_outcome) (judge : nat -> attempt_outcome)
    (analysis : Analysis) (plots : dict string) :
  analyze_structure describe series_agg frame_agg df = Ok analysis ->
  (warning analysis = None ->
   exists amount, format_amount (total_debit analysis) = Ok amount) ->
  visualize_transactions draw_plots df = Ok plots ->
  report_body describe series_agg frame_agg str_value format_amount
    missing_to_string stats_to_string now draw_plots df llm judge EmptyString
  = lift (snd (get_judge_evaluation judge)) _write_judge_evaluation
      (header_text now
         ++ text_of (_write_structure_analysis str_value format_amount
                       missing_to_string stats_to_string analysis)
         ++ text_of (_write_visualizations plots)
         ++ ("## LLM Insights" ++ LF ++ LF)
         ++ (get_llm_insights series_agg frame_agg format_amount df llm ++ LF ++ LF)).
Proof.
  intros Ha Hf Hp. unfold report_body. rewrite Ha, Hp. cbn [lift].
  destruct (sound_header now) as [S0 T0].
  destruct (@sound_structure_analysis str_value format_amount missing_to_string
              stats_to_string analysis Hf) as [S1 _].
  destruct (sound_visualizations plots) as [S2 _].
  destruct (sound_llm_insights
              (get_llm_insights series_agg frame_agg format_amount df llm))
    as [S3 T3].
  cbv zeta.
  rewrite sound_then_run by exact S0. rewrite sound_then_run by exact S1.
  rewrite sound_then_run by exact S2. rewrite sound_then_run by exact S3.
  f_equal. rewrite T0, T3. unfold header_text.
  rewrite !append_assoc_s. reflexivity.
Qed.

(** ** Charts *)

Lemma create_plot_ok (plots_dir : string) (prepare : string -> result unit)
    (draw : string -> string -> result unit) (save : string -> result unit)
    (plot_type filename path : string) :
  _create_and_save_plot plots_dir prepare draw save plot_type filename = Ok path ->
  path = path_join plots_dir filename.
Proof.
  unfold _create_and_save_plot.
  destruct (prepare filename); cbn [bind]; [|discriminate].
  destruct (if supported_plot plot_type then draw plot_type filename
            else Raise (ValueError ("Unsupported plot type: " ++ plot_type)));
    cbn [bind]; [|discriminate].
  destruct (save filename); cbn [bind]; [|discriminate].
  now intros [= <-].
Qed.



(** * Properties of the specification *)

Section PassProperties.

Context {pd : Pandas}.

(** ** Dates *)

(** C5. On a ledger from the loader the pass returns, the row count does
    not grow and every column keeps one cell per row.  With a date column
    of texts, each text is read with the one format [%d/%m/%Y]; the rows
    kept are exactly those whose text was read as a timestamp, and the
    column keeps its place and holds those timestamps, none missing.  With
    a date column of numbers no row is kept; with one of timestamps, the
    rows whose timestamp is missing go.  Without a date column every row
    is kept. *)
Theorem unparsable_dates_dropped (df : DataFrame) :
  raw_ledger df ->
  exists df',
    _preprocess_data df = Ok df'
    /\ nrows df' <= nrows df
    /\ aligned df'
    /\ (forall i cells,
          nth_error (columns df) i = Some (DATE, ObjCol cells) ->
          let read := map (fun cell => match cell with
                                       | Some text => strptime "%d/%m/%Y" text
                                       | None => None
                                       end) cells in
          index df' = select (map not_none read) (index df)
          /\ nth_error (columns df') i
             = Some (DATE, DateCol (map Some (somes read))))
    /\ (forall i cells,
          nth_error (columns df) i = Some (DATE, NumCol cells) ->
          index df' = [] /\ nth_error (columns df') i = Some (DATE, DateCol []))
    /\ (forall i cells,
          nth_error (columns df) i = Some (DATE, DateCol cells) ->
          index df' = select (map not_none cells) (index df)
          /\ nth_error (columns df') i
             = Some (DATE, DateCol (map Some (somes cells))))
    /\ (has_column df DATE = false -> index df' = index df).
Proof.
  intros Hraw. exists (normal_form df).
  assert (K : forall i c,
            nth_error (columns df) i = Some (DATE, c) ->
            index (normal_form df) = select (map not_none (to_datetime c)) (index df)
            /\ nth_error (columns (normal_form df)) i
               = Some (DATE, DateCol (map Some (somes (to_datetime c))))).
  { intros i c Hi.
    destruct (@normal_form_nth_date _ df i c (proj1 (proj2 Hraw)) Hi) as [Hm Hn].
    split; auto. now rewrite normal_form_index, Hm. }
  split; [now apply preprocess_normal_form|].
  split; [apply normal_form_nrows|].
  split; [now apply normal_form_aligned|].
  split; [|split; [|split]].
  - intros i cells Hi. exact (K i _ Hi).
  - intros i cells Hi. destruct (K i _ Hi) as [K1 K2].
    assert (E1 : map not_none (to_datetime (NumCol cells))
                 = map (fun _ => false) cells)
      by (simpl; now rewrite map_map).
    assert (E2 : somes (to_datetime (NumCol cells)) = [])
      by (simpl; apply somes_none).
    rewrite E1, select_none in K1. rewrite E2 in K2. now split.
  - intros i cells Hi. exact (K i _ Hi).
  - intros H. rewrite normal_form_index, (date_mask_absent df H).
    now apply select_all.
Qed.

(** ** Amounts *)


(** C1 (as the code has it).  On a ledger from the loader the pass returns,
    and under each amount label the normalised ledger has a numeric column
    with a number in every row: present, never missing, never text.  When
    no other label of the input trims to the amount label, that column is
    the only one under it.  The sign of an amount is whatever was read. *)
Theorem amounts_present_numeric (df : DataFrame) (col : string) :
  raw_ledger df -> col = DEBIT \/ col = CREDIT ->
  exists df' xs,
    _preprocess_data df = Ok df'
    /\ In (col, NumCol (map Some xs)) (columns df')
    /\ List.length xs = nrows df'
    /\ (exact_label df col -> getitem df' col = Single (NumCol (map Some xs))).
Proof.
  intros Hraw Hcol.
  destruct (@normal_form_amount _ df col Hraw Hcol) as [xs [Hin Hlen]].
  exists (normal_form df), xs. split; [now apply preprocess_normal_form|].
  split; [exact Hin|]. split; [exact Hlen|].
  intros He. apply getitem_unique; auto.
  apply normal_form_hits; auto; destruct Hcol; auto.
Qed.

(** ** Whitespace around an amount label *)

(** C10 (as the code has it).  When no column is labelled [col] but one is
    labelled with [col] and whitespace around it, the pass appends a column
    of zeros under [col] and never reads the original, whose cells stay as
    they were in the rows that are kept; the trimming of labels then puts
    both columns under [col], so that selecting [col] yields the two of
    them. *)
Theorem padded_amount_label (df : DataFrame) (col l : string) (c : column) :
  raw_ledger df -> col = DEBIT \/ col = CREDIT ->
  In (l, c) (columns df) -> l <> col -> strip l = col ->
  has_column df col = false ->
  exists df' cs,
    _preprocess_data df = Ok df'
    /\ getitem df' col = Several cs
    /\ In (col_select (date_mask df) c) cs
    /\ In (NumCol (repeat (Some fzero) (nrows df'))) cs.
Proof.
  intros Hraw Hcol Hin Hne Hs Habs.
  destruct (@normal_form_padded _ df col l c Hraw Hcol Hin Hne Hs Habs)
    as [i [j [Hij [Hi [Hj _]]]]].
  destruct (@getitem_twice (normal_form df) col i j _ _ Hij Hi Hj)
    as [cs [G [Ia Ib]]].
  exists (normal_form df), cs. split; [now apply preprocess_normal_form|].
  repeat split; assumption.
Qed.

(** ** Idempotence *)

(** C3 (as the code has it).  Take a ledger from the loader in which no
    label but the date, debit and credit labels themselves trims to one of
    them, and let the numbers of the two amount columns of the normalised
    ledger be read back from the texts written for them.  Then a second
    pass returns the normalised ledger as it is. *)
Theorem second_pass_same (df df' : DataFrame) :
  raw_ledger df -> configured_exact df ->
  _preprocess_data df = Ok df' -> amounts_read_back df' ->
  _preprocess_data df' = Ok df'.
Proof.
  intros Hraw He Hpre Hr.
  rewrite (@preprocess_normal_form _ df Hraw) in Hpre. injection Hpre as <-.
  pose proof (@normal_form_normalized _ df Hraw He) as Hn.
  rewrite (@preprocess_normal_form _ (normal_form df) (proj1 Hn)).
  now rewrite (@normalized_fixed _ (normal_form df) Hn Hr).
Qed.

End PassProperties.

(** ** The summary of a normalised ledger *)

Section SummaryProperties.

Context {pd : Pandas}.
Variable describe : DataFrame -> stats.
Variable series_agg : agg -> column -> result value.
Variable frame_agg : agg -> list column -> result value.

(** C7 (as the code has it).  Take a ledger from the loader in which no
    label but the date, debit and credit labels themselves trims to one of
    them and which has the date column, and let the pass leave at least one
    row.  Then each of the three labels selects one column of the
    normalised ledger, of timestamps or of numbers, none missing, and
    whenever pandas sums the two amount columns, [analyze_structure]
    returns a summary without marker: the count is the number of rows; the
    period starts at a timestamp of the date column that none precedes and
    ends at one that none follows; the totals are the two sums; the map of
    missing values counts the missing cells of each column of the
    normalised ledger, so it gives zero for debit and for credit. *)
Theorem summary_of_normalized (df df' : DataFrame) :
  raw_ledger df -> configured_exact df -> has_column df DATE = true ->
  _preprocess_data df = Ok df' -> df_empty df' = false ->
  exists ts debit credit first last,
    getitem df' DATE = Single (DateCol (map Some ts))
    /\ getitem df' DEBIT = Single (NumCol (map Some debit))
    /\ getitem df' CREDIT = Single (NumCol (map Some credit))
    /\ In first ts /\ (forall t, In t ts -> (first <= t)%Z)
    /\ In last ts /\ (forall t, In t ts -> (t <= last)%Z)
    /\ (forall total_debit total_credit,
          series_agg AggSum (NumCol (map Some debit)) = Ok total_debit ->
          series_agg AggSum (NumCol (map Some credit)) = Ok total_credit ->
          analyze_structure describe series_agg frame_agg df'
          = Ok (mkAnalysis (nrows df') (VDate first) (VDate last)
                  total_debit total_credit
                  (to_dict (map (fun lc => (fst lc, null_count (snd lc)))
                              (columns df')))
                  (describe df') None))
    /\ dict_get (to_dict (map (fun lc => (fst lc, null_count (snd lc)))
                            (columns df'))) DEBIT = Some 0
    /\ dict_get (to_dict (map (fun lc => (fst lc, null_count (snd lc)))
                            (columns df'))) CREDIT = Some 0.
Proof.
  intros Hraw He Hdate Hpre Hne.
  rewrite (@preprocess_normal_form _ df Hraw) in Hpre. injection Hpre as <-.
  pose proof (@normal_form_normalized _ df Hraw He) as [Hr [Ht' [Hd [[xs Hx] [ys Hy]]]]].
  set (nf := normal_form df) in *.
  destruct Hr as [Ha [U1 [U2 U3]]].
  (* the date column *)
  apply has_column_In in Hdate. destruct (In_label df DATE Hdate) as [c0 Hc0].
  destruct (In_nth_error _ _ Hc0) as [i Hi].
  destruct (@normal_form_nth_date _ df i c0 (proj1 (proj2 Hraw)) Hi) as [_ Hn].
  fold nf in Hn. apply nth_error_In in Hn.
  set (ts := somes (to_datetime c0)) in *.
  pose proof (@getitem_unique nf DATE _ U1 Hn) as Gd.
  pose proof (@getitem_unique nf DEBIT _ U2 Hx) as Gx.
  pose proof (@getitem_unique nf CREDIT _ U3 Hy) as Gy.
  (* the ledger has a row, so the date column has a timestamp *)
  assert (Hts : ts <> []).
  { intros E. pose proof (@aligned_In nf DATE _ Ha Hn) as Hl.
    rewrite E in Hl. simpl in Hl. unfold df_empty, nrows in *.
    destruct (index nf); [discriminate|discriminate]. }
  destruct ts as [|t0 ts'] eqn:Ets; [congruence|].
  destruct (earliest_spec ts' t0) as [F1 F2].
  destruct (latest_spec ts' t0) as [L1 L2].
  exists (t0 :: ts'), xs, ys, (fold_left Z.min ts' t0), (fold_left Z.max ts' t0).
  assert (Hzero : forall col zs,
            hits nf col <= 1 -> In (col, NumCol (map Some zs)) (columns nf) ->
            dict_get (to_dict (map (fun lc : string * column =>
                                      (fst lc, null_count (snd lc))) (columns nf)))
                     col = Some 0).
  { intros col zs Hu Hin. destruct (In_nth_error _ _ Hin) as [j Hj].
    apply (@to_dict_last nat
             (map (fun lc : string * column => (fst lc, null_count (snd lc)))
                (columns nf)) j col 0).
    - rewrite nth_error_map, Hj. simpl. now rewrite null_count_numbers.
    - intros k w Hk Hnth. rewrite nth_error_map in Hnth.
      destruct (nth_error (columns nf) k) as [[lab cells]|] eqn:E;
        [|discriminate Hnth].
      simpl in Hnth. injection Hnth as -> _.
      pose proof (@hits_position nf col j k _ _ Hu Hj E). lia. }
  split; [exact Gd|]. split; [exact Gx|]. split; [exact Gy|].
  split; [exact F1|]. split; [exact F2|]. split; [exact L1|]. split; [exact L2|].
  split; [|split].
  - intros td tc Hd' Hc'.
    unfold analyze_structure, reduce. rewrite Hne, Gd, Gx, Gy. cbn [bind].
    unfold date_min, date_max. rewrite !somes_map_Some, Hd', Hc'. reflexivity.
  - exact (Hzero DEBIT xs U2 Hx).
  - exact (Hzero CREDIT ys U3 Hy).
Qed.

End SummaryProperties.


(** ** The pass on the sample ledgers

    The examples of this part take [sample_pandas] for pandas. *)

Ltac raw_by_computation :=
  split; [repeat constructor | vm_compute; repeat split; lia].

Ltac exact_by_computation :=
  let l := fresh "l" in
  let Hl := fresh "Hl" in
  let Hs := fresh "Hs" in
  intros l Hl Hs; simpl in Hl;
  repeat (destruct Hl as [Hl|Hl];
          [subst l; first [reflexivity | vm_compute in Hs; discriminate Hs]|]);
  contradiction.

Ltac read_back_by_computation :=
  let col := fresh "col" in
  let xs := fresh "xs" in
  let x := fresh "x" in
  let Hcol := fresh "Hcol" in
  let Hin := fresh "Hin" in
  let Hx := fresh "Hx" in
  intros col xs x Hcol Hin Hx; simpl in Hin;
  repeat (destruct Hin as [Hin|Hin];
          [first [discriminate Hin
                 | injection Hin as <- <-; simpl in Hx;
                   repeat (destruct Hx as [Hx|Hx];
                           [injection Hx as <-; reflexivity|]);
                   contradiction
                 | destruct Hcol as [-> | ->]; discriminate Hin]|]);
  contradiction.

Lemma ledger_sample_raw : raw_ledger ledger_sample.
Proof. raw_by_computation. Defined.


Lemma ledger_refund_raw : raw_ledger ledger_refund.
Proof. raw_by_computation. Defined.

Lemma ledger_padded_raw : raw_ledger ledger_padded.
Proof. raw_by_computation. Defined.

Lemma ledger_padded_other_raw : raw_ledger ledger_padded_other.
Proof. raw_by_computation. Defined.

Lemma ledger_padded_missing_raw : raw_ledger ledger_padded_missing.
Proof. raw_by_computation. Defined.


Lemma ledger_refund_exact : configured_exact ledger_refund.
Proof. repeat split; exact_by_computation. Defined.

Lemma ledger_padded_other_exact : configured_exact ledger_padded_other.
Proof. repeat split; exact_by_computation. Defined.

Lemma ledger_padded_other_read_back :
  amounts_read_back (pd := sample_pandas) ledger_padded_other_after.
Proof. read_back_by_computation. Defined.

(** The sample ledgers normalised. *)
Example ledger_sample_pass :
  _preprocess_data (pd := sample_pandas) ledger_sample = Ok ledger_sample_after.
Proof. reflexivity. Qed.

Example ledger_refund_pass :
  _preprocess_data (pd := sample_pandas) ledger_refund = Ok ledger_refund_normalised.
Proof. reflexivity. Qed.

Example ledger_padded_pass :
  _preprocess_data (pd := sample_pandas) ledger_padded = Ok ledger_padded_after.
Proof. reflexivity. Qed.

Example ledger_padded_missing_pass :
  _preprocess_data (pd := sample_pandas) ledger_padded_missing
  = Ok ledger_padded_missing_after.
Proof. reflexivity. Qed.

Example ledger_padded_other_pass :
  _preprocess_data (pd := sample_pandas) ledger_padded_other
  = Ok ledger_padded_other_after.
Proof. reflexivity. Qed.

(** What the stand-in reads as a date, and what it does not. *)
Example strptime_examples :
  strptime_calendar "%d/%m/%Y" "25/12/2023" = Some (midnight 2023 12 25)
  /\ strptime_calendar "%d/%m/%Y" "1/2/2024" = Some (midnight 2024 2 1)
  /\ strptime_calendar "%d/%m/%Y" "29/02/2024" = Some (midnight 2024 2 29)
  /\ strptime_calendar "%d/%m/%Y" "29/02/2023" = None
  /\ strptime_calendar "%d/%m/%Y" "12/25/2023" = None
  /\ strptime_calendar "%d/%m/%Y" "2023-12-25" = None
  /\ strptime_calendar "%d/%m/%Y" "25/12/23" = None
  /\ midnight 2023 12 25 = 1703462400000000000%Z.
Proof. repeat split. Qed.

Lemma unparsable_dates_dropped_witness :
  exists df',
    _preprocess_data (pd := sample_pandas) ledger_sample = Ok df'
    /\ nrows df' <= nrows ledger_sample
    /\ index df' = [0]
    /\ nth_error (columns df') 0
       = Some (DATE, DateCol [Some (midnight 2023 12 25)]).
Proof.
  destruct (@unparsable_dates_dropped sample_pandas ledger_sample ledger_sample_raw)
    as [df' [H1 [H2 [_ [H3 _]]]]].
  exists df'. split; [exact H1|]. split; [exact H2|].
  exact (H3 0 _ eq_refl).
Defined.


(** The credit column, which [ledger_amounts] lacks, is made of zeros. *)
Example missing_column_zeros :
  exists df',
    _preprocess_data (pd := sample_pandas) ledger_amounts = Ok df'
    /\ getitem df' CREDIT
       = Single (NumCol [Some (Fin 0 0); Some (Fin 0 0); Some (Fin 0 0)])
    /\ nrows df' = nrows ledger_amounts.
Proof. eexists. repeat split. Qed.

Lemma amounts_present_numeric_witness :
  exists df' xs,
    _preprocess_data (pd := sample_pandas) ledger_sample = Ok df'
    /\ In (DEBIT, NumCol (map Some xs)) (columns df')
    /\ List.length xs = nrows df'
    /\ (exact_label ledger_sample DEBIT ->
        getitem df' DEBIT = Single (NumCol (map Some xs))).
Proof.
  exact (@amounts_present_numeric sample_pandas ledger_sample DEBIT
           ledger_sample_raw (or_introl eq_refl)).
Defined.

(** C1 fails as stated: a negative debit comes out negative. *)
Lemma negative_amount_kept :
  exists df',
    _preprocess_data (pd := sample_pandas) ledger_refund = Ok df'
    /\ getitem df' DEBIT = Single (NumCol [Some (Fin (-5) 0); Some (Fin 10 0)])
    /\ float_nonneg (Fin (-5) 0) = false.
Proof. eexists. repeat split. Qed.

Lemma padded_amount_label_witness :
  exists df' cs,
    _preprocess_data (pd := sample_pandas) ledger_padded = Ok df'
    /\ getitem df' DEBIT = Several cs
    /\ In (col_select (date_mask (pd := sample_pandas) ledger_padded)
             (ObjCol [Some "£5.00"; Some "£7.50"])) cs
    /\ In (NumCol (repeat (Some fzero) (nrows df'))) cs.
Proof.
  refine (@padded_amount_label sample_pandas ledger_padded DEBIT " Debit Amount "
            (ObjCol [Some "£5.00"; Some "£7.50"])
            ledger_padded_raw (or_introl eq_refl) _ _ eq_refl eq_refl).
  - simpl. right. left. reflexivity.
  - discriminate.
Defined.

(** C10 fails as stated: after the pass the label [Debit Amount] selects
    the original cells together with the zeros, and the total the analyzer
    asks for is the reduction of both columns. *)
Lemma padded_values_selected :
  exists df',
    _preprocess_data (pd := sample_pandas) ledger_padded = Ok df'
    /\ getitem df' DEBIT
       = Several [ObjCol [Some "£5.00"; Some "£7.50"];
                  NumCol [Some (Fin 0 0); Some (Fin 0 0)]]
    /\ (forall series_agg frame_agg,
          reduce series_agg frame_agg AggSum df' DEBIT
          = frame_agg AggSum [ObjCol [Some "£5.00"; Some "£7.50"];
                              NumCol [Some (Fin 0 0); Some (Fin 0 0)]]).
Proof. eexists. repeat split. Qed.

Lemma second_pass_same_witness :
  _preprocess_data (pd := sample_pandas) ledger_padded_other_after
  = Ok ledger_padded_other_after.
Proof.
  exact (@second_pass_same sample_pandas ledger_padded_other ledger_padded_other_after
           ledger_padded_other_raw ledger_padded_other_exact eq_refl
           ledger_padded_other_read_back).
Defined.

(** C3 fails as stated: with a blank in the date header the first pass
    keeps both rows and leaves the dates as text, and the second pass,
    which now finds the date column, drops the row whose date does not
    parse. *)
Lemma second_pass_differs :
  exists once twice,
    _preprocess_data (pd := sample_pandas) ledger_padded_date = Ok once
    /\ _preprocess_data (pd := sample_pandas) once = Ok twice
    /\ once <> twice
    /\ nrows once = 2 /\ nrows twice = 1.
Proof.
  do 2 eexists. split; [reflexivity|]. split; [reflexivity|].
  split; [discriminate|]. split; reflexivity.
Qed.

(** With whitespace around an amount header the second pass raises. *)
Example second_pass_raises :
  exists once e,
    _preprocess_data (pd := sample_pandas) ledger_padded = Ok once
    /\ _preprocess_data (pd := sample_pandas) once = Raise e.
Proof. do 2 eexists. split; reflexivity. Qed.

Lemma summary_of_normalized_witness :
  exists ts debit credit first last,
    getitem ledger_refund_normalised DATE = Single (DateCol (map Some ts))
    /\ getitem ledger_refund_normalised DEBIT = Single (NumCol (map Some debit))
    /\ getitem ledger_refund_normalised CREDIT = Single (NumCol (map Some credit))
    /\ In first ts /\ (forall t, In t ts -> (first <= t)%Z)
    /\ In last ts /\ (forall t, In t ts -> (t <= last)%Z)
    /\ (forall total_debit total_credit,
          sum_decimal AggSum (NumCol (map Some debit)) = Ok total_debit ->
          sum_decimal AggSum (NumCol (map Some credit)) = Ok total_credit ->
          analyze_structure no_stats sum_decimal no_frame_agg ledger_refund_normalised
          = Ok (mkAnalysis (nrows ledger_refund_normalised) (VDate first) (VDate last)
                  total_debit total_credit
                  (to_dict (map (fun lc => (fst lc, null_count (snd lc)))
                              (columns ledger_refund_normalised)))
                  (no_stats ledger_refund_normalised) None))
    /\ dict_get (to_dict (map (fun lc => (fst lc, null_count (snd lc)))
                            (columns ledger_refund_normalised))) DEBIT = Some 0
    /\ dict_get (to_dict (map (fun lc => (fst lc, null_count (snd lc)))
                            (columns ledger_refund_normalised))) CREDIT = Some 0.
Proof.
  exact (@summary_of_normalized sample_pandas no_stats sum_decimal no_frame_agg
           ledger_refund ledger_refund_normalised
           ledger_refund_raw ledger_refund_exact eq_refl eq_refl eq_refl).
Defined.

(** The summary of [ledger_refund] after the pass: the credit that was
    missing in the input is counted as present, being zero by then. *)
Example ledger_refund_summary :
  analyze_structure no_stats sum_decimal no_frame_agg ledger_refund_normalised
  = Ok ledger_refund_analysis.
Proof. reflexivity. Qed.

(** C7 fails as stated: a ledger without date column is normalised to a
    ledger with rows on which the analyzer raises instead of returning a
    summary. *)
Lemma undated_ledger_has_no_summary :
  exists df',
    _preprocess_data (pd := sample_pandas) ledger_undated = Ok df'
    /\ df_empty df' = false
    /\ forall describe series_agg frame_agg,
         analyze_structure describe series_agg frame_agg df'
         = Raise (KeyError DATE).
Proof. eexists. repeat split. Qed.

(** ** The analyzer *)


(** C6. On a ledger with no rows [analyze_structure] returns: count zero,
    no start and no end of the period, both totals zero, empty maps of
    missing values and of statistics, and the marker under [warning]. *)
Theorem empty_ledger_summary (describe : DataFrame -> stats)
    (series_agg : agg -> column -> result value)
    (frame_agg : agg -> list column -> result value) (df : DataFrame) :
  index df = [] ->
  analyze_structure describe series_agg frame_agg df
  = Ok (mkAnalysis 0 VNone VNone (VNum (Fin 0 0)) (VNum (Fin 0 0)) [] []
          (Some "No data available for analysis")).
Proof.
  intros H. unfold analyze_structure, df_empty. now rewrite H.
Qed.

Lemma empty_ledger_summary_witness :
  analyze_structure no_stats no_series_agg no_frame_agg ledger_empty
  = Ok (mkAnalysis 0 VNone VNone (VNum (Fin 0 0)) (VNum (Fin 0 0)) [] []
          (Some "No data available for analysis")).
Proof.
  exact (@empty_ledger_summary no_stats no_series_agg no_frame_agg ledger_empty eq_refl).
Defined.

(** C9. On a ledger that is not empty and has no column labelled
    [Transaction Date], [analyze_structure] raises [KeyError] for that
    label; and whenever it returns a summary on such a ledger, the three
    configured labels are all present. *)
Theorem configured_columns_required (describe : DataFrame -> stats)
    (series_agg : agg -> column -> result value)
    (frame_agg : agg -> list column -> result value) (df : DataFrame) :
  df_empty df = false ->
  (has_column df DATE = false ->
     analyze_structure describe series_agg frame_agg df = Raise (KeyError DATE))
  /\ (forall s,
        analyze_structure describe series_agg frame_agg df = Ok s ->
        has_column df DATE = true
        /\ has_column df DEBIT = true
        /\ has_column df CREDIT = true).
Proof.
  intros Hne. unfold analyze_structure. rewrite Hne. split.
  - intros H. now rewrite (reduce_absent series_agg frame_agg AggMin df DATE H).
  - intros s Hs.
    destruct (has_column df DATE) eqn:H1.
    + destruct (has_column df DEBIT) eqn:H2.
      * destruct (has_column df CREDIT) eqn:H3; auto.
        rewrite (reduce_absent series_agg frame_agg AggSum df CREDIT H3) in Hs.
        destruct (reduce series_agg frame_agg AggMin df DATE); try discriminate.
        destruct (reduce series_agg frame_agg AggMax df DATE); try discriminate.
        destruct (reduce series_agg frame_agg AggSum df DEBIT); discriminate.
      * rewrite (reduce_absent series_agg frame_agg AggSum df DEBIT H2) in Hs.
        destruct (reduce series_agg frame_agg AggMin df DATE); try discriminate.
        destruct (reduce series_agg frame_agg AggMax df DATE); discriminate.
    + now rewrite (reduce_absent series_agg frame_agg AggMin df DATE H1) in Hs.
Qed.

Lemma configured_columns_required_witness :
  (has_column ledger_undated DATE = false ->
     analyze_structure no_stats no_series_agg no_frame_agg ledger_undated
     = Raise (KeyError DATE))
  /\ (forall s,
        analyze_structure no_stats no_series_agg no_frame_agg ledger_undated = Ok s ->
        has_column ledger_undated DATE = true
        /\ has_column ledger_undated DEBIT = true
        /\ has_column ledger_undated CREDIT = true).
Proof.
  exact (@configured_columns_required no_stats no_series_agg no_frame_agg
           ledger_undated eq_refl).
Defined.


(** ** The judge *)

(** C2 (the code at the failing input).  When [generate] raises on the
    first attempt, the handler reaches [time.sleep] with [time] unbound:
    the call raises [NameError] after one attempt and one [generate], with
    no delay and no second attempt, although the service would have
    answered. *)
Theorem judge_retry_raises :
  get_judge_evaluation svc_fails_once
  = ([Probe; Generate], Raise (NameError "time"))
  /\ name_defined module_globals "time" = false.
Proof. split; reflexivity. Qed.

(** The same for whatever the first attempt raises and whatever follows. *)
Lemma judge_first_failure_raises (svc : nat -> attempt_outcome) (e : exn) :
  svc 0 = ClientRaises e ->
  get_judge_evaluation svc = ([Probe; Generate], Raise (NameError "time")).
Proof.
  intros H. unfold get_judge_evaluation. simpl. now rewrite H.
Qed.

(** The loop itself is the one of the specification: with [time] bound it
    sleeps the fixed delay and returns the answer of the second attempt,
    and after three failures it returns the message built from the last
    exception. *)
Example judge_loop_with_time :
  judge_loop ("time" :: module_globals) svc_fails_once (seq 0 max_retries) []
  = ([Probe; Generate; Sleep 5; Probe; Generate], Ok (Some "The insights are sound."))
  /\ judge_loop ("time" :: module_globals) svc_always_fails (seq 0 max_retries) []
     = ([Probe; Generate; Sleep 5; Probe; Generate; Sleep 5; Probe; Generate],
        Ok (Some ("Error generating judge evaluation: connection refused"
                    ++ LF ++ "Please check the Ollama service and try again."))).
Proof. split; reflexivity. Qed.

(** A service that does not answer the probe is given one attempt. *)
Example judge_unreachable :
  get_judge_evaluation svc_unreachable = ([Probe], Ok (Some unavailable_message)).
Proof. reflexivity. Qed.

(** ** The report *)

Section ReportLayout.

Variable describe : DataFrame -> stats.
Variable series_agg : agg -> column -> result value.
Variable frame_agg : agg -> list column -> result value.
Variable str_value : value -> string.
Variable format_amount : value -> result string.
Variable missing_to_string : dict nat -> string.
Variable stats_to_string : stats -> string.
Variable now : string.
Variable report_dir : string.
Variable draw_plots : DataFrame -> result (dict string).

(** C8 (as the code has it).  When no stage raises, the report is the
    header with the timestamp followed by the four sections in the order
    structure analysis, visualizations, LLM insights, expert review, each
    under its heading.  The first two sections consist of the warning line
    when their input carries the marker.  The last two write the text they
    are given as it is, a fallback text included. *)
Theorem report_layout (df : DataFrame) (llm : attempt_outcome)
    (judge : nat -> attempt_outcome)
    (analysis : Analysis) (plots : dict string) (evaluation : string) :
  analyze_structure describe series_agg frame_agg df = Ok analysis ->
  (warning analysis = None ->
   exists amount, format_amount (total_debit analysis) = Ok amount) ->
  visualize_transactions draw_plots df = Ok plots ->
  snd (get_judge_evaluation judge) = Ok (Some evaluation) ->
  exists structure_body plots_body,
    generate_report describe series_agg frame_agg str_value format_amount
      missing_to_string stats_to_string now report_dir draw_plots df llm judge
    = (("# Bank Transaction Analysis Report" ++ LF ++ LF
          ++ "Generated on: " ++ now ++ LF ++ LF)
         ++ ("## Data Structure Analysis" ++ LF ++ LF ++ structure_body)
         ++ ("## Visualizations" ++ LF ++ LF ++ plots_body)
         ++ ("## LLM Insights" ++ LF ++ LF
               ++ get_llm_insights series_agg frame_agg format_amount df llm
               ++ LF ++ LF)
         ++ ("## Expert Review" ++ LF ++ LF ++ evaluation ++ LF ++ LF),
       Ok (path_join report_dir "analysis_report.md"))
    /\ (forall w, warning analysis = Some w ->
          structure_body = "**Warning:** " ++ w ++ LF ++ LF)
    /\ (forall w, dict_get plots "warning" = Some w ->
          plots_body = "**Warning:** " ++ w ++ LF ++ LF).
Proof.
  intros Ha Hf Hp Hj.
  destruct (sound_header now) as [S0 T0].
  destruct (@sound_structure_analysis str_value format_amount missing_to_string
              stats_to_string analysis Hf) as [S1 [b1 [T1 W1]]].
  destruct (sound_visualizations plots) as [S2 [b2 [T2 W2]]].
  destruct (sound_llm_insights
              (get_llm_insights series_agg frame_agg format_amount df llm))
    as [S3 T3].
  destruct (sound_judge_evaluation evaluation) as [S4 T4].
  exists b1, b2. split; [|split; [exact W1|exact W2]].
  unfold generate_report, report_body. rewrite Ha, Hp, Hj. cbn [lift].
  destruct (sound_then S3 S4) as [S34 T34].
  destruct (sound_then S2 S34) as [S234 T234].
  destruct (sound_then S1 S234) as [S1234 T1234].
  destruct (sound_then S0 S1234) as [S T].
  rewrite S. cbv beta iota. f_equal.
  rewrite T, T1234, T234, T34, T0, T1, T2, T3, T4.
  rewrite !append_assoc_s. reflexivity.
Qed.

End ReportLayout.

Lemma report_layout_witness :
  exists structure_body plots_body,
    generate_report no_stats sum_decimal no_frame_agg plain_value plain_amount
      plain_missing plain_stats "2024-03-01 09:00:00" "report" one_plot
      ledger_refund_normalised (Responds "Spending is steady.") svc_unreachable
    = (("# Bank Transaction Analysis Report" ++ LF ++ LF
          ++ "Generated on: " ++ "2024-03-01 09:00:00" ++ LF ++ LF)
         ++ ("## Data Structure Analysis" ++ LF ++ LF ++ structure_body)
         ++ ("## Visualizations" ++ LF ++ LF ++ plots_body)
         ++ ("## LLM Insights" ++ LF ++ LF
               ++ get_llm_insights sum_decimal no_frame_agg plain_amount
                    ledger_refund_normalised (Responds "Spending is steady.")
               ++ LF ++ LF)
         ++ ("## Expert Review" ++ LF ++ LF ++ unavailable_message ++ LF ++ LF),
       Ok (path_join "report" "analysis_report.md"))
    /\ (forall w,
          warning ledger_refund_analysis = Some w ->
          structure_body = "**Warning:** " ++ w ++ LF ++ LF)
    /\ (forall w,
          dict_get [("monthly_volume", "plots/monthly_volume.png")] "warning" = Some w ->
          plots_body = "**Warning:** " ++ w ++ LF ++ LF).
Proof.
  exact (@report_layout no_stats sum_decimal no_frame_agg plain_value plain_amount
           plain_missing plain_stats "2024-03-01 09:00:00" "report" one_plot
           ledger_refund_normalised (Responds "Spending is steady.") svc_unreachable
           ledger_refund_analysis _ unavailable_message
           eq_refl (fun _ => ex_intro _ "0.00" eq_refl) eq_refl eq_refl).
Defined.

(** The report on a ledger without rows, the service being down: the first
    two sections carry the warning line, the last two the fallback texts
    as they are. *)
Example report_on_empty_ledger :
  generate_report no_stats no_series_agg no_frame_agg plain_value plain_amount
    plain_missing plain_stats "2024-03-01 09:00:00" "report" one_plot
    ledger_empty ProbeFails svc_unreachable
  = ("# Bank Transaction Analysis Report" ++ LF ++ LF
       ++ "Generated on: 2024-03-01 09:00:00" ++ LF ++ LF
       ++ "## Data Structure Analysis" ++ LF ++ LF
       ++ "**Warning:** No data available for analysis" ++ LF ++ LF
       ++ "## Visualizations" ++ LF ++ LF
       ++ "**Warning:** No data available for visualization" ++ LF ++ LF
       ++ "## LLM Insights" ++ LF ++ LF
       ++ "No data available for analysis" ++ LF ++ LF
       ++ "## Expert Review" ++ LF ++ LF
       ++ unavailable_message ++ LF ++ LF,
     Ok "report/analysis_report.md").
Proof. reflexivity. Qed.

(** C8 fails as stated: given the marker of an empty ledger, the section
    of the insights writes it as its content and not as a warning line,
    and so does the review section with the fallback text of the service. *)
Lemma text_sections_write_markers_verbatim :
  text_of (_write_llm_insights "No data available for analysis")
  = "## LLM Insights" ++ LF ++ LF ++ "No data available for analysis" ++ LF ++ LF
  /\ text_of (_write_llm_insights "No data available for analysis")
     <> "## LLM Insights" ++ LF ++ LF
          ++ warning_line "No data available for analysis"
  /\ text_of (_write_judge_evaluation (Some unavailable_message))
     = "## Expert Review" ++ LF ++ LF ++ unavailable_message ++ LF ++ LF
  /\ text_of (_write_judge_evaluation (Some unavailable_message))
     <> "## Expert Review" ++ LF ++ LF ++ warning_line unavailable_message.
Proof. repeat split; discriminate. Qed.

(** A run in which the judge raises leaves a report of three sections and
    raises itself. *)
Example report_without_review :
  generate_report no_stats no_series_agg no_frame_agg plain_value plain_amount
    plain_missing plain_stats "2024-03-01 09:00:00" "report" one_plot
    ledger_empty ProbeFails svc_fails_once
  = ("# Bank Transaction Analysis Report" ++ LF ++ LF
       ++ "Generated on: 2024-03-01 09:00:00" ++ LF ++ LF
       ++ "## Data Structure Analysis" ++ LF ++ LF
       ++ "**Warning:** No data available for analysis" ++ LF ++ LF
       ++ "## Visualizations" ++ LF ++ LF
       ++ "**Warning:** No data available for visualization" ++ LF ++ LF
       ++ "## LLM Insights" ++ LF ++ LF
       ++ "No data available for analysis" ++ LF ++ LF,
     Raise (Exception "Error generating report: name 'time' is not defined")).
Proof. reflexivity. Qed.

(** * Further properties of the code *)

(** ** The pass: columns and labels *)

Section PassExtras.

Context {pd : Pandas}.

(** X1. The pass neither removes nor reorders columns: the labels of the
    normalised ledger are the trimmed labels of the input, in order,
    followed by the debit label and then the credit label where the input
    lacks them. *)
Theorem normalized_labels (df : DataFrame) :
  raw_ledger df ->
  exists df',
    _preprocess_data df = Ok df'
    /\ labels df'
       = map strip (labels df
                    ++ (if has_column df DEBIT then [] else [DEBIT])
                    ++ (if has_column df CREDIT then [] else [CREDIT]))%list.
Proof.
  intros Hraw. exists (normal_form df). split.
  - now apply preprocess_normal_form.
  - apply normal_form_labels_eq.
Qed.

(** X2. A column that is none of the three configured ones keeps its
    position, and its cells are those of the rows that are kept, as they
    were; only its label is trimmed.  Without a date column it keeps all
    its cells. *)
Theorem other_columns_kept (df : DataFrame) (i : nat) (k : string) (v : column) :
  raw_ledger df ->
  nth_error (columns df) i = Some (k, v) ->
  k <> DATE -> k <> DEBIT -> k <> CREDIT ->
  exists df',
    _preprocess_data df = Ok df'
    /\ nth_error (columns df') i = Some (strip k, col_select (date_mask df) v)
    /\ (has_column df DATE = false ->
        nth_error (columns df') i = Some (strip k, v)).
Proof.
  intros Hraw Hi H1 H2 H3. exists (normal_form df).
  split; [now apply preprocess_normal_form|].
  pose proof (@normal_form_nth_other _ df i k v Hi H1 H2 H3) as Hn.
  split; [exact Hn|]. intros Hd. rewrite Hn. do 2 f_equal.
  rewrite (date_mask_absent df Hd). apply col_select_all.
  symmetry. apply (@aligned_In df k v (proj1 Hraw)).
  eapply nth_error_In; eauto.
Qed.

(** X3. Whenever the pass returns, whatever the input was, every label of
    the result is left as it is by [strip]: it does not start with a
    whitespace character, and no end of it consists of whitespace. *)
Theorem labels_trimmed_after (df df' : DataFrame) :
  _preprocess_data df = Ok df' ->
  forall l, In l (labels df') ->
    strip l = l
    /\ drop_space l = None
    /\ (forall a b, l = a ++ b -> b <> EmptyString -> blank b = false).
Proof.
  unfold _preprocess_data. intros H.
  assert (T : trimmed df').
  { destruct (preprocess_body df) as [d|e] eqn:E.
    - injection H as <-. unfold preprocess_body in E.
      destruct (preprocess_date df) as [d1|]; [|discriminate E].
      cbn [bind] in E.
      destruct (fold_left _ _ _) as [d2|]; [|discriminate E].
      cbn [bind] in E. injection E as <-. apply strip_columns_is_trimmed.
    - destruct e; discriminate H. }
  intros l Hl. unfold trimmed in T. rewrite Forall_forall in T.
  pose proof (T l Hl) as Hs. split; [exact Hs|]. now apply strip_fixed_ends.
Qed.

(** ** Whitespace around an amount label *)

(** X5. With whitespace around an amount label and no column under the
    label itself, the pass returns a ledger with several columns under
    that label, on which a second pass raises the exception that reports a
    preprocessing error. *)
Theorem second_pass_on_padded_raises (df : DataFrame) (col l : string) (c : column) :
  raw_ledger df -> col = DEBIT \/ col = CREDIT ->
  In (l, c) (columns df) -> l <> col -> strip l = col ->
  has_column df col = false ->
  exists df' cs msg,
    _preprocess_data df = Ok df'
    /\ getitem df' col = Several cs
    /\ _preprocess_data df'
       = Raise (Exception ("Error preprocessing data: " ++ msg)).
Proof.
  intros Hraw Hcol Hin Hne Hs Habs.
  pose proof (@normal_form_padded_several _ df col l c Hraw Hcol Hin Hne Hs Habs)
    as Hsev.
  destruct (@preprocess_body_several _ (normal_form df) col Hcol Hsev) as [m Hm].
  destruct Hsev as [cs Hcs].
  exists (normal_form df), cs, m. split; [now apply preprocess_normal_form|].
  split; [exact Hcs|].
  unfold _preprocess_data. now rewrite Hm.
Qed.

(** ** Numeric amounts *)

(** X21. Let an amount column be numeric in the input, let each of its
    numbers be read back from the text written for it, and let nothing be
    read from [nan].  Then in the rows that are kept every number is
    unchanged and every missing value has become zero. *)
Theorem numeric_amounts_kept (df : DataFrame) (col : string)
    (l : list (option float)) :
  raw_ledger df -> col = DEBIT \/ col = CREDIT ->
  In (col, NumCol l) (columns df) ->
  to_numeric "nan" = None ->
  (forall x, In (Some x) l -> reads_back x) ->
  exists df',
    _preprocess_data df = Ok df'
    /\ In (col, NumCol (map (fun o => Some (or_zero o)) (select (date_mask df) l)))
          (columns df').
Proof.
  intros Hraw Hcol Hin Hnan Hback. exists (normal_form df).
  split; [now apply preprocess_normal_form|].
  pose proof (@normal_form_amount_of _ df col (NumCol l) Hraw Hcol Hin) as H.
  cbn [col_select] in H.
  set (kept := select (date_mask df) l) in *.
  assert (Hk : forall x, In (Some x) kept -> reads_back x).
  { intros x Hx. apply Hback. eapply select_In; eauto. }
  assert (Hlen : List.length kept = nrows (normal_form df)).
  { unfold kept, nrows. rewrite normal_form_index. apply select_length_eq.
    exact (@aligned_In df col (NumCol l) (proj1 Hraw) Hin). }
  assert (E : amount_column (nrows (normal_form df)) (NumCol kept)
              = NumCol (map (fun o => Some (or_zero o)) kept)).
  { unfold amount_column. rewrite <- Hlen. clear Hlen H.
    destruct (forallb (fun b => b) (isna (NumCol kept))) eqn:A.
    - f_equal. simpl in A. clear Hk.
      induction kept as [|[x|] r IH]; simpl in *; try discriminate; auto.
      now rewrite IH.
    - f_equal. unfold amount_cells. simpl. rewrite !map_map.
      apply map_ext_in. intros [x|] Hx.
      + unfold parse_or_zero. now rewrite (Hk x Hx).
      + unfold parse_or_zero. change (clean_amount "nan") with "nan".
        now rewrite Hnan. }
  now rewrite E in H.
Qed.

(** X7. Given a table with aligned columns and at most one column under
    each of the three labels, [load_data] does not raise: it returns a
    ledger with aligned columns and trimmed labels, no more rows than the
    table, and under each amount label a numeric column with a number in
    every row. *)
Theorem load_data_well_formed (csv_path : string) (df : DataFrame) :
  raw_ledger df ->
  exists df',
    load_data csv_path (ReadOk df) = Loaded df'
    /\ aligned df' /\ trimmed df' /\ nrows df' <= nrows df
    /\ forall col, col = DEBIT \/ col = CREDIT ->
         exists xs, In (col, NumCol (map Some xs)) (columns df')
                    /\ List.length xs = nrows df'.
Proof.
  intros Hraw. exists (normal_form df). split.
  - unfold load_data. now rewrite (@preprocess_normal_form _ df Hraw).
  - split; [now apply normal_form_aligned|].
    split; [apply strip_columns_is_trimmed|].
    split; [apply normal_form_nrows|].
    intros col Hcol. now apply normal_form_amount.
Qed.

(** X6. With whitespace around an amount label and no column under the
    label itself, the map of missing values of a summary of the normalised
    ledger gives zero for that label, however many cells of the original
    column are missing: the count kept is that of the appended column of
    zeros. *)
Theorem padded_label_hides_missing (describe : DataFrame -> stats)
    (series_agg : agg -> column -> result value)
    (frame_agg : agg -> list column -> result value)
    (df df' : DataFrame) (col l : string) (c : column) (s : Analysis) :
  raw_ledger df -> col = DEBIT \/ col = CREDIT ->
  In (l, c) (columns df) -> l <> col -> strip l = col ->
  has_column df col = false ->
  _preprocess_data df = Ok df' -> df_empty df' = false ->
  analyze_structure describe series_agg frame_agg df' = Ok s ->
  dict_get (missing_values s) col = Some 0.
Proof.
  intros Hraw Hcol Hin Hne Hs Habs Hpre Hemp Han.
  rewrite (@preprocess_normal_form _ df Hraw) in Hpre. injection Hpre as <-.
  destruct (@normal_form_padded _ df col l c Hraw Hcol Hin Hne Hs Habs)
    as [i [j [Hij [Hi [Hj Hlast]]]]].
  unfold analyze_structure in Han. rewrite Hemp in Han.
  destruct (reduce series_agg frame_agg AggMin (normal_form df) DATE);
    [|discriminate Han].
  destruct (reduce series_agg frame_agg AggMax (normal_form df) DATE);
    [|discriminate Han].
  destruct (reduce series_agg frame_agg AggSum (normal_form df) DEBIT);
    [|discriminate Han].
  destruct (reduce series_agg frame_agg AggSum (normal_form df) CREDIT);
    [|discriminate Han].
  cbn [bind] in Han. injection Han as <-. cbn [missing_values].
  apply (@to_dict_last nat
           (map (fun lc : string * column => (fst lc, null_count (snd lc)))
              (columns (normal_form df))) j col 0).
  - rewrite nth_error_map, Hj. simpl. unfold zeros. now rewrite null_count_repeat.
  - intros k w Hk Hnth. rewrite nth_error_map in Hnth.
    destruct (nth_error (columns (normal_form df)) k) as [[lab cells]|] eqn:E;
      [|discriminate Hnth].
    simpl in Hnth. injection Hnth as -> _. exact (Hlast k cells Hk E).
Qed.

End PassExtras.

Lemma normalized_labels_witness :
  exists df',
    _preprocess_data (pd := sample_pandas) ledger_sample = Ok df'
    /\ labels df'
       = map strip (labels ledger_sample
                    ++ (if has_column ledger_sample DEBIT then [] else [DEBIT])
                    ++ (if has_column ledger_sample CREDIT then [] else [CREDIT]))%list.
Proof. exact (@normalized_labels sample_pandas ledger_sample ledger_sample_raw). Defined.

Lemma other_columns_kept_witness :
  exists df',
    _preprocess_data (pd := sample_pandas) ledger_padded_other = Ok df'
    /\ nth_error (columns df') 1
       = Some (strip "Balance ",
               col_select (date_mask (pd := sample_pandas) ledger_padded_other)
                 (NumCol [Some (Fin 100 0); Some (Fin 955 (-1))]))
    /\ (has_column ledger_padded_other DATE = false ->
        nth_error (columns df') 1
        = Some (strip "Balance ", NumCol [Some (Fin 100 0); Some (Fin 955 (-1))])).
Proof.
  refine (@other_columns_kept sample_pandas ledger_padded_other 1 "Balance "
            (NumCol [Some (Fin 100 0); Some (Fin 955 (-1))])
            ledger_padded_other_raw eq_refl _ _ _); discriminate.
Defined.

Lemma labels_trimmed_after_witness :
  strip DEBIT = DEBIT
  /\ drop_space DEBIT = None
  /\ (forall a b, DEBIT = a ++ b -> b <> EmptyString -> blank b = false).
Proof.
  exact (@labels_trimmed_after sample_pandas ledger_padded_missing
           ledger_padded_missing_after eq_refl
           DEBIT (or_intror (or_introl eq_refl))).
Defined.

(** A no-break space after the label is whitespace for [strip]. *)
Example strip_no_break_space :
  strip DEBIT_NBSP = DEBIT /\ DEBIT_NBSP <> DEBIT
  /\ strip ("  " ++ DEBIT ++ String (ascii_of_nat 9) EmptyString) = DEBIT.
Proof. repeat split. discriminate. Qed.

Lemma second_pass_on_padded_raises_witness :
  exists df' cs msg,
    _preprocess_data (pd := sample_pandas) ledger_padded = Ok df'
    /\ getitem df' DEBIT = Several cs
    /\ _preprocess_data (pd := sample_pandas) df'
       = Raise (Exception ("Error preprocessing data: " ++ msg)).
Proof.
  refine (@second_pass_on_padded_raises sample_pandas ledger_padded DEBIT
            " Debit Amount " (ObjCol [Some "£5.00"; Some "£7.50"])
            ledger_padded_raw (or_introl eq_refl) _ _ eq_refl eq_refl).
  - simpl. right. left. reflexivity.
  - discriminate.
Defined.

Lemma numeric_amounts_kept_witness :
  exists df',
    _preprocess_data (pd := sample_pandas) ledger_refund = Ok df'
    /\ In (CREDIT, NumCol (map (fun o => Some (or_zero o))
                             (select (date_mask (pd := sample_pandas) ledger_refund)
                                [None; Some (Fin 3 0)])))
          (columns df').
Proof.
  refine (@numeric_amounts_kept sample_pandas ledger_refund CREDIT
            [None; Some (Fin 3 0)]
            ledger_refund_raw (or_intror eq_refl) _ eq_refl _).
  - simpl. right. right. left. reflexivity.
  - intros x [H|[H|[]]]; [discriminate H|]. injection H as <-. reflexivity.
Defined.

Lemma load_data_well_formed_witness :
  exists df',
    load_data (pd := sample_pandas) "statement.csv" (ReadOk ledger_sample) = Loaded df'
    /\ aligned df' /\ trimmed df' /\ nrows df' <= nrows ledger_sample
    /\ forall col, col = DEBIT \/ col = CREDIT ->
         exists xs, In (col, NumCol (map Some xs)) (columns df')
                    /\ List.length xs = nrows df'.
Proof.
  exact (@load_data_well_formed sample_pandas "statement.csv" ledger_sample
           ledger_sample_raw).
Defined.

Lemma padded_label_hides_missing_witness :
  exists s,
    analyze_structure no_stats sum_decimal sum_columns ledger_padded_missing_after
    = Ok s
    /\ dict_get (missing_values s) DEBIT = Some 0
    /\ null_count (NumCol [Some (Fin 5 0); None]) = 1.
Proof.
  eexists. split; [reflexivity|]. split; [|reflexivity].
  refine (@padded_label_hides_missing sample_pandas no_stats sum_decimal sum_columns
            ledger_padded_missing ledger_padded_missing_after DEBIT DEBIT_NBSP
            (NumCol [Some (Fin 5 0); None]) _
            ledger_padded_missing_raw (or_introl eq_refl) _ _
            eq_refl eq_refl eq_refl eq_refl eq_refl).
  - simpl. right. left. reflexivity.
  - discriminate.
Defined.


(** ** The judge *)

(** X8. Whatever the service does, [get_judge_evaluation] makes one
    attempt and never sleeps: it returns the fixed message when the probe
    fails, the answer when [generate] answers, and raises [NameError] for
    [time] when [generate] raises.  What the service would do on a later
    attempt is never consulted. *)
Theorem judge_single_attempt (svc : nat -> attempt_outcome) :
  attempts_made (fst (get_judge_evaluation svc)) = 1
  /\ sleeps (fst (get_judge_evaluation svc)) = 0
  /\ snd (get_judge_evaluation svc)
     = match svc 0 with
       | ProbeFails => Ok (Some unavailable_message)
       | Responds text => Ok (Some text)
       | ClientRaises _ => Raise (NameError "time")
       end.
Proof.
  unfold get_judge_evaluation. simpl. destruct (svc 0); simpl; auto.
Qed.

(** X9. The loop of the judge, whatever names are bound: between one and
    three attempts, one delay of five seconds between two attempts and
    none otherwise, and never the result [None]; with [time] bound and
    three failures of [generate], the message is built from the third
    exception. *)
Theorem judge_loop_bounded (globals : list string) (svc : nat -> attempt_outcome) :
  let run := judge_loop globals svc (seq 0 max_retries) [] in
  1 <= attempts_made (fst run) <= max_retries
  /\ sleeps (fst run) <= attempts_made (fst run) - 1
  /\ (forall n, In (Sleep n) (fst run) -> n = retry_delay)
  /\ snd run <> Ok None
  /\ (name_defined globals "time" = true ->
      sleeps (fst run) = attempts_made (fst run) - 1)
  /\ (name_defined globals "time" = true ->
      forall e0 e1 e2,
        svc 0 = ClientRaises e0 -> svc 1 = ClientRaises e1 ->
        svc 2 = ClientRaises e2 ->
        snd run = Ok (Some ("Error generating judge evaluation: "
                              ++ str_exn e2 ++ retry_advice))).
Proof.
  cbv zeta. unfold max_retries. simpl seq. unfold judge_loop.
  destruct (name_defined globals "time");
    destruct (svc 0) as [|e0|t0]; cbn -[retry_advice unavailable_message str_exn append];
    try destruct (svc 1) as [|e1|t1]; cbn -[retry_advice unavailable_message str_exn append];
    try destruct (svc 2) as [|e2|t2]; cbn -[retry_advice unavailable_message str_exn append];
    (repeat match goal with |- _ /\ _ => split end;
     [ lia | lia | lia
     | intros n Hn; repeat (destruct Hn as [Hn|Hn]; try discriminate Hn;
                            try (injection Hn as <-; reflexivity)); contradiction
     | discriminate
     | try (intros; lia); try (intros H; discriminate H)
     | try (intros H; discriminate H);
       intros _ x0 x1 x2 H0 H1 H2; try discriminate H0; try discriminate H1;
       try discriminate H2; injection H2 as <-; reflexivity ]).
Qed.

(** ** The report when a stage fails or the ledger is empty *)

Section ReportEdges.

Variable describe : DataFrame -> stats.
Variable series_agg : agg -> column -> result value.
Variable frame_agg : agg -> list column -> result value.
Variable str_value : value -> string.
Variable format_amount : value -> result string.
Variable missing_to_string : dict nat -> string.
Variable stats_to_string : stats -> string.
Variable now : string.
Variable report_dir : string.
Variable draw_plots : DataFrame -> result (dict string).

(** X10. Whatever happens later, the report file starts with the header:
    the title and the timestamp come first also in a run that raises. *)
Theorem report_starts_with_header (df : DataFrame) (llm : attempt_outcome)
    (judge : nat -> attempt_outcome) :
  exists rest,
    fst (generate_report describe series_agg frame_agg str_value format_amount
           missing_to_string stats_to_string now report_dir draw_plots
           df llm judge)
    = ("# Bank Transaction Analysis Report" ++ LF ++ LF
         ++ "Generated on: " ++ now ++ LF ++ LF) ++ rest.
Proof.
  destruct (sound_header now) as [S0 T0].
  assert (B : exists rest,
            fst (report_body describe series_agg frame_agg str_value format_amount
                   missing_to_string stats_to_string now draw_plots df llm judge
                   EmptyString)
            = header_text now ++ rest).
  { unfold report_body. rewrite sound_then_run by exact S0.
    match goal with
    | |- exists rest, fst (?R _) = _ =>
        assert (A : appending R)
    end.
    { apply appending_lift. intros analysis.
      apply appending_then; [apply appending_structure_analysis|].
      apply appending_lift. intros plots.
      apply appending_then; [apply appending_visualizations|].
      cbv zeta. apply appending_then.
      - apply appending_sound. apply sound_llm_insights.
      - apply appending_lift. intros ev. apply appending_judge_evaluation. }
    rewrite A. cbn [fst]. rewrite T0. eexists. reflexivity. }
  destruct B as [rest B]. exists rest.
  unfold generate_report.
  destruct (report_body describe series_agg frame_agg str_value format_amount
              missing_to_string stats_to_string now draw_plots df llm judge
              EmptyString) as [f [u|e]]; cbn [fst] in *; rewrite B;
    unfold header_text; now rewrite !append_assoc_s.
Qed.

(** X11. On a ledger with rows and without the date column the report
    stops after the header: the file holds the header alone and the call
    raises the exception that reports the missing key. *)
Theorem report_without_date_column (df : DataFrame) (llm : attempt_outcome)
    (judge : nat -> attempt_outcome) :
  df_empty df = false -> has_column df DATE = false ->
  generate_report describe series_agg frame_agg str_value format_amount
    missing_to_string stats_to_string now report_dir draw_plots df llm judge
  = ("# Bank Transaction Analysis Report" ++ LF ++ LF
       ++ "Generated on: " ++ now ++ LF ++ LF,
     Raise (Exception "Error generating report: 'Transaction Date'")).
Proof.
  intros Hne Hd. destruct (sound_header now) as [S0 T0].
  unfold generate_report, report_body.
  rewrite sound_then_run by exact S0.
  unfold analyze_structure. rewrite Hne.
  rewrite (reduce_absent series_agg frame_agg AggMin df DATE Hd).
  cbn [bind lift]. unfold fail. rewrite T0. cbn [append].
  rewrite !append_assoc_s. reflexivity.
Qed.

(** X12. When the first three stages return and [generate] raises on the
    judge's first attempt, the call raises the exception that reports the
    unbound name, and the file is left with the header and the first three
    sections, without review. *)
Theorem report_when_judge_fails (df : DataFrame) (llm : attempt_outcome)
    (judge : nat -> attempt_outcome)
    (analysis : Analysis) (plots : dict string) (e : exn) :
  analyze_structure describe series_agg frame_agg df = Ok analysis ->
  (warning analysis = None ->
   exists amount, format_amount (total_debit analysis) = Ok amount) ->
  visualize_transactions draw_plots df = Ok plots ->
  judge 0 = ClientRaises e ->
  generate_report describe series_agg frame_agg str_value format_amount
    missing_to_string stats_to_string now report_dir draw_plots df llm judge
  = (("# Bank Transaction Analysis Report" ++ LF ++ LF
        ++ "Generated on: " ++ now ++ LF ++ LF)
       ++ text_of (_write_structure_analysis str_value format_amount
                     missing_to_string stats_to_string analysis)
       ++ text_of (_write_visualizations plots)
       ++ ("## LLM Insights" ++ LF ++ LF
             ++ get_llm_insights series_agg frame_agg format_amount df llm
             ++ LF ++ LF),
     Raise (Exception "Error generating report: name 'time' is not defined")).
Proof.
  intros Ha Hf Hp Hj. unfold generate_report.
  rewrite (@report_body_run describe series_agg frame_agg str_value format_amount
             missing_to_string stats_to_string now draw_plots df llm judge
             analysis plots Ha Hf Hp).
  rewrite (@judge_first_failure_raises judge e Hj). cbn [snd lift]. unfold fail.
  f_equal. all: unfold header_text; rewrite ?append_assoc_s; reflexivity.
Qed.

(** X13. On a ledger without rows the report does not depend on the
    columns, on the plotting library or on the narrative service: its
    first three sections are the two warning lines and the no-data text,
    and the review is whatever the judge returned. *)
Theorem report_on_ledger_without_rows (df : DataFrame) (llm : attempt_outcome)
    (judge : nat -> attempt_outcome) (evaluation : string) :
  index df = [] ->
  snd (get_judge_evaluation judge) = Ok (Some evaluation) ->
  generate_report describe series_agg frame_agg str_value format_amount
    missing_to_string stats_to_string now report_dir draw_plots df llm judge
  = ("# Bank Transaction Analysis Report" ++ LF ++ LF
       ++ "Generated on: " ++ now ++ LF ++ LF
       ++ "## Data Structure Analysis" ++ LF ++ LF
       ++ "**Warning:** No data available for analysis" ++ LF ++ LF
       ++ "## Visualizations" ++ LF ++ LF
       ++ "**Warning:** No data available for visualization" ++ LF ++ LF
       ++ "## LLM Insights" ++ LF ++ LF
       ++ "No data available for analysis" ++ LF ++ LF
       ++ "## Expert Review" ++ LF ++ LF ++ evaluation ++ LF ++ LF,
     Ok (path_join report_dir "analysis_report.md")).
Proof.
  intros Hi Hj.
  assert (He : df_empty df = true) by (unfold df_empty; now rewrite Hi).
  assert (Ha : analyze_structure describe series_agg frame_agg df
               = Ok no_data_analysis).
  { unfold analyze_structure. now rewrite He. }
  assert (Hp : visualize_transactions draw_plots df
               = Ok [("warning", "No data available for visualization")]).
  { unfold visualize_transactions. now rewrite He. }
  assert (Hf : warning no_data_analysis = None ->
               exists amount, format_amount (total_debit no_data_analysis) = Ok amount)
    by (intros H; discriminate H).
  unfold generate_report.
  rewrite (@report_body_run describe series_agg frame_agg str_value format_amount
             missing_to_string stats_to_string now draw_plots df llm judge
             _ _ Ha Hf Hp).
  rewrite Hj. cbn [lift].
  destruct (sound_judge_evaluation evaluation) as [S4 T4].
  rewrite S4, T4. unfold get_llm_insights. rewrite He.
  f_equal. all: unfold header_text, text_of; cbn [fst];
    rewrite ?append_assoc_s; reflexivity.
Qed.

(** X14. The narrative stage turns a failure into text and asks the
    service only when there is something to describe: on an empty ledger
    it returns the no-data text whatever the service does; when the probe
    fails it returns the fixed message; and on a ledger with rows and
    without the date column it returns the error text naming the missing
    key, whatever the service answers. *)
Theorem insights_edge_cases (df : DataFrame) :
  (df_empty df = true ->
   forall svc, get_llm_insights series_agg frame_agg format_amount df svc
               = "No data available for analysis")
  /\ (df_empty df = false ->
      get_llm_insights series_agg frame_agg format_amount df ProbeFails
      = unavailable_message)
  /\ (df_empty df = false -> has_column df DATE = false ->
      forall svc, svc <> ProbeFails ->
        get_llm_insights series_agg frame_agg format_amount df svc
        = "Error generating LLM insights: 'Transaction Date'" ++ LF
            ++ "Please check the Ollama service and try again.").
Proof.
  unfold get_llm_insights. repeat split.
  - intros H svc. now rewrite H.
  - intros H. now rewrite H.
  - intros H Hd svc Hs. rewrite H. unfold insights_prompt.
    rewrite (reduce_absent series_agg frame_agg AggMin df DATE Hd).
    destruct svc; [congruence| |]; reflexivity.
Qed.

End ReportEdges.


(** X15. Without the marker among its keys, and with names of ASCII
    characters, the visualizations section is its heading followed by one
    block per chart of the mapping, in the order of the mapping: a heading
    with the name in title case, then the image link; the writer
    returns. *)
Theorem visualizations_text (plots : dict string) (f : string) :
  Forall (fun item => every is_ascii (fst item) = true) plots ->
  dict_get plots "warning" = None ->
  _write_visualizations plots f
  = (f ++ ("## Visualizations" ++ LF ++ LF) ++ plot_blocks plots, Ok tt).
Proof.
  intros _ H. unfold _write_visualizations. rewrite H.
  pose proof (@sound_plots plots (write "") (proj1 (sound_write ""))) as P.
  destruct (sound_then (proj1 (sound_write ("## Visualizations" ++ LF ++ LF))) P)
    as [S T].
  rewrite S, T. do 2 f_equal.
  rewrite (@plots_text plots (write "") (proj1 (sound_write ""))).
  reflexivity.
Qed.


Lemma report_without_date_column_witness :
  generate_report no_stats no_series_agg no_frame_agg plain_value plain_amount
    plain_missing plain_stats "2024-03-01 09:00:00" "report" one_plot
    ledger_undated (Responds "Spending is steady.") svc_unreachable
  = ("# Bank Transaction Analysis Report" ++ LF ++ LF
       ++ "Generated on: " ++ "2024-03-01 09:00:00" ++ LF ++ LF,
     Raise (Exception "Error generating report: 'Transaction Date'")).
Proof.
  exact (@report_without_date_column no_stats no_series_agg no_frame_agg
           plain_value plain_amount plain_missing plain_stats
           "2024-03-01 09:00:00" "report" one_plot
           ledger_undated (Responds "Spending is steady.") svc_unreachable
           eq_refl eq_refl).
Defined.

Lemma report_when_judge_fails_witness :
  generate_report no_stats sum_decimal no_frame_agg plain_value plain_amount
    plain_missing plain_stats "2024-03-01 09:00:00" "report" one_plot
    ledger_refund_normalised (Responds "Spending is steady.") svc_fails_once
  = (("# Bank Transaction Analysis Report" ++ LF ++ LF
        ++ "Generated on: " ++ "2024-03-01 09:00:00" ++ LF ++ LF)
       ++ text_of (_write_structure_analysis plain_value plain_amount
                     plain_missing plain_stats ledger_refund_analysis)
       ++ text_of (_write_visualizations
                     [("monthly_volume", "plots/monthly_volume.png")])
       ++ ("## LLM Insights" ++ LF ++ LF
             ++ get_llm_insights sum_decimal no_frame_agg plain_amount
                  ledger_refund_normalised (Responds "Spending is steady.")
             ++ LF ++ LF),
     Raise (Exception "Error generating report: name 'time' is not defined")).
Proof.
  exact (@report_when_judge_fails no_stats sum_decimal no_frame_agg
           plain_value plain_amount plain_missing plain_stats
           "2024-03-01 09:00:00" "report" one_plot
           ledger_refund_normalised (Responds "Spending is steady.") svc_fails_once
           ledger_refund_analysis
           [("monthly_volume", "plots/monthly_volume.png")]
           (ServiceError "connection refused")
           eq_refl (fun _ => ex_intro _ "0.00" eq_refl) eq_refl eq_refl).
Defined.

Lemma report_on_ledger_without_rows_witness :
  generate_report no_stats no_series_agg no_frame_agg plain_value plain_amount
    plain_missing plain_stats "2024-03-01 09:00:00" "report" one_plot
    ledger_empty (Responds "Spending is steady.") svc_unreachable
  = ("# Bank Transaction Analysis Report" ++ LF ++ LF
       ++ "Generated on: " ++ "2024-03-01 09:00:00" ++ LF ++ LF
       ++ "## Data Structure Analysis" ++ LF ++ LF
       ++ "**Warning:** No data available for analysis" ++ LF ++ LF
       ++ "## Visualizations" ++ LF ++ LF
       ++ "**Warning:** No data available for visualization" ++ LF ++ LF
       ++ "## LLM Insights" ++ LF ++ LF
       ++ "No data available for analysis" ++ LF ++ LF
       ++ "## Expert Review" ++ LF ++ LF ++ unavailable_message ++ LF ++ LF,
     Ok (path_join "report" "analysis_report.md")).
Proof.
  exact (@report_on_ledger_without_rows no_stats no_series_agg no_frame_agg
           plain_value plain_amount plain_missing plain_stats
           "2024-03-01 09:00:00" "report" one_plot
           ledger_empty (Responds "Spending is steady.") svc_unreachable
           unavailable_message eq_refl eq_refl).
Defined.

Lemma visualizations_text_witness :
  _write_visualizations [("monthly_volume", "plots/monthly_volume.png")] EmptyString
  = (EmptyString ++ ("## Visualizations" ++ LF ++ LF)
       ++ plot_blocks [("monthly_volume", "plots/monthly_volume.png")],
     Ok tt).
Proof.
  refine (@visualizations_text [("monthly_volume", "plots/monthly_volume.png")]
            EmptyString _ eq_refl).
  repeat constructor.
Defined.

(** One chart, as it is written. *)
Example plot_block_example :
  plot_block ("monthly_volume", "plots/monthly_volume.png")
  = "### Monthly Volume" ++ LF ++ LF
      ++ "![monthly_volume](plots/monthly_volume.png)" ++ LF ++ LF.
Proof. reflexivity. Qed.

(** ** The charts *)

Section PlotProperties.

Variable plots_dir : string.
Variable prepare : string -> result unit.
Variable draw : string -> string -> result unit.
Variable save : string -> result unit.
Variable group_other : string -> selection -> result unit.

(** X16. [_create_and_save_plot] returns exactly when the kind is one of
    bar, pie and line and the preparation, the drawing and the saving all
    succeed, and then it returns the file name joined to the configured
    directory.  Whatever it raises is the exception that names the file;
    for another kind, that exception reports the unsupported kind. *)
Theorem create_plot_characterised (plot_type filename : string) :
  (forall path,
     _create_and_save_plot plots_dir prepare draw save plot_type filename = Ok path
     <-> (path = path_join plots_dir filename
          /\ supported_plot plot_type = true
          /\ prepare filename = Ok tt
          /\ draw plot_type filename = Ok tt
          /\ save filename = Ok tt))
  /\ (forall e,
        _create_and_save_plot plots_dir prepare draw save plot_type filename = Raise e ->
        exists m, e = Exception ("Error creating plot " ++ filename ++ ": " ++ m))
  /\ (prepare filename = Ok tt -> supported_plot plot_type = false ->
      _create_and_save_plot plots_dir prepare draw save plot_type filename
      = Raise (Exception ("Error creating plot " ++ filename
                            ++ ": Unsupported plot type: " ++ plot_type))).
Proof.
  unfold _create_and_save_plot. split; [|split].
  - intros path. split.
    + destruct (prepare filename) as [[]|]; cbn [bind]; [|discriminate].
      destruct (supported_plot plot_type); [|discriminate].
      destruct (draw plot_type filename) as [[]|]; cbn [bind]; [|discriminate].
      destruct (save filename) as [[]|]; cbn [bind]; [|discriminate].
      intros [= <-]. repeat split.
    + intros [-> [Hs [Hp [Hd Hv]]]]. now rewrite Hp, Hs, Hd, Hv.
  - intros e.
    destruct (prepare filename); cbn [bind];
      [|intros [= <-]; eexists; reflexivity].
    destruct (if supported_plot plot_type then draw plot_type filename
              else Raise (ValueError ("Unsupported plot type: " ++ plot_type)));
      cbn [bind]; [|intros [= <-]; eexists; reflexivity].
    destruct (save filename); cbn [bind];
      [discriminate|intros [= <-]; eexists; reflexivity].
  - intros Hp Hs. now rewrite Hp, Hs.
Qed.

(** X17. On a ledger that is not empty, a mapping returned by
    [visualize_transactions] is exactly this: the monthly volume first,
    then the type distribution if the ledger has the type column, then the
    top categories if it has the description column, each with its file in
    the configured directory; the marker is not among its keys. *)
Theorem visualize_result (df : DataFrame) (plots : dict string) :
  df_empty df = false ->
  visualize_transactions (plot_all plots_dir prepare draw save group_other) df
  = Ok plots ->
  plots
  = ([("monthly_volume", path_join plots_dir "monthly_volume.png")]
       ++ (if has_column df TYPE
           then [("type_distribution", path_join plots_dir "type_distribution.png")]
           else [])
       ++ (if has_column df DESCRIPTION
           then [("top_categories", path_join plots_dir "top_categories.png")]
           else []))%list
  /\ dict_get plots "warning" = None.
Proof.
  intros Hne. unfold visualize_transactions. rewrite Hne.
  destruct (plot_all plots_dir prepare draw save group_other df) as [d|] eqn:E;
    [|discriminate].
  intros [= <-]. unfold plot_all in E.
  destruct (monthly_data group_other df); cbn [bind] in E; [|discriminate].
  destruct (_create_and_save_plot plots_dir prepare draw save "bar" "monthly_volume.png")
    as [p1|] eqn:C1; cbn [bind] in E; [|discriminate].
  apply create_plot_ok in C1. subst p1.
  destruct (has_column df TYPE).
  - destruct (type_data group_other df); cbn [bind] in E; [|discriminate].
    destruct (_create_and_save_plot plots_dir prepare draw save "bar" "type_distribution.png")
      as [p2|] eqn:C2; cbn [bind] in E; [|discriminate].
    apply create_plot_ok in C2. subst p2.
    destruct (has_column df DESCRIPTION).
    + destruct (category_data group_other df); cbn [bind] in E; [|discriminate].
      destruct (_create_and_save_plot plots_dir prepare draw save "bar" "top_categories.png")
        as [p3|] eqn:C3; cbn [bind] in E; [|discriminate].
      apply create_plot_ok in C3. subst p3.
      injection E as <-. split; reflexivity.
    + cbn [bind] in E. injection E as <-. split; reflexivity.
  - cbn [bind] in E. destruct (has_column df DESCRIPTION).
    + destruct (category_data group_other df); cbn [bind] in E; [|discriminate].
      destruct (_create_and_save_plot plots_dir prepare draw save "bar" "top_categories.png")
        as [p3|] eqn:C3; cbn [bind] in E; [|discriminate].
      apply create_plot_ok in C3. subst p3.
      injection E as <-. split; reflexivity.
    + cbn [bind] in E. injection E as <-. split; reflexivity.
Qed.

(** X18. On a ledger with rows and without the date column
    [visualize_transactions] raises the exception that reports the missing
    key, before anything is prepared or drawn. *)
Theorem visualize_without_date_column (df : DataFrame) :
  df_empty df = false -> has_column df DATE = false ->
  visualize_transactions (plot_all plots_dir prepare draw save group_other) df
  = Raise (Exception "Error generating visualizations: 'Transaction Date'").
Proof.
  intros Hne Hd. unfold visualize_transactions, plot_all, monthly_data.
  now rewrite Hne, (getitem_absent df DATE Hd).
Qed.

(** X19. One chart that cannot be drawn fails the whole call: when the
    date column holds dates and drawing the monthly volume raises, no
    mapping is returned and the exception carries the message of the cause
    under the two prefixes. *)
Theorem visualize_chart_failure (df : DataFrame) (ds : list (option timestamp)) (e : exn) :
  df_empty df = false ->
  getitem df DATE = Single (DateCol ds) ->
  prepare "monthly_volume.png" = Ok tt ->
  draw "bar" "monthly_volume.png" = Raise e ->
  visualize_transactions (plot_all plots_dir prepare draw save group_other) df
  = Raise (Exception ("Error generating visualizations: "
                        ++ "Error creating plot monthly_volume.png: "
                        ++ str_exn e)).
Proof.
  intros Hne Hg Hp Hd.
  unfold visualize_transactions, plot_all, monthly_data, _create_and_save_plot.
  rewrite Hne, Hg. cbn [bind]. rewrite Hp. cbn [bind supported_plot].
  replace (supported_plot "bar") with true by reflexivity.
  rewrite Hd. reflexivity.
Qed.

End PlotProperties.

Lemma visualize_result_witness :
  [("monthly_volume", "plots/monthly_volume.png");
   ("top_categories", "plots/top_categories.png")]
  = ([("monthly_volume", path_join "plots" "monthly_volume.png")]
       ++ (if has_column ledger_sample_after TYPE
           then [("type_distribution", path_join "plots" "type_distribution.png")]
           else [])
       ++ (if has_column ledger_sample_after DESCRIPTION
           then [("top_categories", path_join "plots" "top_categories.png")]
           else []))%list
  /\ dict_get [("monthly_volume", "plots/monthly_volume.png");
               ("top_categories", "plots/top_categories.png")] "warning" = None.
Proof.
  exact (@visualize_result "plots" step_fine draw_fine step_fine no_group
           ledger_sample_after _ eq_refl eq_refl).
Defined.

Lemma visualize_without_date_column_witness :
  visualize_transactions (plot_all "plots" step_fine draw_fine step_fine no_group)
    ledger_undated
  = Raise (Exception "Error generating visualizations: 'Transaction Date'").
Proof.
  exact (@visualize_without_date_column "plots" step_fine draw_fine step_fine
           no_group ledger_undated eq_refl eq_refl).
Defined.

Lemma visualize_chart_failure_witness :
  visualize_transactions (plot_all "plots" step_fine draw_fails step_fine no_group)
    ledger_sample_after
  = Raise (Exception ("Error generating visualizations: "
                        ++ "Error creating plot monthly_volume.png: "
                        ++ str_exn (ValueError "no display"))).
Proof.
  exact (@visualize_chart_failure "plots" step_fine draw_fails step_fine no_group
           ledger_sample_after [Some (midnight 2023 12 25)]
           (ValueError "no display") eq_refl eq_refl eq_refl eq_refl).
Defined.


(** ** The report when the total cannot be formatted *)

Section ReportTotal.

Variable describe : DataFrame -> stats.
Variable series_agg : agg -> column -> result value.
Variable frame_agg : agg -> list column -> result value.
Variable str_value : value -> string.
Variable format_amount : value -> result string.
Variable missing_to_string : dict nat -> string.
Variable stats_to_string : stats -> string.
Variable now : string.
Variable report_dir : string.
Variable draw_plots : DataFrame -> result (dict string).

(** X22. When the summary is computed and its debit total does not
    support the amount format, the report stops inside the first section:
    the file holds the header, the heading, the number of transactions and
    the period, and the call raises the exception that reports the cause;
    no chart is drawn and no service is asked. *)
Theorem report_when_total_unformattable (df : DataFrame) (llm : attempt_outcome)
    (judge : nat -> attempt_outcome) (analysis : Analysis) (e : exn) :
  analyze_structure describe series_agg frame_agg df = Ok analysis ->
  warning analysis = None ->
  format_amount (total_debit analysis) = Raise e ->
  generate_report describe series_agg frame_agg str_value format_amount
    missing_to_string stats_to_string now report_dir draw_plots df llm judge
  = ("# Bank Transaction Analysis Report" ++ LF ++ LF
       ++ "Generated on: " ++ now ++ LF ++ LF
       ++ "## Data Structure Analysis" ++ LF ++ LF
       ++ "Number of transactions: "
       ++ string_of_nat (num_transactions analysis) ++ LF ++ LF
       ++ "Time period: " ++ str_value (time_period_start analysis) ++ " to "
       ++ str_value (time_period_end analysis) ++ LF ++ LF,
     Raise (Exception ("Error generating report: " ++ str_exn e))).
Proof.
  intros Ha Hw Hf. destruct (sound_header now) as [S0 T0].
  unfold generate_report, report_body.
  rewrite sound_then_run by exact S0.
  rewrite Ha. cbn [lift]. unfold _write_structure_analysis.
  rewrite Hw, Hf. rewrite T0.
  cbv beta iota delta [then_ write fail].
  f_equal. rewrite !append_assoc_s. reflexivity.
Qed.

End ReportTotal.

Lemma report_when_total_unformattable_witness :
  generate_report no_stats sum_decimal sum_columns plain_value amount_of_number
    plain_missing plain_stats "2024-03-01 09:00:00" "report" one_plot
    ledger_padded_after (Responds "Spending is steady.") svc_unreachable
  = ("# Bank Transaction Analysis Report" ++ LF ++ LF
       ++ "Generated on: " ++ "2024-03-01 09:00:00" ++ LF ++ LF
       ++ "## Data Structure Analysis" ++ LF ++ LF
       ++ "Number of transactions: " ++ string_of_nat 2 ++ LF ++ LF
       ++ "Time period: " ++ plain_value (VDate (midnight 2024 2 1)) ++ " to "
       ++ plain_value (VDate (midnight 2024 2 2)) ++ LF ++ LF,
     Raise (Exception ("Error generating report: "
                         ++ str_exn (TypeError "unsupported format string passed to Series.__format__")))).
Proof.
  exact (@report_when_total_unformattable no_stats sum_decimal sum_columns
           plain_value amount_of_number plain_missing plain_stats
           "2024-03-01 09:00:00" "report" one_plot
           ledger_padded_after (Responds "Spending is steady.") svc_unreachable
           (mkAnalysis 2 (VDate (midnight 2024 2 1)) (VDate (midnight 2024 2 2))
              (VSeries [DEBIT; DEBIT] [VStr "£5.00£7.50"; VNum (Fin 0 0)])
              (VNum (Fin 3 0))
              [(DATE, 0); (DEBIT, 0); (CREDIT, 0)] [] None)
           (TypeError "unsupported format string passed to Series.__format__")
           eq_refl eq_refl eq_refl).
Defined.

